(** * OVRO-LWA spectral-kurtosis pipeline: block reducer, SK flagger,
      mask combiner and frequency-block integrator.

    Shallow embedding of
      - [beam/scripts/ovro_lwa_sk_stream.py]  (stage 1, [stream_sk_dualpol])
      - [scripts/ovro_lwa_rfi_clean.py]       (stage 2, [rfi_clean])
      - [beam/scripts/ovro_lwa_sk_quicklook.py]  (the readers of both products)
      - [scripts/make_ovro_lwa_segment.py]    (the demo-segment tool)

    Numbers.  NumPy's float64 is modelled by exact rationals extended with
    one NaN value ([Float.float]).  Rounding of float64 operations,
    infinities and signed zeros are outside that model; NaN propagates
    through arithmetic and makes every ordered comparison false, as in
    IEEE 754.  The cast to float32 of the stored sums is the rounding of
    the value to binary32.  Where a statement depends on the rounding of
    float64 itself, the integrator is run on the kernel's binary64 numbers
    ([B64]).  Python integers are [Z]; array extents are [nat]. *)

From Stdlib Require Import ZArith QArith Qcanon Qround Qabs String Ascii.
From Stdlib Require PrimFloat Uint63.
From stdpp Require Import base strings numbers option list gmap.

Set Default Proof Using "Type".

(* ================================================================== *)
(** ** Floating-point values *)
(* ================================================================== *)

Module Float.

Inductive float : Type :=
| Fin (q : Qc)
| NaN.

Definition of_Z (z : Z) : float := Fin (Q2Qc (inject_Z z)).
Definition of_nat (n : nat) : float := of_Z (Z.of_nat n).
Definition zero : float := of_Z 0.
Definition one : float := of_Z 1.

(** [astype(float)] on a boolean: 1.0 for True, 0.0 for False. *)
Definition of_bool (b : bool) : float := if b then one else zero.

Definition add (x y : float) : float :=
  match x, y with
  | Fin a, Fin b => Fin (a + b)%Qc
  | _, _ => NaN
  end.

Definition mul (x y : float) : float :=
  match x, y with
  | Fin a, Fin b => Fin (a * b)%Qc
  | _, _ => NaN
  end.

(** A finite value divided by zero is not finite; the model has a single
    non-finite value.  Both stages only divide by a positive count. *)
Definition div (x y : float) : float :=
  match x, y with
  | Fin a, Fin b => if decide (b = 0%Qc) then NaN else Fin (a / b)%Qc
  | _, _ => NaN
  end.

Definition ltb (x y : float) : bool :=
  match x, y with
  | Fin a, Fin b => bool_decide (a < b)%Qc
  | _, _ => false
  end.

Definition gtb (x y : float) : bool := ltb y x.

Definition eqb (x y : float) : bool :=
  match x, y with
  | Fin a, Fin b => bool_decide (a = b)
  | _, _ => false
  end.

Definition neb (x y : float) : bool := negb (eqb x y).

Definition is_finite (x : float) : Prop :=
  match x with Fin _ => True | NaN => False end.

(** [np.sum] of a 1-D run of values: accumulation from 0. *)
Definition sum (l : list float) : float := foldl add zero l.

(** [np.mean]. *)
Definition mean (l : list float) : float := div (sum l) (of_nat (length l)).

(** [floor (log2 q)] of a positive rational. *)
Definition floor_log2 (q : Q) : Z :=
  let e := (Z.log2 (Qnum q) - Z.log2 (Z.pos (Qden q)))%Z in
  if Qle_bool (Qpower 2 e) q then e else (e - 1)%Z.

(** The integer nearest to a rational, ties to the even one. *)
Definition round_half_even (r : Q) : Z :=
  let n := Qfloor r in
  match (2 * (Qnum r - n * Z.pos (Qden r)) ?= Z.pos (Qden r))%Z with
  | Lt => n
  | Gt => (n + 1)%Z
  | Eq => if Z.even n then n else (n + 1)%Z
  end.

(** [x.astype("float32")]: the nearest binary32 number (24-bit
    significand, exponents from -126, subnormals below), ties to even.  A
    value that rounds beyond the binary32 range becomes non-finite. *)
Definition astype_float32 (x : float) : float :=
  match x with
  | NaN => NaN
  | Fin q =>
      let a := Qabs q in
      if Qle_bool a 0 then Fin q
      else
        let e := (floor_log2 a `max` (-126))%Z in
        let ulp := Qpower 2 (e - 23) in
        let n := round_half_even (a / ulp) in
        let r := (inject_Z n * ulp)%Q in
        if Qle_bool (Qpower 2 128) r then NaN
        else Fin (Q2Qc (if Qle_bool 0 q then r else - r))
  end.

End Float.

Import Float.

(* ================================================================== *)
(** ** Exceptions and results *)
(* ================================================================== *)

(** One constructor per [raise] site; the comment gives the message. *)
Inductive message : Type :=
| XX_YY_shapes_mismatch        (* "XX and YY shapes mismatch: ..." *)
| Freq_axis_length_mismatch    (* "Frequency axis length ... does not match data nfreq=..." *)
| Time_dataset_shape           (* "'time' dataset must be 1-D with length ..." *)
| Start_idx_out_of_range       (* "start_idx=... is out of range for ns_total=..." *)
| Ns_max_not_positive          (* "ns_max must be a positive integer if provided." *)
| No_samples_selected          (* "No samples selected: ..." *)
| Not_enough_samples           (* "Not enough samples (...) to form even one block of size M=..." *)
| Bad_flag_mode                (* "flag_mode must be one of: 'separate', 'or', 'and'." *)
| S1_good_shape_mismatch       (* "s1 and good mask must have the same shape." *)
| F_block_not_positive         (* "F_block must be > 0." *)
| F_smaller_than_F_block       (* "F=... is smaller than F_block=...; no full blocks can be formed." *)
| Cannot_broadcast             (* NumPy: "operands could not be broadcast together ..." *)
| Cannot_reshape               (* NumPy: "cannot reshape array of size ... into shape ..." *)
| Missing_axes                 (* "Input file must contain 'freq_hz' and 'time_blk' datasets." *)
| Missing_polarizations        (* "SK-stream file must contain at least one of ..." *)
| Inconsistent_F_eff           (* "Inconsistent F_eff or n_blocks between XX and YY cleaning." *)
| Nothing_cleaned              (* "No polarization was cleaned; nothing to write." *)
| Cannot_convert_NaN.          (* Python: "cannot convert float NaN to integer" *)

(** [EvaluatorError] stands for whatever the external SK library raises
    when it rejects its arguments. *)
Inductive exn : Type :=
| ValueError (m : message)
| KeyError (m : message)
| RuntimeError (m : message)
| ZeroDivisionError
| EvaluatorError.

Inductive result (A : Type) : Type :=
| Ok (a : A)
| Raise (e : exn).
Arguments Ok {A} a.
Arguments Raise {A} e.

Global Instance result_ret : MRet result := λ A a, Ok a.
Global Instance result_bind : MBind result := λ A B k r,
  match r with
  | Ok a => k a
  | Raise e => Raise e
  end.

Global Instance result_fmap : FMap result := λ A B f r,
  match r with
  | Ok a => Ok (f a)
  | Raise e => Raise e
  end.

(** Python's [a // b] on integers. *)
Definition floordiv (a b : Z) : result Z :=
  if decide (b = 0)%Z then Raise ZeroDivisionError else Ok (a `div` b)%Z.

(* ================================================================== *)
(** ** Two-dimensional arrays *)
(* ================================================================== *)

Record ndarray (A : Type) : Type := NdArray {
  shape : nat * nat;
  rows : list (list A);
}.
Arguments NdArray {A} shape rows.
Arguments shape {A} _.
Arguments rows {A} _.

(** What every NumPy / HDF5 array satisfies. *)
Definition wf {A} (a : ndarray A) : Prop :=
  length (rows a) = (shape a).1 ∧ Forall (λ r, length r = (shape a).2) (rows a).

Definition amap {A B} (f : A → B) (a : ndarray A) : ndarray B :=
  NdArray (shape a) (fmap (M := list) f <$> rows a).

(** [a[t, f]] *)
Definition cell {A} (a : ndarray A) (t f : nat) : option A :=
  rows a !! t ≫= λ r, r !! f.

(** [l[i0:i1]] for [0 ≤ i0]. *)
Definition slice {A} (i0 i1 : Z) (l : list A) : list A :=
  take (Z.to_nat (i1 - i0)) (drop (Z.to_nat i0) l).

(** [block.sum(axis=0)] of a block with [nf] columns. *)
Definition sum_axis0 (nf : nat) (block : list (list float)) : list float :=
  foldl (zip_with add) (replicate nf zero) block.

(** [np.square]. *)
Definition square (block : list (list float)) : list (list float) :=
  fmap (M := list) (λ x, mul x x) <$> block.

(** [arr[mask] = v] on a 1-D array. *)
Definition mask_assign {A} (mask : list bool) (v : A) (arr : list A) : list A :=
  zip_with (λ (m : bool) x, if m then v else x) mask arr.

(** Row-major split of a run into [n] consecutive groups of [size]. *)
Fixpoint chunks {A} (n size : nat) (l : list A) : list (list A) :=
  match n with
  | O => []
  | S n' => take size l :: chunks n' size (drop size l)
  end.

(** [l.reshape(n, size)] *)
Definition reshape {A} (n size : nat) (l : list A) : result (list (list A)) :=
  if decide (length l = n * size) then Ok (chunks n size l)
  else Raise (ValueError Cannot_reshape).

(** NumPy broadcasting of two 2-D shapes. *)
Definition broadcast_dim (a b : nat) : option nat :=
  if decide (a = b) then Some a
  else if decide (a = 1) then Some b
  else if decide (b = 1) then Some a
  else None.

Definition stretch {A} (n : nat) (l : list A) : list A :=
  if decide (length l = n) then l
  else match l with
       | [x] => replicate n x
       | _ => l
       end.

Definition broadcast_to {A} (shp : nat * nat) (a : ndarray A) : ndarray A :=
  NdArray shp (stretch shp.1 (stretch shp.2 <$> rows a)).

(** Element-wise binary operation with broadcasting. *)
Definition azip_with {A B C} (f : A → B → C) (a : ndarray A) (b : ndarray B)
  : result (ndarray C) :=
  match broadcast_dim (shape a).1 (shape b).1,
        broadcast_dim (shape a).2 (shape b).2 with
  | Some r, Some c =>
      Ok (NdArray (r, c)
            (zip_with (zip_with f) (rows (broadcast_to (r, c) a))
                                   (rows (broadcast_to (r, c) b))))
  | _, _ => Raise (ValueError Cannot_broadcast)
  end.

(* ================================================================== *)
(** ** Stage 1: streaming block reducer and SK flagger *)
(* ================================================================== *)

(** The external SK evaluator ([pygsk.core.get_sk] and
    [pygsk.thresholds.compute_sk_thresholds]).  Its formulas are not part
    of this repository; the only contract used is that [get_sk] returns one
    SK value per frequency channel.  [compute_sk_thresholds M N d pfa] is
    [None] when the library raises instead of returning its triple, of
    which the code keeps the first two components, [lower] and [upper]. *)
Class SKEvaluator : Type := {
  get_sk : list float → list float → Z → Z → float → list float;
  get_sk_length : ∀ s1 s2 M N d,
    length s1 = length s2 → length (get_sk s1 s2 M N d) = length s1;
  compute_sk_thresholds : Z → Z → float → float → option (float * float * float);
}.

(** The raw file: the datasets [XX], [YY], [freq] and (optional) [time] of
    the group [/Observation1/Tuning1], and the (optional) dataset
    [/Observation1/time] one level up ([obs_time]).  Timestamps are taken
    as already numeric. *)
Record h5file : Type := H5File {
  XX : ndarray float;
  YY : ndarray float;
  freq : list float;
  time : option (list float);
  obs_time : option (list float);
}.

(** The reduced product written by stage 1. *)
Record skstream : Type := SkStream {
  s1_xx : list (list float);
  s1_yy : list (list float);
  sk_flags_xx : list (list Z);
  sk_flags_yy : list (list Z);
  freq_hz : list float;
  time_blk : list float;
  attr_M : Z;
  attr_N : Z;
  attr_d : float;
  attr_pfa : float;
  attr_ns_total : Z;
  attr_ns_start : Z;
  attr_ns_eff : Z;
  attr_nfreq : Z;
}.

(** The four row-wise datasets and the block-time dataset while the loop
    fills them. *)
Record datasets : Type := Datasets {
  dset_s1_xx : list (list float);
  dset_s1_yy : list (list float);
  dset_flags_xx : list (list Z);
  dset_flags_yy : list (list Z);
  dset_time_blk : list float;
}.

Definition _load_time_array (ds_time : list float) (ns_total : nat)
  : result (list float) :=
  if decide (length ds_time ≠ ns_total) then Raise (ValueError Time_dataset_shape)
  else Ok ds_time.

(** [np.arange(n, dtype=float)] *)
Definition arange (n : nat) : list float := of_nat <$> seq 0 n.

Definition _open_datasets (fin : h5file)
  : result (ndarray float * ndarray float * list float * list float) :=
  let ds_xx := XX fin in
  let ds_yy := YY fin in
  let '(ns_total_xx, nf_xx) := shape ds_xx in
  let '(ns_total_yy, nf_yy) := shape ds_yy in
  if decide (ns_total_xx ≠ ns_total_yy ∨ nf_xx ≠ nf_yy)
  then Raise (ValueError XX_YY_shapes_mismatch)
  else
    let ns_total := ns_total_xx in
    let nf := nf_xx in
    if decide (length (freq fin) ≠ nf)
    then Raise (ValueError Freq_axis_length_mismatch)
    else
      time ← match time fin with
              | Some ds_time => _load_time_array ds_time ns_total
              | None => Ok (arange ns_total)
              end;
      Ok (ds_xx, ds_yy, freq fin, time).

(** Flags of one polarization for one block:
    [flags = zeros; flags[sk < lower] = -1; flags[sk > upper] = +1]. *)
Definition sk_flags (lower upper : float) (sk_block : list float) : list Z :=
  let flags := replicate (length sk_block) 0%Z in
  let flags := mask_assign ((λ sk, ltb sk lower) <$> sk_block) (-1)%Z flags in
  let flags := mask_assign ((λ sk, gtb sk upper) <$> sk_block) 1%Z flags in
  flags.

Section stage1.
Context `{E : SKEvaluator}.

(** First and second moment sums of the block [i0:i1]. *)
Definition block_moments (ds : ndarray float) (i0 i1 : Z)
  : list float * list float :=
  let block := slice i0 i1 (rows ds) in
  let nf := (shape ds).2 in
  (sum_axis0 nf block, sum_axis0 nf (square block)).

(** SK values of one polarization for one block. *)
Definition block_sk (ds : ndarray float) (M N : Z) (d : float) (i0 i1 : Z)
  : list float :=
  let '(s1_block, s2_block) := block_moments ds i0 i1 in
  get_sk s1_block s2_block M N d.

(** Body of [for k in range(T)]: read the block [i0:i1] of both
    polarizations, reduce it, evaluate SK, flag, and write row [k] of every
    output dataset; the S1 sums are stored as float32. *)
Definition block_step (ds_xx ds_yy : ndarray float) (time : list float)
    (M N : Z) (d : float) (start_idx : Z) (lower upper : float)
    (out : datasets) (k : nat) : datasets :=
  let i0 := (start_idx + Z.of_nat k * M)%Z in
  let i1 := (i0 + M)%Z in
  let t_block := slice i0 i1 time in
  let time_blk_k := mean t_block in
  let s1_xx_block := (block_moments ds_xx i0 i1).1 in
  let s1_yy_block := (block_moments ds_yy i0 i1).1 in
  let sk_xx_block := block_sk ds_xx M N d i0 i1 in
  let sk_yy_block := block_sk ds_yy M N d i0 i1 in
  let flags_xx := sk_flags lower upper sk_xx_block in
  let flags_yy := sk_flags lower upper sk_yy_block in
  {| dset_time_blk := <[k := time_blk_k]> (dset_time_blk out);
     dset_s1_xx := <[k := astype_float32 <$> s1_xx_block]> (dset_s1_xx out);
     dset_s1_yy := <[k := astype_float32 <$> s1_yy_block]> (dset_s1_yy out);
     dset_flags_xx := <[k := flags_xx]> (dset_flags_xx out);
     dset_flags_yy := <[k := flags_yy]> (dset_flags_yy out) |}.

(** Freshly created output datasets of [T] blocks and [nf] channels. *)
Definition create_datasets (T nf : nat) : datasets :=
  {| dset_s1_xx := replicate T (replicate nf zero);
     dset_s1_yy := replicate T (replicate nf zero);
     dset_flags_xx := replicate T (replicate nf 0%Z);
     dset_flags_yy := replicate T (replicate nf 0%Z);
     dset_time_blk := replicate T zero |}.

(** [stream_sk_dualpol]: every check, and the call that computes the
    thresholds, precedes the creation of the output file, so a raised
    exception means that no product is written. *)
Definition stream_sk_dualpol (fin : h5file) (M N : Z) (d pfa : float)
    (start_idx : Z) (ns_max : option Z) : result skstream :=
  '(ds_xx, ds_yy, freq, time) ← _open_datasets fin;
  let '(ns_total, nf) := shape ds_xx in
  let ns_total := Z.of_nat ns_total in
  if decide (start_idx < 0 ∨ ns_total ≤ start_idx)%Z
  then Raise (ValueError Start_idx_out_of_range)
  else
    ns_sel ← match ns_max with
              | None => Ok (ns_total - start_idx)%Z
              | Some ns_max =>
                  if decide (ns_max ≤ 0)%Z
                  then Raise (ValueError Ns_max_not_positive)
                  else Ok (ns_max `min` (ns_total - start_idx))%Z
              end;
    if decide (ns_sel ≤ 0)%Z
    then Raise (ValueError No_samples_selected)
    else
      T ← floordiv ns_sel M;
      let ns_eff := (T * M)%Z in
      if decide (T ≤ 0)%Z
      then Raise (ValueError Not_enough_samples)
      else
        '(lower, upper, _) ← match compute_sk_thresholds M N d pfa with
                              | Some thr => Ok thr
                              | None => Raise EvaluatorError
                              end;
        let out :=
          foldl (block_step ds_xx ds_yy time M N d start_idx lower upper)
                (create_datasets (Z.to_nat T) nf)
                (seq 0 (Z.to_nat T)) in
        Ok {| s1_xx := dset_s1_xx out;
              s1_yy := dset_s1_yy out;
              sk_flags_xx := dset_flags_xx out;
              sk_flags_yy := dset_flags_yy out;
              freq_hz := freq;
              time_blk := dset_time_blk out;
              attr_M := M; attr_N := N; attr_d := d; attr_pfa := pfa;
              attr_ns_total := ns_total;
              attr_ns_start := start_idx;
              attr_ns_eff := ns_eff;
              attr_nfreq := Z.of_nat nf |}.

End stage1.

(* ================================================================== *)
(** ** Stage 2: mask combination and frequency-block integration *)
(* ================================================================== *)

(** The SK-stream file as stage 2 finds it: any dataset may be absent.
    Flags are stored as int8. *)
Record skfile : Type := SkFile {
  file_freq_hz : option (list float);
  file_time_blk : option (list float);
  file_s1_xx : option (ndarray float);
  file_sk_flags_xx : option (ndarray Z);
  file_s1_yy : option (ndarray float);
  file_sk_flags_yy : option (ndarray Z);
  file_attrs : list (string * float);
}.

(** The dictionary returned by [_load_skstream]; [has_xx] is
    [is_Some (data_xx _)], and a present polarization carries the pair
    ([s1], [flags]). *)
Record skdata : Type := SkData {
  data_freq_hz : list float;
  data_time_blk : list float;
  data_xx : option (ndarray float * ndarray float);
  data_yy : option (ndarray float * ndarray float);
  data_attrs : list (string * float);
}.

Definition has_xx (data : skdata) : bool := bool_decide (is_Some (data_xx data)).
Definition has_yy (data : skdata) : bool := bool_decide (is_Some (data_yy data)).

Definition load_pol (s1 : option (ndarray float)) (flags : option (ndarray Z))
  : option (ndarray float * ndarray float) :=
  match s1, flags with
  | Some s1, Some flags => Some (s1, amap of_Z flags)
  | _, _ => None
  end.

Definition _load_skstream (f : skfile) : result skdata :=
  match file_freq_hz f, file_time_blk f with
  | Some freq_hz, Some time_blk =>
      let xx := load_pol (file_s1_xx f) (file_sk_flags_xx f) in
      let yy := load_pol (file_s1_yy f) (file_sk_flags_yy f) in
      match xx, yy with
      | None, None => Raise (KeyError Missing_polarizations)
      | _, _ =>
          let attrs :=
            filter (λ kv, kv.1 ∈ ["M"; "N"; "d"; "pfa"]) (file_attrs f) in
          Ok {| data_freq_hz := freq_hz; data_time_blk := time_blk;
                data_xx := xx; data_yy := yy; data_attrs := attrs |}
      end
  | _, _ => Raise (KeyError Missing_axes)
  end.

(** [np.divide(a, b, out=zeros, where=(b > 0))] on one element. *)
Definition divide_where_pos (a b : float) : float :=
  if gtb b zero then div a b else zero.

Definition _clean_with_good_mask (s1 : ndarray float) (good : ndarray bool)
    (F_block : Z) : result (ndarray float * ndarray float * Z * Z) :=
  if decide (shape s1 ≠ shape good)
  then Raise (ValueError S1_good_shape_mismatch)
  else
    let '(T, F) := shape s1 in
    if decide (F_block ≤ 0)%Z
    then Raise (ValueError F_block_not_positive)
    else
      n_blocks ← floordiv (Z.of_nat F) F_block;
      let F_eff := (n_blocks * F_block)%Z in
      if decide (n_blocks = 0)%Z
      then Raise (ValueError F_smaller_than_F_block)
      else
        (* restrict to full blocks *)
        let s1_eff := take (Z.to_nat F_eff) <$> rows s1 in
        let good_eff := take (Z.to_nat F_eff) <$> rows good in
        let good_f := fmap (M := list) of_bool <$> good_eff in
        (* apply mask and reshape into (T, n_blocks, F_block) *)
        let s1_masked := zip_with (zip_with mul) s1_eff good_f in
        let s1_blk := chunks (Z.to_nat n_blocks) (Z.to_nat F_block) <$> s1_masked in
        let good_blk := chunks (Z.to_nat n_blocks) (Z.to_nat F_block) <$> good_f in
        let s1_sum := fmap (M := list) sum <$> s1_blk in
        let n_good := fmap (M := list) sum <$> good_blk in
        let avg_good := zip_with (zip_with divide_where_pos) s1_sum n_good in
        let s1_clean := fmap (M := list) (λ a, mul a (of_Z F_block)) <$> avg_good in
        (* s1_clean[n_good == 0] = nan *)
        let s1_clean :=
          zip_with (zip_with (λ n c, if eqb n zero then NaN else c))
                   n_good s1_clean in
        let mask_block := n_good in
        Ok (NdArray (T, Z.to_nat n_blocks) s1_clean,
            NdArray (T, Z.to_nat n_blocks) mask_block,
            F_eff, n_blocks).

(** [str.lower] on ASCII letters. *)
Definition lower_ascii (c : ascii) : ascii :=
  let n := nat_of_ascii c in
  if decide (65 ≤ n ∧ n ≤ 90) then ascii_of_nat (n + 32) else c.

Fixpoint str_lower (s : string) : string :=
  match s with
  | EmptyString => EmptyString
  | String c s' => String (lower_ascii c) (str_lower s')
  end.

(** [good = (flags == 0)] *)
Definition own_good (flags : ndarray float) : ndarray bool :=
  amap (λ x, eqb x zero) flags.

(** The shared mask of the [or] / [and] policies:
    [fxx = flags_xx != 0; fyy = flags_yy != 0;
     flagged_comb = fxx | fyy  (or fxx & fyy); good_comb = ~flagged_comb]. *)
Definition shared_good (flag_mode : string) (flags_xx flags_yy : ndarray float)
  : result (ndarray bool) :=
  let fxx := amap (λ x, neb x zero) flags_xx in
  let fyy := amap (λ x, neb x zero) flags_yy in
  flagged_comb ← (if decide (flag_mode = "or")
                  then azip_with orb fxx fyy
                  else azip_with andb fxx fyy);
  Ok (amap negb flagged_comb).

(** "Combine masks according to flag_mode": [good_comb] stays [None]
    unless the mode is [or] / [and] and both polarizations are present. *)
Definition combine_masks (flag_mode : string)
    (xx yy : option (ndarray float * ndarray float))
  : result (option (ndarray bool)) :=
  match xx, yy with
  | Some (_, flags_xx), Some (_, flags_yy) =>
      if decide (flag_mode ∈ ["or"; "and"])
      then Some <$> shared_good flag_mode flags_xx flags_yy
      else Ok None
  | _, _ => Ok None
  end.

(** "Clean XX and YY as available", for one polarization:
    [good_for = good_comb if good_comb is not None else good_<pol>]. *)
Definition clean_pol (good_comb : option (ndarray bool)) (F_block : Z)
    (pol_data : option (ndarray float * ndarray float))
  : result (option (ndarray float * ndarray float * Z * Z)) :=
  match pol_data with
  | Some (s1, flags) =>
      let good_for := default (own_good flags) good_comb in
      Some <$> _clean_with_good_mask s1 good_for F_block
  | None => Ok None
  end.

(** [int(x)] of a float: truncation toward zero; NaN has no integer. *)
Definition int_of_float (x : float) : result Z :=
  match x with
  | Fin q => Ok (if Qle_bool 0 q then Qfloor q else Qceiling q)
  | NaN => Raise (ValueError Cannot_convert_NaN)
  end.

(** [attrs.get(key)] on the attributes copied by the loader; a later entry
    of the list stands for a later assignment to the same key. *)
Definition attrs_get (key : string) (attrs : list (string * float))
  : option float :=
  snd <$> last (filter (λ kv, kv.1 = key) attrs).

(** [M_stage1 = int(attrs.get("M", -1)) if "M" in attrs else None] *)
Definition M_stage1_of (attrs : list (string * float)) : result (option Z) :=
  match attrs_get "M" attrs with
  | Some v => Some <$> int_of_float v
  | None => Ok None
  end.

(** The cleaned product written by stage 2; [out_M_stage1] is the value of
    the variable [M_stage1], which is written as an attribute when it is
    not negative. *)
Record cleaned : Type := Cleaned {
  out_time_blk : list float;
  freq_block_hz : list float;
  s1_xx_clean : option (ndarray float);
  mask_xx : option (ndarray float);
  s1_yy_clean : option (ndarray float);
  mask_yy : option (ndarray float);
  out_attrs : list (string * float);
  out_F_block : Z;
  out_flag_mode : string;
  out_F_eff : Z;
  out_n_blocks : Z;
  out_M_stage1 : option Z;
}.

Definition rfi_clean (f : skfile) (F_block : Z) (flag_mode : string)
  : result cleaned :=
  data ← _load_skstream f;
  let freq := data_freq_hz data in
  let time_blk := data_time_blk data in
  let attrs := data_attrs data in
  M_stage1 ← M_stage1_of attrs;
  let flag_mode := str_lower flag_mode in
  if decide (flag_mode ∉ ["separate"; "or"; "and"])
  then Raise (ValueError Bad_flag_mode)
  else
    good_comb ← combine_masks flag_mode (data_xx data) (data_yy data);
    res_xx ← clean_pol good_comb F_block (data_xx data);
    res_yy ← clean_pol good_comb F_block (data_yy data);
    '(F_eff, n_blocks) ←
      match res_xx, res_yy with
      | Some (_, _, F_eff_xx, n_blocks_xx), Some (_, _, F_eff_yy, n_blocks_yy) =>
          if decide (F_eff_xx ≠ F_eff_yy ∨ n_blocks_xx ≠ n_blocks_yy)
          then Raise (RuntimeError Inconsistent_F_eff)
          else Ok (F_eff_xx, n_blocks_xx)
      | Some (_, _, F_eff_xx, n_blocks_xx), None => Ok (F_eff_xx, n_blocks_xx)
      | None, Some (_, _, F_eff_yy, n_blocks_yy) => Ok (F_eff_yy, n_blocks_yy)
      | None, None => Raise (RuntimeError Nothing_cleaned)
      end;
    (* block-averaged frequencies *)
    let freq_eff := take (Z.to_nat F_eff) freq in
    freq_2d ← reshape (Z.to_nat n_blocks) (Z.to_nat F_block) freq_eff;
    let freq_blk := mean <$> freq_2d in
    Ok {| out_time_blk := time_blk;
          freq_block_hz := freq_blk;
          s1_xx_clean := (λ r, r.1.1.1) <$> res_xx;
          mask_xx := (λ r, r.1.1.2) <$> res_xx;
          s1_yy_clean := (λ r, r.1.1.1) <$> res_yy;
          mask_yy := (λ r, r.1.1.2) <$> res_yy;
          out_attrs := attrs;
          out_F_block := F_block;
          out_flag_mode := flag_mode;
          out_F_eff := F_eff;
          out_n_blocks := n_blocks;
          out_M_stage1 := M_stage1 |}.

(** The file in which stage 1 persists its product. *)
Definition to_skfile (out : skstream) : skfile :=
  let T := length (time_blk out) in
  let nf := Z.to_nat (attr_nfreq out) in
  {| file_freq_hz := Some (freq_hz out);
     file_time_blk := Some (time_blk out);
     file_s1_xx := Some (NdArray (T, nf) (s1_xx out));
     file_sk_flags_xx := Some (NdArray (T, nf) (sk_flags_xx out));
     file_s1_yy := Some (NdArray (T, nf) (s1_yy out));
     file_sk_flags_yy := Some (NdArray (T, nf) (sk_flags_yy out));
     file_attrs := [("M", of_Z (attr_M out)); ("N", of_Z (attr_N out));
                    ("d", attr_d out); ("pfa", attr_pfa out);
                    ("ns_total", of_Z (attr_ns_total out));
                    ("ns_start", of_Z (attr_ns_start out));
                    ("ns_eff", of_Z (attr_ns_eff out));
                    ("nfreq", of_Z (attr_nfreq out))] |}.

(* ================================================================== *)
(** ** Auxiliary definitions used by the statements *)
(* ================================================================== *)

Inductive pol : Type := PolXX | PolYY.

Definition raw_of (p : pol) (fin : h5file) : ndarray float :=
  match p with PolXX => XX fin | PolYY => YY fin end.

Definition s1_of (p : pol) (out : skstream) : list (list float) :=
  match p with PolXX => s1_xx out | PolYY => s1_yy out end.

Definition flags_of (p : pol) (out : skstream) : list (list Z) :=
  match p with PolXX => sk_flags_xx out | PolYY => sk_flags_yy out end.

Definition other (p : pol) : pol :=
  match p with PolXX => PolYY | PolYY => PolXX end.

Definition file_s1 (p : pol) (f : skfile) : option (ndarray float) :=
  match p with PolXX => file_s1_xx f | PolYY => file_s1_yy f end.

Definition file_flags (p : pol) (f : skfile) : option (ndarray Z) :=
  match p with PolXX => file_sk_flags_xx f | PolYY => file_sk_flags_yy f end.

Definition data_pol (p : pol) (data : skdata)
  : option (ndarray float * ndarray float) :=
  match p with PolXX => data_xx data | PolYY => data_yy data end.

Definition s1_clean_of (p : pol) (out : cleaned) : option (ndarray float) :=
  match p with PolXX => s1_xx_clean out | PolYY => s1_yy_clean out end.

Definition mask_of (p : pol) (out : cleaned) : option (ndarray float) :=
  match p with PolXX => mask_xx out | PolYY => mask_yy out end.

(** The cell of the shared mask under the [or] / [and] policies. *)
Definition shared_cell (flag_mode : string) (x y : Z) : bool :=
  if decide (flag_mode = "or")
  then negb (bool_decide (x ≠ 0%Z) || bool_decide (y ≠ 0%Z))
  else negb (bool_decide (x ≠ 0%Z) && bool_decide (y ≠ 0%Z)).

(** An SK-stream file all of whose arrays are well formed with [T] time
    blocks and [F] channels. *)
Definition file_wf (T F : nat) (f : skfile) : Prop :=
  ∀ p, (∀ a, file_s1 p f = Some a → wf a ∧ shape a = (T, F)) ∧
       (∀ a, file_flags p f = Some a → wf a ∧ shape a = (T, F)).

(** The first [n] channels of an array (the shape label is kept), and of
    every dataset of a file. *)
Definition crop {A} (n : nat) (a : ndarray A) : ndarray A :=
  NdArray (shape a) (take n <$> rows a).

Definition crop_file (n : nat) (f : skfile) : skfile :=
  {| file_freq_hz := take n <$> file_freq_hz f;
     file_time_blk := file_time_blk f;
     file_s1_xx := crop n <$> file_s1_xx f;
     file_sk_flags_xx := crop n <$> file_sk_flags_xx f;
     file_s1_yy := crop n <$> file_s1_yy f;
     file_sk_flags_yy := crop n <$> file_sk_flags_yy f;
     file_attrs := file_attrs f |}.

(** Two loaded polarizations that agree on their first [n] channels. *)
Definition pol_crop_eq (n : nat)
    (x x' : option (ndarray float * ndarray float)) : Prop :=
  match x, x' with
  | Some (s, fl), Some (s', fl') => crop n s' = crop n s ∧ crop n fl' = crop n fl
  | None, None => True
  | _, _ => False
  end.

(** The good mask that [rfi_clean] hands to the integrator for
    polarization [p]: the shared mask when there is one, else the
    polarization's own (see [clean_pol]). *)
Definition good_for (flag_mode : string) (data : skdata) (p : pol)
  : result (option (ndarray bool)) :=
  good_comb ← combine_masks flag_mode (data_xx data) (data_yy data);
  Ok ((λ x, default (own_good x.2) good_comb) <$> data_pol p data).


(** Error classes of the specification (section 7), attached to the
    [raise] sites they describe.  Sites the specification does not list
    are left unclassified. *)
Inductive error_kind : Type :=
| ConfigError
| ShapeMismatchError
| InsufficientDataError.

Definition error_kind_of (e : exn) : option error_kind :=
  match e with
  | ValueError XX_YY_shapes_mismatch
  | ValueError Freq_axis_length_mismatch
  | ValueError S1_good_shape_mismatch
  | RuntimeError Inconsistent_F_eff => Some ShapeMismatchError
  | ValueError Start_idx_out_of_range
  | ValueError F_block_not_positive
  | ValueError Bad_flag_mode => Some ConfigError
  | ValueError Not_enough_samples
  | ValueError F_smaller_than_F_block => Some InsufficientDataError
  | _ => None
  end.

(** The input conditions under which stage 1 is said to fail with each
    class of error, in the order in which the code tests them: a layout
    mismatch; then a start offset outside [0, ns_total); then, for a
    positive block size and an absent or positive sample cap, fewer than
    [M] samples left or selected. *)
Definition layout_ok (fin : h5file) : Prop :=
  shape (XX fin) = shape (YY fin) ∧
  length (freq fin) = (shape (XX fin)).2 ∧
  ∀ t, time fin = Some t → length t = (shape (XX fin)).1.

Definition failure_condition (fin : h5file) (M start_idx : Z)
    (ns_max : option Z) (kind : error_kind) : Prop :=
  let ns_total := Z.of_nat (shape (XX fin)).1 in
  match kind with
  | ShapeMismatchError =>
      shape (XX fin) ≠ shape (YY fin) ∨ length (freq fin) ≠ (shape (XX fin)).2
  | ConfigError =>
      layout_ok fin ∧ (start_idx < 0 ∨ ns_total ≤ start_idx)%Z
  | InsufficientDataError =>
      layout_ok fin ∧ (0 ≤ start_idx < ns_total)%Z ∧
      (∀ m, ns_max = Some m → 0 < m)%Z ∧ (0 < M)%Z ∧
      (ns_total - start_idx < M ∨
       (match ns_max with
        | None => ns_total - start_idx
        | Some ns_max => ns_max `min` (ns_total - start_idx)
        end) < M)%Z
  end.

(** Number of samples selected by ([start_idx], [ns_max]) out of
    [ns_total]. *)
Definition selected (ns_total start_idx : Z) (ns_max : option Z) : Z :=
  match ns_max with
  | None => ns_total - start_idx
  | Some ns_max => ns_max `min` (ns_total - start_idx)
  end%Z.

(** First sample of block [k]. *)
Definition block_start (start_idx M : Z) (k : nat) : Z :=
  (start_idx + Z.of_nat k * M)%Z.

(** The time axis handed to the loop: the file's, or the synthetic one. *)
Definition time_axis (fin : h5file) : list float :=
  match time fin with
  | Some t => t
  | None => arange (shape (XX fin)).1
  end.

(** The samples covered by [T] full blocks of [M] from [start_idx]. *)
Definition used_samples {A} (start_idx T M : Z) (l : list A) : list A :=
  slice start_idx (start_idx + T * M) l.

(** Frequency block [b] of a row: channels [b*Fb, b*Fb + Fb). *)
Definition block_of {A} (Fb b : nat) (row : list A) : list A :=
  take Fb (drop (b * Fb) row).

(** Number of good channels of a block. *)
Definition count_good (g : list bool) : nat :=
  length (filter (λ x : bool, x = true) g).



(** What [_clean_with_good_mask] computes for one (time, block) cell from
    the block's S1 values and good mask: ([s1_clean], [n_good]). *)
Definition clean_cell (F_block : Z) (blk_s : list float) (blk_g : list bool)
  : float * float :=
  let good_f := of_bool <$> blk_g in
  let s1_sum := sum (zip_with mul blk_s good_f) in
  let n_good := sum good_f in
  let avg_good := divide_where_pos s1_sum n_good in
  let s1_clean := mul avg_good (of_Z F_block) in
  (if eqb n_good zero then NaN else s1_clean, n_good).


(** A sample evaluator for running the model: the generalized SK estimator
    [(M N d + 1)/(M - 1) * (M S2 / S1^2 - 1)] with a fixed pair of
    thresholds, returned for a block size of at least 2 and a false-alarm
    probability strictly between 0 and 1/2, and refused otherwise. *)
Definition sample_sk (M N : Z) (d : float) (s1 s2 : float) : float :=
  mul (div (add (mul (mul (of_Z M) (of_Z N)) d) one) (of_Z (M - 1)))
      (add (div (mul (of_Z M) s2) (mul s1 s1)) (of_Z (-1))).

#[refine] Instance sample_evaluator (lower upper : float) : SKEvaluator := {
  get_sk s1 s2 M N d := zip_with (sample_sk M N d) s1 s2;
  compute_sk_thresholds M _ _ pfa :=
    if bool_decide (2 ≤ M)%Z && ltb zero pfa && ltb pfa (div one (of_Z 2))
    then Some (lower, upper, zero) else None;
}.
Proof. intros. rewrite length_zip_with. lia. Defined.

Global Instance float_eq_dec : EqDecision float.
Proof. solve_decision. Defined.

(** The false-alarm probability of the sample runs: 1/1000, the default of
    the command line. *)
Definition pfa_default : float := div one (of_Z 1000).

(** Sample inputs.  [ramp]: one channel, four samples 1, 2, 3, 4 in both
    polarizations. *)
Definition ramp : h5file :=
  let ds := NdArray (4, 1) [[of_Z 1]; [of_Z 2]; [of_Z 3]; [of_Z 4]] in
  {| XX := ds; YY := ds; freq := [of_Z 50]; time := None; obs_time := None |}.

Definition or_else {A} (r : result A) (a : A) : A :=
  match r with Ok x => x | Raise _ => a end.

Definition empty_product : skstream :=
  SkStream [] [] [] [] [] [] 0 0 zero zero 0 0 0 0.

Definition ramp_product : skstream :=
  or_else (stream_sk_dualpol (E := sample_evaluator zero one)
             ramp 4 1 one pfa_default 0 None) empty_product.

(** [tail_a] and [tail_b]: five samples, equal except for the last one. *)
Definition tail_a : h5file :=
  let ds := NdArray (5, 1) [[of_Z 1]; [of_Z 2]; [of_Z 3]; [of_Z 4]; [of_Z 5]] in
  {| XX := ds; YY := ds; freq := [of_Z 50]; time := None; obs_time := None |}.

Definition tail_b : h5file :=
  let ds := NdArray (5, 1) [[of_Z 1]; [of_Z 2]; [of_Z 3]; [of_Z 4]; [of_Z 99]] in
  {| XX := ds; YY := ds; freq := [of_Z 50]; time := None; obs_time := None |}.

Definition tail_product : skstream :=
  or_else (stream_sk_dualpol (E := sample_evaluator zero one)
             tail_a 2 1 one pfa_default 0 None) empty_product.

(** Stage-2 samples: one time block, four channels, channel 1 flagged. *)
Definition s1_sample : ndarray float :=
  NdArray (1, 4) [[of_Z 1; of_Z 2; of_Z 3; of_Z 4]].

Definition good_sample : ndarray bool :=
  NdArray (1, 4) [[true; false; true; true]].

Definition no_result : ndarray float * ndarray float * Z * Z :=
  (NdArray (0, 0) [], NdArray (0, 0) [], 0%Z, 0%Z).

Definition clean_sample : ndarray float * ndarray float * Z * Z :=
  or_else (_clean_with_good_mask s1_sample good_sample 2) no_result.


(** A two-polarization SK-stream file: XX flags channel 1, YY flags
    channel 2. *)
Definition flags_x_sample : ndarray Z := NdArray (1, 4) [[0; 1; 0; 0]]%Z.
Definition flags_y_sample : ndarray Z := NdArray (1, 4) [[0; 0; -1; 0]]%Z.
Definition s1_y_sample : ndarray float :=
  NdArray (1, 4) [[of_Z 5; of_Z 6; of_Z 7; of_Z 8]].

Definition sample_file : skfile :=
  {| file_freq_hz := Some [of_Z 50; of_Z 52; of_Z 54; of_Z 56];
     file_time_blk := Some [of_Z 0];
     file_s1_xx := Some s1_sample;
     file_sk_flags_xx := Some flags_x_sample;
     file_s1_yy := Some s1_y_sample;
     file_sk_flags_yy := Some flags_y_sample;
     file_attrs := [("M", of_Z 64)] |}.

(** The same file without the YY datasets. *)
Definition sample_file_xx : skfile :=
  {| file_freq_hz := Some [of_Z 50; of_Z 52; of_Z 54; of_Z 56];
     file_time_blk := Some [of_Z 0];
     file_s1_xx := Some s1_sample;
     file_sk_flags_xx := Some flags_x_sample;
     file_s1_yy := None;
     file_sk_flags_yy := None;
     file_attrs := [("M", of_Z 64)] |}.

(** Ten channels, XX only; [wide_file_b] differs in the last two
    channels of every dataset. *)
Definition wide_file : skfile :=
  {| file_freq_hz := Some (of_Z <$> [100; 102; 104; 106; 108; 110; 112; 114; 116; 118]%Z);
     file_time_blk := Some [of_Z 0];
     file_s1_xx := Some (NdArray (1, 10) [of_Z <$> [1; 2; 3; 4; 5; 6; 7; 8; 9; 10]%Z]);
     file_sk_flags_xx := Some (NdArray (1, 10) [[0; 0; 1; 0; 0; 0; 0; 0; 0; 0]%Z]);
     file_s1_yy := None;
     file_sk_flags_yy := None;
     file_attrs := [] |}.

Definition wide_file_b : skfile :=
  {| file_freq_hz := Some (of_Z <$> [100; 102; 104; 106; 108; 110; 112; 114; 0; 0]%Z);
     file_time_blk := Some [of_Z 0];
     file_s1_xx := Some (NdArray (1, 10) [of_Z <$> [1; 2; 3; 4; 5; 6; 7; 8; 77; 88]%Z]);
     file_sk_flags_xx := Some (NdArray (1, 10) [[0; 0; 1; 0; 0; 0; 0; 0; 1; -1]%Z]);
     file_s1_yy := None;
     file_sk_flags_yy := None;
     file_attrs := [] |}.

Definition no_product : cleaned :=
  Cleaned [] [] None None None None [] 0 "" 0 0 None.

(** The threshold pair of a run: the first two components of what the
    evaluator returned. *)
Definition run_thresholds `{E : SKEvaluator} (M N : Z) (d pfa : float)
  : float * float :=
  match compute_sk_thresholds M N d pfa with
  | Some (lower, upper, _) => (lower, upper)
  | None => (NaN, NaN)
  end.

(** The flag of one cell, as a function of its SK value. *)
Definition classify (lower upper sk : float) : Z :=
  if gtb sk upper then 1 else if ltb sk lower then (-1) else 0.

(** The output datasets after [n] iterations of the loop over [T] blocks:
    the first [n] rows hold the block results, the others are as created. *)
Section filled.
Context `{E : SKEvaluator}.
Variables (ds_xx ds_yy : ndarray float) (time : list float).
Variables (M N : Z) (d : float) (start_idx : Z) (lower upper : float).

Definition filled (T nf n : nat) : datasets :=
  let i0 := block_start start_idx M in
  {| dset_s1_xx :=
       ((λ k, astype_float32 <$> (block_moments ds_xx (i0 k) (i0 k + M)).1)
          <$> seq 0 n)
         ++ replicate (T - n) (replicate nf zero);
     dset_s1_yy :=
       ((λ k, astype_float32 <$> (block_moments ds_yy (i0 k) (i0 k + M)).1)
          <$> seq 0 n)
         ++ replicate (T - n) (replicate nf zero);
     dset_flags_xx :=
       ((λ k, sk_flags lower upper (block_sk ds_xx M N d (i0 k) (i0 k + M)))
          <$> seq 0 n) ++ replicate (T - n) (replicate nf 0%Z);
     dset_flags_yy :=
       ((λ k, sk_flags lower upper (block_sk ds_yy M N d (i0 k) (i0 k + M)))
          <$> seq 0 n) ++ replicate (T - n) (replicate nf 0%Z);
     dset_time_blk :=
       ((λ k, mean (slice (i0 k) (i0 k + M) time)) <$> seq 0 n)
         ++ replicate (T - n) zero |}.
End filled.

(* ================================================================== *)
(** ** Further sample inputs *)
(* ================================================================== *)

(** [tail_c]: the XX samples of [tail_a] with another YY polarization and a
    recorded time axis, stored at both places. *)
Definition tail_c : h5file :=
  {| XX := XX tail_a;
     YY := NdArray (5, 1) [[of_Z 7]; [of_Z 7]; [of_Z 7]; [of_Z 7]; [of_Z 7]];
     freq := [of_Z 50];
     time := Some [of_Z 10; of_Z 11; of_Z 12; of_Z 13; of_Z 14];
     obs_time := Some [of_Z 10; of_Z 11; of_Z 12; of_Z 13; of_Z 14] |}.

Definition tail_c_product : skstream :=
  or_else (stream_sk_dualpol (E := sample_evaluator zero one)
             tail_c 2 1 one pfa_default 0 (Some 4%Z)) empty_product.

(* ================================================================== *)
(** ** Definitions for the further properties of stage 2 *)
(* ================================================================== *)

(** The file without the two datasets of one polarization. *)
Definition drop_pol (p : pol) (f : skfile) : skfile :=
  match p with
  | PolXX =>
      {| file_freq_hz := file_freq_hz f; file_time_blk := file_time_blk f;
         file_s1_xx := None; file_sk_flags_xx := None;
         file_s1_yy := file_s1_yy f; file_sk_flags_yy := file_sk_flags_yy f;
         file_attrs := file_attrs f |}
  | PolYY =>
      {| file_freq_hz := file_freq_hz f; file_time_blk := file_time_blk f;
         file_s1_xx := file_s1_xx f; file_sk_flags_xx := file_sk_flags_xx f;
         file_s1_yy := None; file_sk_flags_yy := None;
         file_attrs := file_attrs f |}
  end.


(** [sample_file] without the YY flag dataset. *)
Definition sample_file_half : skfile :=
  {| file_freq_hz := file_freq_hz sample_file;
     file_time_blk := file_time_blk sample_file;
     file_s1_xx := Some s1_sample;
     file_sk_flags_xx := Some flags_x_sample;
     file_s1_yy := Some s1_y_sample;
     file_sk_flags_yy := None;
     file_attrs := file_attrs sample_file |}.

(* ================================================================== *)
(** ** The quicklook reader of both products *)
(* ================================================================== *)

(** [ovro_lwa_sk_quicklook.py] opens a product of either stage, decides
    which one it is from the names of its datasets, and loads it.  A file
    is the map of its datasets and the map of its attributes; every
    dataset is read with [np.asarray(..., float)], so datasets hold numbers
    (the stored dtype is not modelled). *)
Module quicklook.

Inductive dataset : Type :=
| Vec (l : list float)
| Mat (a : ndarray float).

Inductive attr : Type :=
| AFloat (x : float)
| AInt (z : Z)
| AStr (s : string).

Record h5 : Type := H5 {
  dsets : gmap string dataset;
  attrs : gmap string attr;
}.

Inductive product_type : Type := Skstream | Rfi.

Inductive error : Type :=
| Cannot_detect           (* "Cannot detect product type: not SK-stream or RFI-cleaned." *)
| Not_skstream            (* "File is not SK-stream." *)
| Not_rfi                 (* "File is not RFI-cleaned." *)
| No_such_object (name : string).   (* h5py: KeyError on [f[name]] *)

Inductive outcome (A : Type) : Type :=
| Done (a : A)
| Fail (e : error).
Arguments Done {A} a.
Arguments Fail {A} e.

#[global] Instance outcome_bind : MBind outcome := λ A B k r,
  match r with
  | Done a => k a
  | Fail e => Fail e
  end.

(** [name in f] and [f[name]]. *)
Definition has (f : h5) (name : string) : bool :=
  bool_decide (is_Some (dsets f !! name)).

Definition get (f : h5) (name : string) : outcome dataset :=
  match dsets f !! name with
  | Some ds => Done ds
  | None => Fail (No_such_object name)
  end.

Definition _detect_product_type (f : h5) : outcome product_type :=
  if (has f "s1_xx_clean" || has f "s1_yy_clean") && has f "freq_block_hz"
  then Done Rfi
  else if (has f "s1_xx" || has f "s1_yy")
          && (has f "sk_flags_xx" || has f "sk_flags_yy")
  then Done Skstream
  else Fail Cannot_detect.

(** [for key in keys: if key in f.attrs: attrs[key] = f.attrs[key]] *)
Definition copy_attrs (keys : list string) (f : h5) : gmap string attr :=
  foldl (λ acc key, match attrs f !! key with
                    | Some v => <[key := v]> acc
                    | None => acc
                    end) ∅ keys.

(** [if data["has_xx"]: data[a] = f[a]; data[b] = f[b]] where [has_xx] is
    the presence of the first dataset alone. *)
Definition load_pair (f : h5) (a b : string)
  : outcome (option (dataset * dataset)) :=
  if has f a
  then x ← get f a; y ← get f b; Done (Some (x, y))
  else Done None.

Record skstream_data : Type := SkstreamData {
  sd_freq : dataset;
  sd_time : dataset;
  sd_xx : option (dataset * dataset);
  sd_yy : option (dataset * dataset);
  sd_attrs : gmap string attr;
}.

Record rfi_data : Type := RfiData {
  rd_freq_block : dataset;
  rd_time : dataset;
  rd_xx : option (dataset * dataset);
  rd_yy : option (dataset * dataset);
  rd_attrs : gmap string attr;
}.

Definition _load_skstream (f : h5) : outcome skstream_data :=
  t ← _detect_product_type f;
  match t with
  | Rfi => Fail Not_skstream
  | Skstream =>
      freq ← get f "freq_hz";
      time ← get f "time_blk";
      xx ← load_pair f "s1_xx" "sk_flags_xx";
      yy ← load_pair f "s1_yy" "sk_flags_yy";
      Done {| sd_freq := freq; sd_time := time; sd_xx := xx; sd_yy := yy;
              sd_attrs := copy_attrs ["M"; "N"; "d"; "pfa"] f |}
  end.

Definition _load_rfi (f : h5) : outcome rfi_data :=
  t ← _detect_product_type f;
  match t with
  | Skstream => Fail Not_rfi
  | Rfi =>
      freq_blk ← get f "freq_block_hz";
      time ← get f "time_blk";
      xx ← load_pair f "s1_xx_clean" "mask_xx";
      yy ← load_pair f "s1_yy_clean" "mask_yy";
      Done {| rd_freq_block := freq_blk; rd_time := time;
              rd_xx := xx; rd_yy := yy;
              rd_attrs := copy_attrs ["M"; "N"; "d"; "pfa"; "F_block";
                                      "flag_mode"; "F_eff"; "n_blocks"] f |}
  end.

(** [g.create_dataset(name, data=...)] when there is something to write. *)
Definition put (name : string) (ds : option dataset)
    (m : gmap string dataset) : gmap string dataset :=
  match ds with
  | Some ds => <[name := ds]> m
  | None => m
  end.

Definition put_attrs (kvs : list (string * float))
    (m : gmap string attr) : gmap string attr :=
  foldl (λ acc kv, <[kv.1 := AFloat kv.2]> acc) m kvs.

(** [if M_stage1 is not None and M_stage1 >= 0: g.attrs["M_stage1"] = ...] *)
Definition put_M_stage1 (M_stage1 : option Z)
    (m : gmap string attr) : gmap string attr :=
  match M_stage1 with
  | Some v => if decide (0 ≤ v)%Z then <["M_stage1" := AInt v]> m else m
  | None => m
  end.

(** The HDF5 file behind an SK-stream file record: the datasets that are
    present, and the numeric attributes. *)
Definition h5_of_skfile (f : skfile) : h5 :=
  {| dsets :=
       put "time_blk" (Vec <$> file_time_blk f)
         (put "freq_hz" (Vec <$> file_freq_hz f)
            (put "sk_flags_yy" (Mat ∘ amap of_Z <$> file_sk_flags_yy f)
               (put "sk_flags_xx" (Mat ∘ amap of_Z <$> file_sk_flags_xx f)
                  (put "s1_yy" (Mat <$> file_s1_yy f)
                     (put "s1_xx" (Mat <$> file_s1_xx f) ∅)))));
     attrs := put_attrs (file_attrs f) ∅ |}.

(** "Write output HDF5" of stage 2: the two axes always, the cleaned array
    and block mask of a polarization when it was cleaned, the copied SK
    parameters, [M_stage1] when it is known and not negative, and the
    cleaning metadata. *)
Definition h5_of_cleaned (c : cleaned) : h5 :=
  let both (a b : option (ndarray float)) (x : option (ndarray float)) :=
    match a, b with Some _, Some _ => Mat <$> x | _, _ => None end in
  {| dsets :=
       put "mask_yy" (both (s1_yy_clean c) (mask_yy c) (mask_yy c))
         (put "s1_yy_clean" (both (s1_yy_clean c) (mask_yy c) (s1_yy_clean c))
            (put "mask_xx" (both (s1_xx_clean c) (mask_xx c) (mask_xx c))
               (put "s1_xx_clean"
                  (both (s1_xx_clean c) (mask_xx c) (s1_xx_clean c))
                  (put "freq_block_hz" (Some (Vec (freq_block_hz c)))
                     (put "time_blk" (Some (Vec (out_time_blk c))) ∅)))));
     attrs :=
       <["n_blocks" := AInt (out_n_blocks c)]>
         (<["F_eff" := AInt (out_F_eff c)]>
            (<["flag_mode" := AStr (out_flag_mode c)]>
               (<["F_block" := AInt (out_F_block c)]>
                  (put_M_stage1 (out_M_stage1 c)
                     (put_attrs (out_attrs c) ∅))))) |}.

Definition sd_pol (p : pol) (data : skstream_data) : option (dataset * dataset) :=
  match p with PolXX => sd_xx data | PolYY => sd_yy data end.

Definition rd_pol (p : pol) (data : rfi_data) : option (dataset * dataset) :=
  match p with PolXX => rd_xx data | PolYY => rd_yy data end.

End quicklook.

(* ================================================================== *)
(** ** The demo-segment tool *)
(* ================================================================== *)

(** [make_ovro_lwa_segment.py] cuts a window of time frames and frequency
    channels out of a raw file and writes it as a new raw file, the input
    of stage 1.  The groups are taken as present; the optional cross
    products [XY_real], [XY_imag] and the attributes are not modelled.  The
    time axis is read from, and written to, [/Observation1/time]; the tool
    neither reads nor writes a [time] dataset inside the tuning group. *)
Module segment.

Inductive error : Type :=
| Time_dataset_not_found        (* KeyError "Dataset '/Observation1/time' not found" *)
| Start_idx_time_out_of_range   (* "start-idx-time=... out of range for ntime=..." *)
| N_frames_not_positive         (* "--n-frames must be > 0" *)
| No_frames_selected            (* "No frames selected: ..." *)
| Start_idx_freq_out_of_range   (* "start-idx-freq=... out of range for nfreq=..." *)
| N_channels_not_positive       (* "--n-channels must be > 0" *)
| No_channels_selected.         (* "No channels selected: ..." *)

(** [ds[t0:t1, f0:f1]] for [0 ≤ t0] and [0 ≤ f0]; a slice that runs past
    the end is cut there. *)
Definition aslice (t0 t1 f0 f1 : Z) (ds : ndarray float) : ndarray float :=
  NdArray (Z.to_nat (t1 - t0) `min` ((shape ds).1 - Z.to_nat t0),
           Z.to_nat (f1 - f0) `min` ((shape ds).2 - Z.to_nat f0))
          (slice f0 f1 <$> slice t0 t1 (rows ds)).

Definition make_demo_segment (fin : h5file)
    (start_idx_time n_frames start_idx_freq n_channels : Z)
  : error + h5file :=
  let ds_xx := XX fin in
  let ds_yy := YY fin in
  let '(ntime, nfreq) := shape ds_xx in
  let ntime := Z.of_nat ntime in
  let nfreq := Z.of_nat nfreq in
  match obs_time fin with
  | None => inl Time_dataset_not_found
  | Some ds_time =>
      (* validate time slice *)
      if decide (start_idx_time < 0 ∨ ntime ≤ start_idx_time)%Z
      then inl Start_idx_time_out_of_range
      else if decide (n_frames ≤ 0)%Z then inl N_frames_not_positive
      else
        let T := (n_frames `min` (ntime - start_idx_time))%Z in
        if decide (T ≤ 0)%Z then inl No_frames_selected
        else
          (* validate freq slice *)
          if decide (start_idx_freq < 0 ∨ nfreq ≤ start_idx_freq)%Z
          then inl Start_idx_freq_out_of_range
          else if decide (n_channels ≤ 0)%Z then inl N_channels_not_positive
          else
            let F := (n_channels `min` (nfreq - start_idx_freq))%Z in
            if decide (F ≤ 0)%Z then inl No_channels_selected
            else
              let t1 := (start_idx_time + T)%Z in
              let f1 := (start_idx_freq + F)%Z in
              inr {| XX := aslice start_idx_time t1 start_idx_freq f1 ds_xx;
                     YY := aslice start_idx_time t1 start_idx_freq f1 ds_yy;
                     freq := slice start_idx_freq f1 (freq fin);
                     time := None;
                     obs_time := Some (slice start_idx_time t1 ds_time) |}
  end.

End segment.

Definition tail_c_segment : h5file :=
  match segment.make_demo_segment tail_c 1 4 0 1 with
  | inr seg => seg
  | inl _ => tail_c
  end.

Definition tail_c_window : skstream :=
  or_else (stream_sk_dualpol (E := sample_evaluator zero one)
             tail_c 2 1 one pfa_default 1 (Some 4%Z)) empty_product.

(* ================================================================== *)
(** ** The integrator on binary64 numbers *)
(* ================================================================== *)

(** [_clean_with_good_mask] once more, line by line, with float64 as the
    kernel's binary64 numbers (IEEE 754, round to nearest even) instead of
    exact rationals; it is used where a statement depends on rounding.
    [np.sum] is taken as accumulation from left to right (NumPy does not
    fix the order). *)
Module B64.

Definition f64 : Set := PrimFloat.float.

(** [float(z)] for an integer below 2^63 in absolute value. *)
Definition of_Z (z : Z) : f64 :=
  if decide (z < 0)%Z
  then PrimFloat.opp (PrimFloat.of_uint63 (Uint63.of_Z (- z)))
  else PrimFloat.of_uint63 (Uint63.of_Z z).

Definition zero : f64 := of_Z 0.
Definition one : f64 := of_Z 1.

Definition of_bool (b : bool) : f64 := if b then one else zero.

Definition sum (l : list f64) : f64 := foldl PrimFloat.add zero l.

Definition divide_where_pos (a b : f64) : f64 :=
  if PrimFloat.ltb zero b then PrimFloat.div a b else zero.

Definition _clean_with_good_mask (s1 : ndarray f64) (good : ndarray bool)
    (F_block : Z) : result (ndarray f64 * ndarray f64 * Z * Z) :=
  if decide (shape s1 ≠ shape good)
  then Raise (ValueError S1_good_shape_mismatch)
  else
    let '(T, F) := shape s1 in
    if decide (F_block ≤ 0)%Z
    then Raise (ValueError F_block_not_positive)
    else
      n_blocks ← floordiv (Z.of_nat F) F_block;
      let F_eff := (n_blocks * F_block)%Z in
      if decide (n_blocks = 0)%Z
      then Raise (ValueError F_smaller_than_F_block)
      else
        let s1_eff := take (Z.to_nat F_eff) <$> rows s1 in
        let good_eff := take (Z.to_nat F_eff) <$> rows good in
        let good_f := fmap (M := list) of_bool <$> good_eff in
        let s1_masked := zip_with (zip_with PrimFloat.mul) s1_eff good_f in
        let s1_blk := chunks (Z.to_nat n_blocks) (Z.to_nat F_block) <$> s1_masked in
        let good_blk := chunks (Z.to_nat n_blocks) (Z.to_nat F_block) <$> good_f in
        let s1_sum := fmap (M := list) sum <$> s1_blk in
        let n_good := fmap (M := list) sum <$> good_blk in
        let avg_good := zip_with (zip_with divide_where_pos) s1_sum n_good in
        let s1_clean :=
          fmap (M := list) (λ a, PrimFloat.mul a (of_Z F_block)) <$> avg_good in
        let s1_clean :=
          zip_with (zip_with (λ n c, if PrimFloat.eqb n zero
                                     then PrimFloat.nan else c))
                   n_good s1_clean in
        let mask_block := n_good in
        Ok (NdArray (T, Z.to_nat n_blocks) s1_clean,
            NdArray (T, Z.to_nat n_blocks) mask_block,
            F_eff, n_blocks).

End B64.


Definition good_seven : ndarray bool :=
  NdArray (1, 7) [[true; true; true; true; true; true; true]].

(** The same block in the exact model. *)
Definition s1_seven_exact : ndarray float :=
  NdArray (1, 7) [of_Z <$> [29; 0; 0; 0; 0; 0; 0]%Z].



(* ================================================================== *)
(** ** Facts about the numeric model *)
(* ================================================================== *)

Section float_facts.
Implicit Types x y z : float.



Lemma ltb_trans x y z : ltb x y = true → ltb y z = true → ltb x z = true.
Proof.
  destruct x as [a|], y as [b|], z as [c|]; simpl; try done.
  rewrite !bool_decide_eq_true. apply Qclt_trans.
Qed.

Lemma ltb_irrefl x : ltb x x = false.
Proof.
  destruct x as [a|]; simpl; [|done].
  apply bool_decide_eq_false. intros H. by apply Qclt_not_eq in H.
Qed.

(** Between thresholds in the usual order no value is on both sides. *)
Lemma ltb_gtb_exclusive lower upper sk :
  ltb upper lower = false → ltb sk lower = true → gtb sk upper = true → False.
Proof.
  unfold gtb. intros Hord Hlo Hup.
  pose proof (ltb_trans _ _ _ Hup Hlo) as H. congruence.
Qed.

Lemma Q2Qc_inject_Z_inj (a b : Z) :
  Q2Qc (inject_Z a) = Q2Qc (inject_Z b) → a = b.
Proof.
  intros H. apply (f_equal this) in H. simpl in H.
  rewrite !inject_Z_Qred in H. by injection H.
Qed.

Lemma eqb_of_Z (a b : Z) : eqb (of_Z a) (of_Z b) = bool_decide (a = b).
Proof.
  simpl. apply bool_decide_ext. split; [apply Q2Qc_inject_Z_inj | by intros ->].
Qed.

Lemma neb_of_Z (a b : Z) : neb (of_Z a) (of_Z b) = bool_decide (a ≠ b).
Proof. unfold neb. rewrite eqb_of_Z. by rewrite bool_decide_not. Qed.

Lemma add_zero_r x : add x zero = x.
Proof.
  destruct x as [a|]; [|done]. simpl. f_equal.
  change (Q2Qc (inject_Z 0)) with 0%Qc. ring.
Qed.

Lemma add_zero_l x : add zero x = x.
Proof.
  destruct x as [a|]; [|done]. simpl. f_equal.
  change (Q2Qc (inject_Z 0)) with 0%Qc. ring.
Qed.



Lemma add_assoc x y z : add x (add y z) = add (add x y) z.
Proof.
  destruct x, y, z; simpl; try done. f_equal. ring.
Qed.

Lemma add_comm x y : add x y = add y x.
Proof. destruct x, y; simpl; try done. f_equal. ring. Qed.

End float_facts.

(* ================================================================== *)
(** ** Stage 1: the loop in closed form *)
(* ================================================================== *)

Lemma insert_next_row {A} (g : nat → A) (z : A) (T n : nat) :
  n < T →
  <[n := g n]> ((g <$> seq 0 n) ++ replicate (T - n) z)
  = (g <$> seq 0 (S n)) ++ replicate (T - S n) z.
Proof.
  intros Hn.
  rewrite insert_app_r_alt; rewrite length_fmap, length_seq; [|lia].
  replace (n - n) with 0 by lia.
  replace (T - n) with (S (T - S n)) by lia.
  rewrite seq_S, fmap_app. simpl. by rewrite <-app_assoc.
Qed.

Section stage1_facts.
Context `{E : SKEvaluator}.
Variables (ds_xx ds_yy : ndarray float) (time : list float).
Variables (M N : Z) (d : float) (start_idx : Z) (lower upper : float).

Let step := block_step ds_xx ds_yy time M N d start_idx lower upper.
Let state := filled ds_xx ds_yy time M N d start_idx lower upper.

(** Loop invariant: after [n] iterations the first [n] rows hold the
    block results and the rest is untouched. *)
Lemma loop_invariant (T nf n : nat) :
  n ≤ T → foldl step (create_datasets T nf) (seq 0 n) = state T nf n.
Proof.
  induction n as [|n IH]; intros Hn.
  - unfold state, filled, create_datasets. simpl. by rewrite Nat.sub_0_r.
  - rewrite seq_S, foldl_app, IH by lia. cbn [foldl].
    unfold step, block_step, state, filled.
    cbn [dset_s1_xx dset_s1_yy dset_flags_xx dset_flags_yy dset_time_blk].
    f_equal; by (rewrite <-insert_next_row by lia).
Qed.

Lemma loop_result (T nf : nat) :
  foldl step (create_datasets T nf) (seq 0 T) = state T nf T.
Proof. by apply loop_invariant. Qed.

End stage1_facts.

(* ================================================================== *)
(** ** Stage 1: what a successful run returns *)
(* ================================================================== *)

Lemma div_pos_divisor_pos (S M : Z) : (0 < S)%Z → (0 < S `div` M)%Z → (0 < M)%Z.
Proof.
  intros HS HT.
  destruct (Z.lt_trichotomy M 0) as [Hneg|[->|Hpos]]; [|by rewrite Z.div_0_r in HT|done].
  pose proof (Z.div_mod S M ltac:(lia)) as Hdm.
  pose proof (Z.mod_neg_bound S M Hneg). nia.
Qed.

Section stream_ok.
Context `{E : SKEvaluator}.
Variables (fin : h5file) (M N : Z) (d pfa : float).
Variables (start_idx : Z) (ns_max : option Z).

Let ns_total : Z := Z.of_nat (shape (XX fin)).1.
Let nf : nat := (shape (XX fin)).2.
Let S : Z := selected ns_total start_idx ns_max.
Let T : nat := Z.to_nat (S `div` M).
Let lower : float := (run_thresholds M N d pfa).1.
Let upper : float := (run_thresholds M N d pfa).2.
Let st : datasets :=
  filled (XX fin) (YY fin) (time_axis fin) M N d start_idx lower upper T nf T.

Lemma stream_ok_inv (out : skstream) :
  stream_sk_dualpol fin M N d pfa start_idx ns_max = Ok out →
  shape (XX fin) = shape (YY fin) ∧ length (freq fin) = nf ∧
  (0 ≤ start_idx < ns_total)%Z ∧ (0 < S)%Z ∧ (0 < M)%Z ∧ (0 < S `div` M)%Z ∧
  (∀ t, time fin = Some t → length t = (shape (XX fin)).1) ∧
  (∀ m, ns_max = Some m → 0 < m)%Z ∧
  out = {| s1_xx := dset_s1_xx st;
           s1_yy := dset_s1_yy st;
           sk_flags_xx := dset_flags_xx st;
           sk_flags_yy := dset_flags_yy st;
           freq_hz := freq fin;
           time_blk := dset_time_blk st;
           attr_M := M; attr_N := N; attr_d := d; attr_pfa := pfa;
           attr_ns_total := ns_total;
           attr_ns_start := start_idx;
           attr_ns_eff := (S `div` M * M)%Z;
           attr_nfreq := Z.of_nat nf |}.
Proof using Type.
  unfold stream_sk_dualpol, _open_datasets, st, lower, upper, run_thresholds,
    T, S, ns_total, nf, time_axis.
  destruct (shape (XX fin)) as [nsx nfx] eqn:Hx.
  destruct (shape (YY fin)) as [nsy nfy] eqn:Hy.
  case_decide as Hshape; [done|].
  case_decide as Hfreq; [done|].
  assert (nsx = nsy ∧ nfx = nfy) as [<- <-].
  { split; apply dec_stable; tauto. }
  assert (length (freq fin) = nfx) as Hfreq' by (apply dec_stable; tauto).
  assert (∀ time0,
    (match time fin with
     | Some ds_time => _load_time_array ds_time nsx
     | None => Ok (arange nsx)
     end) = Ok time0 →
    time0 = match time fin with Some t => t | None => arange nsx end
    ∧ ∀ t, time fin = Some t → length t = nsx) as Htime.
  { intros time0. destruct (time fin) as [t|]; [|by intros [= <-]].
    unfold _load_time_array. case_decide as Hl; [done|]. intros [= <-].
    split; [done|]. intros ? [= <-]. lia. }
  destruct (match time fin with
     | Some ds_time => _load_time_array ds_time nsx
     | None => Ok (arange nsx)
     end) as [time0|] eqn:Ht; [|done].
  destruct (Htime _ eq_refl) as [-> Htlen]. cbn [mbind result_bind].
  rewrite Hx. cbn [fst snd].
  case_decide as Hstart; [done|].
  assert (selected (Z.of_nat nsx) start_idx ns_max = S) as HS by done.
  unfold selected.
  destruct ns_max as [m|]; cbn [mbind result_bind].
  - case_decide as Hm; [done|]. cbn.
    case_decide as Hsel; [done|].
    unfold floordiv. case_decide as HM0; [done|]. cbn.
    case_decide as HT; [done|].
    destruct (compute_sk_thresholds M N d pfa) as [[[lo up] x]|]; [|done].
    cbn [mbind result_bind]. intros [= <-].
    pose proof (div_pos_divisor_pos (m `min` (Z.of_nat nsx - start_idx)) M).
    rewrite loop_result.
    repeat split; try done; try lia; intros ? [= <-]; lia.
  - case_decide as Hsel; [done|].
    unfold floordiv. case_decide as HM0; [done|]. cbn.
    case_decide as HT; [done|].
    destruct (compute_sk_thresholds M N d pfa) as [[[lo up] x]|]; [|done].
    cbn [mbind result_bind]. intros [= <-].
    pose proof (div_pos_divisor_pos (Z.of_nat nsx - start_idx) M).
    rewrite loop_result.
    repeat split; try done; try lia; intros ? [= <-]; lia.
Qed.

(** A run that returns has obtained its thresholds. *)
Lemma stream_ok_thresholds (out : skstream) :
  stream_sk_dualpol fin M N d pfa start_idx ns_max = Ok out →
  ∃ lo up x, compute_sk_thresholds M N d pfa = Some (lo, up, x)
             ∧ lower = lo ∧ upper = up.
Proof using Type.
  unfold stream_sk_dualpol, lower, upper, run_thresholds.
  destruct (_open_datasets fin) as [[[[dx ?] ?] ?]|]; [|done].
  cbn [mbind result_bind]. destruct (shape dx) as [? ?].
  case_decide; [done|].
  destruct (match ns_max with Some _ => _ | None => _ end); [|done].
  cbn [mbind result_bind]. case_decide; [done|].
  destruct (floordiv _ _); [|done]. cbn [mbind result_bind].
  case_decide; [done|].
  destruct (compute_sk_thresholds M N d pfa) as [[[lo up] x]|]; [|done].
  intros _. by exists lo, up, x.
Qed.

End stream_ok.

(** A run on a well-shaped file with a valid selection, for which the
    evaluator returns thresholds, returns a product. *)
Lemma stream_total `{E : SKEvaluator} (fin : h5file) (M N : Z) (d pfa : float)
    (start_idx : Z) (ns_max : option Z) :
  let ns_total := Z.of_nat (shape (XX fin)).1 in
  shape (XX fin) = shape (YY fin) →
  length (freq fin) = (shape (XX fin)).2 →
  (∀ t, time fin = Some t → length t = (shape (XX fin)).1) →
  (0 ≤ start_idx < ns_total)%Z →
  (∀ m, ns_max = Some m → 0 < m)%Z →
  (0 < M ≤ selected ns_total start_idx ns_max)%Z →
  is_Some (compute_sk_thresholds M N d pfa) →
  ∃ out, stream_sk_dualpol fin M N d pfa start_idx ns_max = Ok out.
Proof.
  intros ns_total Hshape Hfreq Htime Hstart Hcap HM [[[lo up] x] Hthr].
  unfold stream_sk_dualpol, _open_datasets. subst ns_total.
  rewrite <-Hshape. destruct (shape (XX fin)) as [nsx nfx] eqn:Hx.
  cbn [fst snd] in *.
  case_decide as H1; [lia|]. case_decide as H2; [done|].
  assert (∃ time0, (match time fin with
       | Some ds_time => _load_time_array ds_time nsx
       | None => Ok (arange nsx)
       end) = Ok time0) as [time0 ->].
  { destruct (time fin) as [t|]; [|by eexists].
    unfold _load_time_array. rewrite (Htime t eq_refl).
    case_decide; [done|by eexists]. }
  cbn [mbind result_bind]. rewrite Hx.
  case_decide as H3; [lia|].
  assert (0 < selected (Z.of_nat nsx) start_idx ns_max `div` M)%Z as HT.
  { apply Z.div_str_pos. lia. }
  unfold selected in *.
  destruct ns_max as [m|]; cbn [mbind result_bind].
  - specialize (Hcap m eq_refl). case_decide; [lia|]. cbn.
    case_decide; [lia|]. unfold floordiv. case_decide; [lia|]. cbn.
    case_decide; [lia|].
    rewrite Hthr. by eexists.
  - case_decide; [lia|]. unfold floordiv. case_decide; [lia|]. cbn.
    case_decide; [lia|].
    rewrite Hthr. by eexists.
Qed.

(* ================================================================== *)
(** ** Reductions along the time axis *)
(* ================================================================== *)




Lemma sum_axis0_length (nf : nat) (block : list (list float)) :
  Forall (λ r, length r = nf) block → length (sum_axis0 nf block) = nf.
Proof.
  unfold sum_axis0.
  assert (∀ acc, length acc = nf → Forall (λ r, length r = nf) block →
                 length (foldl (zip_with add) acc block) = nf) as H.
  { induction block as [|r block IH]; intros acc Hacc Hlen; [done|].
    apply Forall_cons in Hlen as [Hr Hlen]. simpl.
    apply IH; [|done]. rewrite length_zip_with. lia. }
  intros. apply H; [by rewrite length_replicate|done].
Qed.


Lemma square_rows_length (nf : nat) (block : list (list float)) :
  Forall (λ r, length r = nf) block → Forall (λ r, length r = nf) (square block).
Proof.
  unfold square. intros H. apply Forall_fmap.
  eapply Forall_impl; [exact H|]. simpl. intros r <-. by rewrite length_map.
Qed.

Lemma slice_rows_length {A} (nf : nat) (i0 i1 : Z) (l : list (list A)) :
  Forall (λ r, length r = nf) l → Forall (λ r, length r = nf) (slice i0 i1 l).
Proof. intros H. unfold slice. by apply Forall_take, Forall_drop. Qed.





(* ================================================================== *)
(** ** Stage 1: rows of the product *)
(* ================================================================== *)

Lemma filled_row_lookup {A} (g : nat → A) (z : A) (T k : nat) :
  k < T → ((g <$> seq 0 T) ++ replicate (T - T) z) !! k = Some (g k).
Proof.
  intros Hk. rewrite Nat.sub_diag, app_nil_r, list_lookup_fmap.
  by rewrite lookup_seq_lt.
Qed.

Lemma filled_length {A} (g : nat → A) (z : A) (T : nat) :
  length ((g <$> seq 0 T) ++ replicate (T - T) z) = T.
Proof. rewrite length_app, length_fmap, length_seq, length_replicate. lia. Qed.

Section stream_rows.
Context `{E : SKEvaluator}.
Variables (fin : h5file) (M N : Z) (d pfa : float).
Variables (start_idx : Z) (ns_max : option Z) (out : skstream).
Hypothesis Hrun : stream_sk_dualpol fin M N d pfa start_idx ns_max = Ok out.

Let ns_total : Z := Z.of_nat (shape (XX fin)).1.
Let S : Z := selected ns_total start_idx ns_max.
Let T : nat := Z.to_nat (S `div` M).
Let lower : float := (run_thresholds M N d pfa).1.
Let upper : float := (run_thresholds M N d pfa).2.

Lemma stream_s1_row (p : pol) (k : nat) :
  k < T →
  let i0 := block_start start_idx M k in
  s1_of p out !! k
  = Some (astype_float32 <$> (block_moments (raw_of p fin) i0 (i0 + M)).1).
Proof using Hrun.
  intros Hk. destruct (stream_ok_inv _ _ _ _ _ _ _ _ Hrun) as (_&_&_&_&_&_&_&_&->).
  destruct p; simpl; by rewrite filled_row_lookup.
Qed.

Lemma stream_flags_row (p : pol) (k : nat) :
  k < T →
  let i0 := block_start start_idx M k in
  flags_of p out !! k
  = Some (sk_flags lower upper (block_sk (raw_of p fin) M N d i0 (i0 + M))).
Proof using Hrun.
  intros Hk. destruct (stream_ok_inv _ _ _ _ _ _ _ _ Hrun) as (_&_&_&_&_&_&_&_&->).
  destruct p; simpl; by rewrite filled_row_lookup.
Qed.

Lemma stream_time_row (k : nat) :
  k < T →
  let i0 := block_start start_idx M k in
  time_blk out !! k = Some (mean (slice i0 (i0 + M) (time_axis fin))).
Proof using Hrun.
  intros Hk. destruct (stream_ok_inv _ _ _ _ _ _ _ _ Hrun) as (_&_&_&_&_&_&_&_&->).
  simpl; by rewrite filled_row_lookup.
Qed.

Lemma stream_lengths :
  length (s1_xx out) = T ∧ length (s1_yy out) = T ∧
  length (sk_flags_xx out) = T ∧ length (sk_flags_yy out) = T ∧
  length (time_blk out) = T.
Proof using Hrun.
  destruct (stream_ok_inv _ _ _ _ _ _ _ _ Hrun) as (_&_&_&_&_&_&_&_&->).
  simpl. by rewrite !filled_length.
Qed.

(** Every block lies inside the selected samples. *)
Lemma block_in_range (k : nat) :
  k < T →
  let i0 := block_start start_idx M k in
  (0 < M ∧ start_idx ≤ i0 ∧ i0 + M ≤ start_idx + S `div` M * M
   ∧ start_idx + S `div` M * M ≤ start_idx + S ∧ start_idx + S ≤ ns_total
   ∧ 0 ≤ start_idx)%Z.
Proof using Hrun.
  intros Hk i0.
  destruct (stream_ok_inv _ _ _ _ _ _ _ _ Hrun) as (_&_&Hs&HS&HM&HT&_).
  fold ns_total S in Hs, HS, HT.
  pose proof (Z.mul_div_le S M HM).
  assert (S ≤ ns_total - start_idx)%Z.
  { unfold S, selected. destruct ns_max; lia. }
  unfold i0, block_start. subst T. nia.
Qed.

End stream_rows.

(* ================================================================== *)
(** ** Stage 1: claims *)
(* ================================================================== *)



(** The worked example of the specification: M = 4, one channel with raw
    samples 1, 2, 3, 4 gives S1 = 10 and S2 = 30. *)
Example block_moments_ramp :
  block_moments (XX ramp) 0 4 = ([of_Z 10], [of_Z 30])
  ∧ s1_xx ramp_product = [[of_Z 10]].
Proof. split; refine (bool_decide_unpack _ _); by vm_compute. Qed.

(** The cast of the stored sums rounds: 2^24 + 1 has no binary32
    representation and is stored as 2^24 (a tie, resolved to the even
    significand, as is 2^24 + 3 to 2^24 + 4), while 10, 1/4 and -3 are
    stored as they are; 1/10 becomes 13421773 / 2^27; the largest binary32
    number (2^24 - 1) * 2^104 is kept and 2^128 is out of range; half the
    smallest subnormal 2^-149 rounds to zero. *)
Example astype_float32_rounds :
  astype_float32 (of_Z 16777217) = of_Z 16777216
  ∧ astype_float32 (of_Z 16777219) = of_Z 16777220
  ∧ astype_float32 (of_Z 10) = of_Z 10
  ∧ astype_float32 (div one (of_Z 4)) = div one (of_Z 4)
  ∧ astype_float32 (of_Z (-3)) = of_Z (-3)
  ∧ astype_float32 (div one (of_Z 10)) = Fin (Q2Qc (13421773 # 134217728))
  ∧ astype_float32 (of_Z ((2 ^ 24 - 1) * 2 ^ 104)) = of_Z ((2 ^ 24 - 1) * 2 ^ 104)
  ∧ astype_float32 (of_Z (2 ^ 128)) = NaN
  ∧ astype_float32 (div one (of_Z (2 ^ 149))) = div one (of_Z (2 ^ 149))
  ∧ astype_float32 (div one (of_Z (2 ^ 150))) = zero
  ∧ astype_float32 NaN = NaN.
Proof. repeat split; refine (bool_decide_unpack _ _); by vm_compute. Qed.

Lemma slice_slice {A} (s n i0 M : Z) (l : list A) :
  (0 ≤ s ≤ i0)%Z → (0 ≤ M)%Z → (i0 + M ≤ s + n)%Z →
  slice (i0 - s) (i0 - s + M) (slice s (s + n) l) = slice i0 (i0 + M) l.
Proof.
  intros Hs HM Hn. unfold slice.
  replace (i0 - s + M - (i0 - s))%Z with M by lia.
  replace (s + n - s)%Z with n by lia.
  replace (i0 + M - i0)%Z with M by lia.
  apply list_eq. intros j.
  rewrite !lookup_take, !lookup_drop, lookup_take, lookup_drop.
  repeat case_decide; try done; try lia.
  f_equal. lia.
Qed.

(** A block inside the used samples only reads the used samples. *)
Lemma block_slice_used {A} (start_idx T M : Z) (k : nat) (l l' : list A) :
  (0 ≤ start_idx)%Z → (0 < M)%Z → (Z.of_nat k < T)%Z →
  used_samples start_idx T M l' = used_samples start_idx T M l →
  let i0 := block_start start_idx M k in
  slice i0 (i0 + M) l' = slice i0 (i0 + M) l.
Proof.
  intros Hs HM Hk Hused i0. unfold used_samples in Hused.
  assert (0 ≤ start_idx ≤ i0)%Z by (unfold i0, block_start; nia).
  assert (i0 + M ≤ start_idx + T * M)%Z by (unfold i0, block_start; nia).
  rewrite <-(slice_slice start_idx (T * M) i0 M l) by lia.
  rewrite <-(slice_slice start_idx (T * M) i0 M l') by lia.
  by rewrite Hused.
Qed.

Lemma fmap_seq_ext {A} (g h : nat → A) (T : nat) :
  (∀ k, k < T → g k = h k) → g <$> seq 0 T = h <$> seq 0 T.
Proof.
  intros Hgh. apply list_fmap_ext. intros i k Hk.
  apply lookup_seq in Hk as [-> Hlt]. by apply Hgh.
Qed.

Lemma floor_bounds (S M : Z) :
  (0 < M)%Z → (S `div` M * M ≤ S < S `div` M * M + M)%Z.
Proof.
  intros HM. pose proof (Z.mod_pos_bound S M HM).
  pose proof (Z.div_mod S M ltac:(lia)). lia.
Qed.

Lemma block_moments_used (ds ds' : ndarray float) (start_idx T M : Z) (k : nat) :
  (0 ≤ start_idx)%Z → (0 < M)%Z → (Z.of_nat k < T)%Z →
  (shape ds').2 = (shape ds).2 →
  used_samples start_idx T M (rows ds') = used_samples start_idx T M (rows ds) →
  let i0 := block_start start_idx M k in
  block_moments ds' i0 (i0 + M) = block_moments ds i0 (i0 + M).
Proof.
  intros Hs HM Hk Hnf Hused i0. unfold block_moments.
  rewrite Hnf. unfold i0.
  by rewrite (block_slice_used start_idx T M k (rows ds) (rows ds')).
Qed.

Lemma filled_used `{E : SKEvaluator} (ds_xx ds_yy ds_xx' ds_yy' : ndarray float)
    (time time' : list float) (M N : Z) (d : float) (start_idx : Z)
    (lower upper : float) (T nf : nat) :
  (0 ≤ start_idx)%Z → (0 < M)%Z →
  (shape ds_xx').2 = (shape ds_xx).2 →
  (shape ds_yy').2 = (shape ds_yy).2 →
  used_samples start_idx (Z.of_nat T) M (rows ds_xx')
    = used_samples start_idx (Z.of_nat T) M (rows ds_xx) →
  used_samples start_idx (Z.of_nat T) M (rows ds_yy')
    = used_samples start_idx (Z.of_nat T) M (rows ds_yy) →
  used_samples start_idx (Z.of_nat T) M time'
    = used_samples start_idx (Z.of_nat T) M time →
  filled ds_xx' ds_yy' time' M N d start_idx lower upper T nf T
  = filled ds_xx ds_yy time M N d start_idx lower upper T nf T.
Proof.
  intros Hs HM Hnfx Hnfy Hx Hy Ht. unfold filled. cbv zeta.
  f_equal; f_equal; apply fmap_seq_ext; intros k Hk; unfold block_sk;
    rewrite ?(block_moments_used ds_xx ds_xx' start_idx (Z.of_nat T) M k),
            ?(block_moments_used ds_yy ds_yy' start_idx (Z.of_nat T) M k),
            ?(block_slice_used start_idx (Z.of_nat T) M k time time');
    try done; lia.
Qed.

(** In a successful run over [S] selected samples the number of time
    blocks is [T = floor(S / M)], and the product is a function of the
    samples in [start_idx, start_idx + T*M) only. *)
Lemma remainder_dropped_of_run `{E : SKEvaluator} (fin fin' : h5file) (M N : Z)
    (d pfa : float) (start_idx : Z) (ns_max : option Z) (out : skstream) :
  stream_sk_dualpol fin M N d pfa start_idx ns_max = Ok out →
  let S := selected (Z.of_nat (shape (XX fin)).1) start_idx ns_max in
  let T := (S `div` M)%Z in
  shape (XX fin') = shape (XX fin) →
  shape (YY fin') = shape (YY fin) →
  freq fin' = freq fin →
  (∀ t, time fin' = Some t → length t = (shape (XX fin')).1) →
  used_samples start_idx T M (rows (XX fin'))
    = used_samples start_idx T M (rows (XX fin)) →
  used_samples start_idx T M (rows (YY fin'))
    = used_samples start_idx T M (rows (YY fin)) →
  used_samples start_idx T M (time_axis fin')
    = used_samples start_idx T M (time_axis fin) →
  (T * M ≤ S < T * M + M)%Z ∧
  Z.of_nat (length (s1_xx out)) = T ∧ Z.of_nat (length (s1_yy out)) = T ∧
  Z.of_nat (length (sk_flags_xx out)) = T ∧
  Z.of_nat (length (sk_flags_yy out)) = T ∧
  Z.of_nat (length (time_blk out)) = T ∧
  attr_ns_eff out = (T * M)%Z ∧
  stream_sk_dualpol fin' M N d pfa start_idx ns_max = Ok out.
Proof.
  intros Hrun S T Hsx Hsy Hfreq Htime' Hx Hy Ht.
  pose proof (stream_lengths _ _ _ _ _ _ _ _ Hrun) as (L1&L2&L3&L4&L5).
  destruct (stream_ok_inv _ _ _ _ _ _ _ _ Hrun)
    as (Hshape&Hfl&Hstart&HS&HM&HT&Htime&Hcap&Hout).
  fold S in HS, HT. fold T in HT.
  assert (T * M ≤ S < T * M + M)%Z as Hfloor by by apply floor_bounds.
  split; [done|].
  rewrite L1, L2, L3, L4, L5.
  fold S T. rewrite Z2Nat.id by lia.
  repeat (split; [done|]).
  split; [by rewrite Hout|].
  destruct (stream_ok_thresholds _ _ _ _ _ _ _ _ Hrun) as (lo&up&x&Hthr&_).
  destruct (stream_total fin' M N d pfa start_idx ns_max) as [out' Hrun'].
  { by rewrite Hsx, Hsy. }
  { by rewrite Hsx, Hfreq. }
  { done. }
  { by rewrite Hsx. }
  { done. }
  { rewrite Hsx. fold S. nia. }
  { rewrite Hthr. by eexists. }
  rewrite Hrun'. f_equal.
  destruct (stream_ok_inv _ _ _ _ _ _ _ _ Hrun') as (_&_&_&_&_&_&_&_&->).
  rewrite Hout, Hsx, Hfreq. fold S T.
  rewrite (filled_used (XX fin) (YY fin) (XX fin') (YY fin')
             (time_axis fin) (time_axis fin')); try done; try lia.
  - by rewrite Hsx.
  - by rewrite Hsy.
  - by rewrite Z2Nat.id by lia.
  - by rewrite Z2Nat.id by lia.
  - by rewrite Z2Nat.id by lia.
Qed.

Lemma sk_flags_lookup (lower upper : float) (sk_block : list float) (f : nat) :
  sk_flags lower upper sk_block !! f = classify lower upper <$> sk_block !! f.
Proof.
  unfold sk_flags, mask_assign, classify.
  rewrite !lookup_zip_with, !list_lookup_fmap.
  destruct (sk_block !! f) as [sk|] eqn:Hsk; [|done]. simpl.
  rewrite lookup_replicate_2 by (by eapply lookup_lt_Some). simpl.
  by destruct (gtb sk upper), (ltb sk lower).
Qed.

Lemma classify_cases (lower upper sk : float) :
  let flag := classify lower upper sk in
  (flag = -1 ∨ flag = 0 ∨ flag = 1)%Z ∧
  (flag = 1%Z ↔ gtb sk upper = true) ∧
  (flag = (-1)%Z ↔ ltb sk lower = true ∧ gtb sk upper = false) ∧
  (flag = 0%Z ↔ ltb sk lower = false ∧ gtb sk upper = false).
Proof.
  unfold classify.
  destruct (gtb sk upper), (ltb sk lower); simpl; intuition congruence.
Qed.

Lemma block_sk_length `{E : SKEvaluator} (ds : ndarray float) (M N : Z)
    (d : float) (i0 i1 : Z) :
  wf ds → length (block_sk ds M N d i0 i1) = (shape ds).2.
Proof.
  intros [_ Hcols]. unfold block_sk, block_moments.
  assert (Forall (λ r, length r = (shape ds).2) (slice i0 i1 (rows ds)))
    as Hblock by by apply slice_rows_length.
  rewrite get_sk_length; rewrite !sum_axis0_length;
    auto using square_rows_length.
Qed.

(** C1.  In a successful run the evaluator has returned one threshold
    pair ([lower], [upper]) for (M, N, d, pfa), used for both polarizations
    and every block.  With the pair in order (not upper < lower), every
    block [k < T], channel [f] and polarization has a stored flag in
    {-1, 0, +1}: it is -1 exactly when SK < lower, +1 exactly when
    SK > upper, and 0 otherwise. *)
Theorem C1_flag_classification `{E : SKEvaluator} (fin : h5file) (M N : Z)
    (d pfa : float) (start_idx : Z) (ns_max : option Z) (out : skstream)
    (p : pol) (k f : nat) (lower upper third : float) :
  stream_sk_dualpol fin M N d pfa start_idx ns_max = Ok out →
  compute_sk_thresholds M N d pfa = Some (lower, upper, third) →
  ltb upper lower = false →
  wf (raw_of p fin) →
  (Z.of_nat k <
     selected (Z.of_nat (shape (XX fin)).1) start_idx ns_max `div` M)%Z →
  f < (shape (raw_of p fin)).2 →
  let i0 := block_start start_idx M k in
  ∃ (sk : float) (flag : Z),
    block_sk (raw_of p fin) M N d i0 (i0 + M) !! f = Some sk ∧
    (flags_of p out !! k ≫= λ row, row !! f) = Some flag ∧
    (flag = -1 ∨ flag = 0 ∨ flag = 1)%Z ∧
    (flag = (-1)%Z ↔ ltb sk lower = true) ∧
    (flag = 1%Z ↔ gtb sk upper = true) ∧
    (flag = 0%Z ↔ ltb sk lower = false ∧ gtb sk upper = false).
Proof.
  intros Hrun Hthr Hord Hwf Hk Hf i0.
  assert (k < Z.to_nat
    (selected (Z.of_nat (shape (XX fin)).1) start_idx ns_max `div` M)) as Hk'
    by lia.
  destruct (lookup_lt_is_Some_2 (block_sk (raw_of p fin) M N d i0 (i0 + M)) f)
    as [sk Hsk].
  { by rewrite block_sk_length. }
  exists sk, (classify lower upper sk).
  destruct (classify_cases lower upper sk) as (Hrange&Hhigh&Hlow&Hok).
  split; [done|]. split.
  { rewrite (stream_flags_row _ _ _ _ _ _ _ _ Hrun p k Hk'). simpl.
    unfold run_thresholds. rewrite Hthr. cbn [fst snd].
    fold i0. by rewrite sk_flags_lookup, Hsk. }
  split; [done|]. split; [|by split].
  rewrite Hlow. split; [tauto|]. intros Hlt. split; [done|].
  destruct (gtb sk upper) eqn:Hgt; [|done].
  destruct (ltb_gtb_exclusive lower upper sk Hord Hlt Hgt).
Qed.

Lemma C1_flag_classification_witness :
  ∃ (sk : float) (flag : Z),
    block_sk (E := sample_evaluator zero one) (XX ramp) 4 1 one 0 4 !! 0
      = Some sk ∧
    (sk_flags_xx ramp_product !! 0 ≫= λ row, row !! 0) = Some flag ∧
    (flag = -1 ∨ flag = 0 ∨ flag = 1)%Z ∧
    (flag = (-1)%Z ↔ ltb sk zero = true) ∧
    (flag = 1%Z ↔ gtb sk one = true) ∧
    (flag = 0%Z ↔ ltb sk zero = false ∧ gtb sk one = false).
Proof.
  apply (C1_flag_classification (E := sample_evaluator zero one)
           ramp 4 1 one pfa_default 0 None ramp_product PolXX 0 0
           zero one zero).
  - vm_compute. reflexivity.
  - vm_compute. reflexivity.
  - vm_compute. reflexivity.
  - split; [reflexivity|]. repeat constructor.
  - vm_compute. reflexivity.
  - simpl. lia.
Defined.

(** The same classification whatever the order of the thresholds: the
    test against [upper] is applied last, so it wins where both
    comparisons hold. *)
Lemma flag_classification_any_order `{E : SKEvaluator} (fin : h5file)
    (M N : Z) (d pfa : float) (start_idx : Z) (ns_max : option Z)
    (out : skstream) (p : pol) (k f : nat) :
  stream_sk_dualpol fin M N d pfa start_idx ns_max = Ok out →
  wf (raw_of p fin) →
  (Z.of_nat k <
     selected (Z.of_nat (shape (XX fin)).1) start_idx ns_max `div` M)%Z →
  f < (shape (raw_of p fin)).2 →
  let lower := (run_thresholds M N d pfa).1 in
  let upper := (run_thresholds M N d pfa).2 in
  let i0 := block_start start_idx M k in
  ∃ (sk : float) (flag : Z),
    block_sk (raw_of p fin) M N d i0 (i0 + M) !! f = Some sk ∧
    (flags_of p out !! k ≫= λ row, row !! f) = Some flag ∧
    (flag = -1 ∨ flag = 0 ∨ flag = 1)%Z ∧
    (flag = 1%Z ↔ gtb sk upper = true) ∧
    (flag = (-1)%Z ↔ ltb sk lower = true ∧ gtb sk upper = false) ∧
    (flag = 0%Z ↔ ltb sk lower = false ∧ gtb sk upper = false).
Proof.
  intros Hrun Hwf Hk Hf lower upper i0.
  assert (k < Z.to_nat
    (selected (Z.of_nat (shape (XX fin)).1) start_idx ns_max `div` M)) as Hk'
    by lia.
  destruct (lookup_lt_is_Some_2 (block_sk (raw_of p fin) M N d i0 (i0 + M)) f)
    as [sk Hsk].
  { by rewrite block_sk_length. }
  exists sk, (classify lower upper sk).
  destruct (classify_cases lower upper sk) as (Hrange&Hhigh&Hlow&Hok).
  split; [done|]. split; [|done].
  rewrite (stream_flags_row _ _ _ _ _ _ _ _ Hrun p k Hk'). simpl.
  fold i0 lower upper. by rewrite sk_flags_lookup, Hsk.
Qed.

(** The failures of stage 1 that the code tests for.  Stage 1 returns no
    product and raises
    - the shape-mismatch error whenever the XX and YY shapes differ or the
      frequency axis has another length than the channel axis;
    - otherwise (layout and time axis consistent) the out-of-range
      configuration error whenever the start offset is outside
      [0, ns_total);
    - otherwise, for a block size M > 0 and an absent or positive sample
      cap, the not-enough-samples error whenever fewer than M samples remain
      after the start offset (or are selected under the cap). *)
Lemma stage1_failure_classes `{E : SKEvaluator} (fin : h5file) (M N : Z)
    (d pfa : float) (start_idx : Z) (ns_max : option Z) (kind : error_kind) :
  failure_condition fin M start_idx ns_max kind →
  ∃ e, stream_sk_dualpol fin M N d pfa start_idx ns_max = Raise e
       ∧ error_kind_of e = Some kind.
Proof.
  unfold failure_condition, layout_ok, stream_sk_dualpol, _open_datasets.
  destruct (shape (XX fin)) as [nsx nfx] eqn:Hx.
  destruct (shape (YY fin)) as [nsy nfy] eqn:Hy. cbn [fst snd].
  destruct kind.
  - (* start offset out of range *)
    intros [(Hshape&Hfreq&Htime) Hstart]. injection Hshape as <- <-.
    case_decide; [lia|]. case_decide; [done|].
    destruct (time fin) as [t|]; cbn [mbind result_bind].
    + unfold _load_time_array. rewrite (Htime t eq_refl).
      case_decide; [done|]. cbn. rewrite Hx. case_decide; [|lia].
      by eexists.
    + rewrite Hx. case_decide; [|lia]. by eexists.
  - (* layout mismatch *)
    intros Hbad. case_decide as H1; [by eexists|].
    case_decide as H2; [by eexists|].
    exfalso. destruct Hbad as [Hbad|Hbad]; [|done].
    apply Hbad. f_equal; lia.
  - (* fewer than M samples *)
    intros ((Hshape&Hfreq&Htime)&Hstart&Hcap&HM&Hfew). injection Hshape as <- <-.
    case_decide; [lia|]. case_decide; [done|].
    assert (∃ time0, (match time fin with
       | Some ds_time => _load_time_array ds_time nsx
       | None => Ok (arange nsx)
       end) = Ok time0) as [time0 ->].
    { destruct (time fin) as [t|]; [|by eexists].
      unfold _load_time_array. rewrite (Htime t eq_refl).
      case_decide; [done|by eexists]. }
    cbn [mbind result_bind]. rewrite Hx. case_decide; [lia|].
    destruct ns_max as [m|]; cbn [mbind result_bind].
    + specialize (Hcap m eq_refl). case_decide; [lia|]. cbn.
      case_decide; [lia|].
      unfold floordiv. case_decide; [lia|]. cbn.
      rewrite Z.div_small by lia. case_decide; [|lia]. by eexists.
    + case_decide; [lia|].
      unfold floordiv. case_decide; [lia|]. cbn.
      rewrite Z.div_small by lia. case_decide; [|lia]. by eexists.
Qed.

Lemma stage1_failure_classes_witness :
  failure_condition ramp 8 0 None InsufficientDataError ∧
  ∃ e, stream_sk_dualpol (E := sample_evaluator zero one)
         ramp 8 1 one pfa_default 0 None = Raise e
       ∧ error_kind_of e = Some InsufficientDataError.
Proof.
  assert (failure_condition ramp 8 0 None InsufficientDataError) as Hcond.
  { unfold failure_condition, layout_ok. simpl.
    repeat split; try lia; try done. }
  split; [exact Hcond|].
  exact (stage1_failure_classes (E := sample_evaluator zero one)
           ramp 8 1 one pfa_default 0 None InsufficientDataError Hcond).
Defined.

(** C5.  The block size is never tested: on the well-formed four-sample
    file [ramp], M = 0 ends in a division by zero at [T = ns_sel // M] and
    M = -1 in the not-enough-samples error, neither of which is a
    configuration error, while the sibling parameters are tested one by
    one: a sample cap of 0 is refused by name in stage 1, and a frequency
    block size of 0 in stage 2. *)
Theorem C5_block_size_unchecked :
  let E := sample_evaluator zero one in
  stream_sk_dualpol ramp 0 1 one pfa_default 0 None = Raise ZeroDivisionError ∧
  error_kind_of ZeroDivisionError = None ∧
  stream_sk_dualpol ramp (-1) 1 one pfa_default 0 None
    = Raise (ValueError Not_enough_samples) ∧
  error_kind_of (ValueError Not_enough_samples) = Some InsufficientDataError ∧
  stream_sk_dualpol ramp 4 1 one pfa_default 0 (Some 0%Z)
    = Raise (ValueError Ns_max_not_positive) ∧
  _clean_with_good_mask s1_sample good_sample 0
    = Raise (ValueError F_block_not_positive) ∧
  ¬ (∀ M, (M ≤ 0)%Z →
       ∃ e, stream_sk_dualpol ramp M 1 one pfa_default 0 None = Raise e
            ∧ error_kind_of e = Some ConfigError).
Proof.
  intros E. repeat (split; [reflexivity|]).
  intros H. destruct (H (-1)%Z ltac:(lia)) as (e&He&Hkind).
  vm_compute in He. injection He as <-. discriminate Hkind.
Qed.

(* ================================================================== *)
(** ** Stage 2: blocks of a row *)
(* ================================================================== *)

Lemma chunks_length {A} (n size : nat) (l : list A) :
  length (chunks n size l) = n.
Proof. revert l. induction n as [|n IH]; intros l; simpl; [done|]. by rewrite IH. Qed.

Lemma chunks_lookup {A} (n size b : nat) (l : list A) :
  b < n → chunks n size l !! b = Some (block_of size b l).
Proof.
  unfold block_of. revert b l. induction n as [|n IH]; intros b l Hb; [lia|].
  destruct b as [|b]; simpl; [done|].
  rewrite IH by lia. by rewrite drop_drop.
Qed.

Lemma block_of_take {A} (n size b : nat) (l : list A) :
  b < n → block_of size b (take (n * size) l) = block_of size b l.
Proof.
  intros Hb. unfold block_of. apply list_eq. intros j.
  rewrite !lookup_take, !lookup_drop, lookup_take.
  repeat case_decide; try done. nia.
Qed.

Lemma block_of_zip_with {A B C} (f : A → B → C) (size b : nat)
    (l : list A) (k : list B) :
  block_of size b (zip_with f l k)
  = zip_with f (block_of size b l) (block_of size b k).
Proof.
  unfold block_of. apply list_eq. intros j.
  rewrite lookup_zip_with, !lookup_take, !lookup_drop, lookup_zip_with.
  by case_decide.
Qed.

Lemma block_of_fmap {A B} (f : A → B) (size b : nat) (l : list A) :
  block_of size b (f <$> l) = f <$> block_of size b l.
Proof. unfold block_of. by rewrite fmap_take, fmap_drop. Qed.

Lemma block_of_length {A} (n size b : nat) (l : list A) :
  b < n → n * size ≤ length l → length (block_of size b l) = size.
Proof.
  intros Hb Hl. unfold block_of. rewrite length_take, length_drop. nia.
Qed.

(* ================================================================== *)
(** ** Arithmetic of counts *)
(* ================================================================== *)

Lemma add_of_Z (a b : Z) : add (of_Z a) (of_Z b) = of_Z (a + b).
Proof.
  unfold of_Z, add. f_equal. unfold Qcplus.
  apply Q2Qc_eq_iff. unfold Q2Qc. cbn [this].
  rewrite !Qred_correct. by rewrite inject_Z_plus.
Qed.

Lemma gtb_of_Z_zero (n : Z) : gtb (of_Z n) zero = bool_decide (0 < n)%Z.
Proof.
  unfold gtb, zero, of_Z, ltb. apply bool_decide_ext.
  unfold Qclt, Q2Qc. cbn [this]. rewrite !Qred_correct. by rewrite <-Zlt_Qlt.
Qed.

Lemma of_nat_S (n : nat) : of_nat (S n) = add (of_nat n) one.
Proof.
  unfold of_nat, one. rewrite add_of_Z. f_equal. lia.
Qed.

Lemma sum_app_one (l : list float) (x : float) : sum (l ++ [x]) = add (sum l) x.
Proof. unfold sum. by rewrite foldl_app. Qed.

Lemma foldl_add_acc (l : list float) (a : float) :
  foldl add a l = add a (sum l).
Proof.
  unfold sum. revert a. induction l as [|x l IH]; intros a; cbn [foldl].
  - by rewrite add_zero_r.
  - rewrite IH, (IH (add zero x)), add_zero_l. by rewrite add_assoc.
Qed.

Lemma sum_cons (x : float) (l : list float) : sum (x :: l) = add x (sum l).
Proof. unfold sum at 1. cbn [foldl]. by rewrite foldl_add_acc, add_zero_l. Qed.

Lemma count_good_cons (x : bool) (g : list bool) :
  count_good (x :: g) = (if x then 1 else 0) + count_good g.
Proof.
  unfold count_good. rewrite filter_cons. by destruct x; case_decide.
Qed.

Lemma count_good_le (g : list bool) : count_good g ≤ length g.
Proof. unfold count_good. apply length_filter. Qed.

(** [n_good]: the float sum of the 0/1 mask is the number of good channels. *)
Lemma sum_of_bool (g : list bool) :
  sum (of_bool <$> g) = of_nat (count_good g).
Proof.
  induction g as [|x g IH]; [done|].
  rewrite fmap_cons, sum_cons, IH, count_good_cons.
  destruct x; cbn [of_bool].
  - change (1 + count_good g) with (S (count_good g)).
    rewrite of_nat_S. apply add_comm.
  - change (0 + count_good g) with (count_good g). apply add_zero_l.
Qed.




(* ================================================================== *)
(** ** Stage 2: what [_clean_with_good_mask] returns *)
(* ================================================================== *)

Section clean_ok.
Variables (s1 : ndarray float) (good : ndarray bool) (F_block : Z).
Variables (s1_clean mask : ndarray float) (F_eff n_blocks : Z).
Hypothesis Hclean :
  _clean_with_good_mask s1 good F_block = Ok (s1_clean, mask, F_eff, n_blocks).

Lemma clean_ok_inv :
  shape s1 = shape good ∧ (0 < F_block)%Z ∧
  n_blocks = (Z.of_nat (shape s1).2 `div` F_block)%Z ∧ (0 < n_blocks)%Z ∧
  F_eff = (n_blocks * F_block)%Z ∧
  shape s1_clean = ((shape s1).1, Z.to_nat n_blocks) ∧
  shape mask = ((shape s1).1, Z.to_nat n_blocks).
Proof using Hclean.
  revert Hclean. unfold _clean_with_good_mask.
  case_decide as Hshape; [done|].
  destruct (shape s1) as [T F] eqn:Hs1.
  case_decide as HFb; [done|].
  unfold floordiv. case_decide; [lia|]. cbn [mbind result_bind].
  case_decide as Hnb; [done|]. intros [= <- <- <- <-].
  pose proof (Z.div_pos (Z.of_nat F) F_block ltac:(lia) ltac:(lia)).
  repeat split; try done; try lia.
Qed.

Lemma clean_cell_lookup (t b : nat) (rs : list float) (rg : list bool) :
  rows s1 !! t = Some rs → rows good !! t = Some rg →
  (Z.of_nat b < n_blocks)%Z →
  let Fb := Z.to_nat F_block in
  let c := clean_cell F_block (block_of Fb b rs) (block_of Fb b rg) in
  cell s1_clean t b = Some c.1 ∧ cell mask t b = Some c.2.
Proof using Hclean.
  intros Hrs Hrg Hb Fb c.
  destruct clean_ok_inv as (_&HFb&Hnb&Hpos&HFeff&_).
  revert Hclean. unfold _clean_with_good_mask.
  case_decide as Hshape; [done|].
  destruct (shape s1) as [T F] eqn:Hs1.
  case_decide; [done|].
  unfold floordiv. case_decide; [lia|]. cbn [mbind result_bind].
  case_decide; [done|]. intros [= <- <- _ _].
  cbn [snd] in Hnb. rewrite <-Hnb, <-HFeff. fold Fb.
  assert (b < Z.to_nat n_blocks) as Hb' by lia.
  assert (Z.to_nat F_eff = Z.to_nat n_blocks * Fb) as -> by (subst Fb; nia).
  unfold cell. cbn [rows].
  repeat first [rewrite lookup_zip_with | rewrite list_lookup_fmap].
  rewrite Hrs, Hrg. cbn [fmap option_fmap option_map mbind option_bind].
  repeat first [rewrite lookup_zip_with | rewrite list_lookup_fmap
               | rewrite chunks_lookup by done].
  cbn [fmap option_fmap option_map mbind option_bind].
  rewrite block_of_zip_with, !block_of_fmap, !(block_of_take _ _ _ _ Hb').
  done.
Qed.

End clean_ok.

Lemma eqb_of_nat_zero (n : nat) : eqb (of_nat n) zero = bool_decide (n = 0).
Proof.
  unfold of_nat, zero. rewrite eqb_of_Z. apply bool_decide_ext. lia.
Qed.

Lemma gtb_of_nat_zero (n : nat) : gtb (of_nat n) zero = bool_decide (0 < n).
Proof.
  unfold of_nat. rewrite gtb_of_Z_zero. apply bool_decide_ext. lia.
Qed.


(** One (time, block) cell of the integrator's output on well-formed
    arrays. *)
Lemma clean_block (s1 : ndarray float) (good : ndarray bool) (F_block : Z)
    (s1_clean mask : ndarray float) (F_eff n_blocks : Z)
    (t b : nat) (rs : list float) (rg : list bool) :
  _clean_with_good_mask s1 good F_block = Ok (s1_clean, mask, F_eff, n_blocks) →
  wf s1 → wf good →
  rows s1 !! t = Some rs → rows good !! t = Some rg →
  (Z.of_nat b < n_blocks)%Z →
  let Fb := Z.to_nat F_block in
  let blk_s := block_of Fb b rs in
  let blk_g := block_of Fb b rg in
  let n_good := count_good blk_g in
  length blk_s = Fb ∧ length blk_g = Fb ∧
  cell mask t b = Some (of_nat n_good) ∧
  cell s1_clean t b
  = Some (if decide (n_good = 0) then NaN
          else mul (div (sum (zip_with mul blk_s (of_bool <$> blk_g)))
                        (of_nat n_good))
                   (of_Z F_block)).
Proof.
  intros Hclean [_ Hs1] [_ Hgood] Hrs Hrg Hb Fb blk_s blk_g n_good.
  destruct (clean_ok_inv _ _ _ _ _ _ _ Hclean) as (Hshape&HFb&Hnb&Hpos&_).
  destruct (clean_cell_lookup _ _ _ _ _ _ _ Hclean t b rs rg Hrs Hrg Hb)
    as [Hc Hm].
  fold Fb blk_s blk_g in Hc, Hm.
  assert (Z.to_nat n_blocks * Fb ≤ (shape s1).2) as Hfit.
  { pose proof (Z.mul_div_le (Z.of_nat (shape s1).2) F_block HFb).
    subst Fb. nia. }
  assert (length rs = (shape s1).2) as Hlrs
    by (eapply (Forall_lookup_1 _ _ _ _ Hs1); eauto).
  assert (length rg = (shape s1).2) as Hlrg.
  { rewrite Hshape. eapply (Forall_lookup_1 _ _ _ _ Hgood); eauto. }
  assert (b < Z.to_nat n_blocks) as Hb' by lia.
  split; [apply (block_of_length (Z.to_nat n_blocks)); lia|].
  split; [apply (block_of_length (Z.to_nat n_blocks)); lia|].
  unfold clean_cell in Hc, Hm. cbn [fst snd] in Hc, Hm.
  rewrite sum_of_bool in Hc, Hm. fold n_good in Hc, Hm.
  split; [done|]. rewrite Hc.
  rewrite eqb_of_nat_zero. unfold divide_where_pos. rewrite gtb_of_nat_zero.
  repeat case_decide; try done; lia.
Qed.

(* ================================================================== *)
(** ** Stage 2: claims on the integrator *)
(* ================================================================== *)







(** In exact arithmetic the same block gives the sum itself, 29. *)
Example seven_exact :
  rows (or_else (_clean_with_good_mask s1_seven_exact good_seven 7)
                no_result).1.1.1 = [[of_Z 29]].
Proof. refine (bool_decide_unpack _ _); by vm_compute. Qed.

(** The worked example of the specification: with no flagged channel the
    cleaned value of a block is the straight sum of its S1 values
    (here 3 + 4 = 7), and a block with one good channel out of two is
    rescaled (here (1 / 1) * 2 = 2). *)
Example clean_sample_values :
  rows clean_sample.1.1.1 = [[of_Z 2; of_Z 7]] ∧
  rows clean_sample.1.1.2 = [[of_Z 1; of_Z 2]].
Proof. split; refine (bool_decide_unpack _ _); by vm_compute. Qed.

(* ================================================================== *)
(** ** Stage 2: what a successful [rfi_clean] returns *)
(* ================================================================== *)

Lemma load_skstream_inv (f : skfile) (data : skdata) :
  _load_skstream f = Ok data →
  file_freq_hz f = Some (data_freq_hz data) ∧
  file_time_blk f = Some (data_time_blk data) ∧
  ∀ p, data_pol p data = load_pol (file_s1 p f) (file_flags p f).
Proof.
  unfold _load_skstream.
  destruct (file_freq_hz f) as [fr|]; [|done].
  destruct (file_time_blk f) as [tb|]; [|done].
  destruct (load_pol (file_s1_xx f) (file_sk_flags_xx f)) as [xx|] eqn:Hxx;
    destruct (load_pol (file_s1_yy f) (file_sk_flags_yy f)) as [yy|] eqn:Hyy;
    try done; intros [= <-]; (repeat split; try done); by intros [].
Qed.

Lemma rfi_clean_inv (f : skfile) (F_block : Z) (flag_mode : string)
    (out : cleaned) :
  rfi_clean f F_block flag_mode = Ok out →
  ∃ data good_comb freq_2d,
    _load_skstream f = Ok data ∧
    str_lower flag_mode ∈ ["separate"; "or"; "and"] ∧
    combine_masks (str_lower flag_mode) (data_xx data) (data_yy data)
      = Ok good_comb ∧
    (∀ p, ∃ res, clean_pol good_comb F_block (data_pol p data) = Ok res ∧
                 s1_clean_of p out = (λ r, r.1.1.1) <$> res ∧
                 mask_of p out = (λ r, r.1.1.2) <$> res ∧
                 ∀ r, res = Some r →
                      r.1.2 = out_F_eff out ∧ r.2 = out_n_blocks out) ∧
    (∃ p r, clean_pol good_comb F_block (data_pol p data) = Ok (Some r)) ∧
    reshape (Z.to_nat (out_n_blocks out)) (Z.to_nat F_block)
            (take (Z.to_nat (out_F_eff out)) (data_freq_hz data)) = Ok freq_2d ∧
    freq_block_hz out = mean <$> freq_2d ∧
    out_time_blk out = data_time_blk data ∧
    out_attrs out = data_attrs data ∧
    out_F_block out = F_block ∧
    out_flag_mode out = str_lower flag_mode.
Proof.
  unfold rfi_clean.
  destruct (_load_skstream f) as [data|] eqn:Hload; [|done].
  cbn [mbind result_bind].
  destruct (M_stage1_of (data_attrs data)) as [m1|] eqn:HM1; [|done].
  cbn [mbind result_bind].
  case_decide as Hmode; [done|].
  destruct (combine_masks _ _ _) as [good_comb|] eqn:Hcomb; [|done].
  cbn [mbind result_bind].
  destruct (clean_pol good_comb F_block (data_xx data)) as [res_xx|] eqn:Hxx;
    [|done].
  cbn [mbind result_bind].
  destruct (clean_pol good_comb F_block (data_yy data)) as [res_yy|] eqn:Hyy;
    [|done].
  cbn [mbind result_bind].
  intros Hout. exists data, good_comb.
  assert (∃ F_eff n_blocks,
    (∀ r, res_xx = Some r → r.1.2 = F_eff ∧ r.2 = n_blocks) ∧
    (∀ r, res_yy = Some r → r.1.2 = F_eff ∧ r.2 = n_blocks) ∧
    (is_Some res_xx ∨ is_Some res_yy) ∧
    (freq_2d ← reshape (Z.to_nat n_blocks) (Z.to_nat F_block)
                 (take (Z.to_nat F_eff) (data_freq_hz data));
     Ok {| out_time_blk := data_time_blk data;
           freq_block_hz := mean <$> freq_2d;
           s1_xx_clean := (λ r, r.1.1.1) <$> res_xx;
           mask_xx := (λ r, r.1.1.2) <$> res_xx;
           s1_yy_clean := (λ r, r.1.1.1) <$> res_yy;
           mask_yy := (λ r, r.1.1.2) <$> res_yy;
           out_attrs := data_attrs data;
           out_F_block := F_block;
           out_flag_mode := str_lower flag_mode;
           out_F_eff := F_eff;
           out_n_blocks := n_blocks;
           out_M_stage1 := m1 |}) = Ok out)
    as (F_eff&n_blocks&Hrx&Hry&Hsome&Hrest).
  { destruct res_xx as [[[[cx mx] Fx] nx]|], res_yy as [[[[cy my] Fy] ny]|];
      cbn [mbind result_bind] in Hout.
    - case_decide as Hcons; [done|]. cbn [mbind result_bind] in Hout.
      exists Fx, nx. split; [|split; [|split; [by left|done]]].
      + by intros ? [= <-].
      + intros ? [= <-]. simpl. lia.
    - exists Fx, nx. split; [|split; [|split; [by left|done]]].
      + by intros ? [= <-].
      + done.
    - exists Fy, ny. split; [|split; [|split; [by right|done]]].
      + done.
      + by intros ? [= <-].
    - done. }
  clear Hout.
  destruct (reshape _ _ _) as [freq_2d|] eqn:Hreshape; [|done].
  cbn [mbind result_bind] in Hrest. injection Hrest as <-.
  exists freq_2d. cbn.
  split; [done|]. split; [done|]. split; [done|].
  split.
  { intros []; eexists; (split; [eassumption|]); (split; [done|]);
      (split; [done|]); eauto. }
  split.
  { destruct Hsome as [[r0 ->]|[r0 ->]];
      [exists PolXX, r0|exists PolYY, r0]; done. }
  done.
Qed.

(** A run that returns has converted the block-size attribute, when the
    file has one. *)
Lemma rfi_clean_M_stage1 (f : skfile) (F_block : Z) (flag_mode : string)
    (out : cleaned) :
  rfi_clean f F_block flag_mode = Ok out →
  ∃ data, _load_skstream f = Ok data ∧
          M_stage1_of (data_attrs data) = Ok (out_M_stage1 out).
Proof.
  unfold rfi_clean.
  destruct (_load_skstream f) as [data|] eqn:Hload; [|done].
  cbn [mbind result_bind].
  destruct (M_stage1_of (data_attrs data)) as [m1|] eqn:HM1; [|done].
  cbn [mbind result_bind].
  case_decide as Hmode; [done|].
  destruct (combine_masks _ _ _) as [good_comb|]; [|done].
  cbn [mbind result_bind].
  destruct (clean_pol good_comb F_block (data_xx data)) as [res_xx|]; [|done].
  cbn [mbind result_bind].
  destruct (clean_pol good_comb F_block (data_yy data)) as [res_yy|]; [|done].
  cbn [mbind result_bind].
  destruct (match res_xx, res_yy with
            | Some _, _ => _ | None, _ => _ end) as [[F_eff n_blocks]|]; [|done].
  cbn [mbind result_bind].
  destruct (reshape _ _ _) as [freq_2d|]; [|done].
  cbn [mbind result_bind]. intros [= <-]. by exists data.
Qed.

(* ================================================================== *)
(** ** Stage 2: cells of the masks *)
(* ================================================================== *)

Lemma cell_amap {A B} (g : A → B) (a : ndarray A) (t c : nat) :
  cell (amap g a) t c = g <$> cell a t c.
Proof.
  unfold cell, amap. cbn [rows]. rewrite list_lookup_fmap.
  destruct (rows a !! t) as [r|]; [|done]. cbn.
  by rewrite list_lookup_fmap.
Qed.

Lemma wf_amap {A B} (g : A → B) (a : ndarray A) : wf a → wf (amap g a).
Proof.
  intros [Hr Hc]. split; cbn [amap rows shape].
  - by rewrite length_fmap.
  - apply Forall_fmap. eapply Forall_impl; [exact Hc|].
    intros r Hlen. cbn. by rewrite length_fmap.
Qed.

Lemma broadcast_dim_same (n : nat) : broadcast_dim n n = Some n.
Proof. unfold broadcast_dim. by case_decide. Qed.

Lemma stretch_same {A} (n : nat) (l : list A) : length l = n → stretch n l = l.
Proof. intros H. unfold stretch. by case_decide. Qed.

Lemma stretch_rows_same {A} (c : nat) (l : list (list A)) :
  Forall (λ r, length r = c) l → stretch c <$> l = l.
Proof.
  induction 1 as [|r l Hlen _ IH]; [done|].
  cbn. rewrite stretch_same by done. f_equal. apply IH.
Qed.

Lemma broadcast_to_same {A} (a : ndarray A) :
  wf a → rows (broadcast_to (shape a) a) = rows a.
Proof.
  intros [Hr Hc]. unfold broadcast_to. cbn [rows].
  rewrite stretch_rows_same by done. by apply stretch_same.
Qed.

(** On arrays of one shape the element-wise operation is cell by cell. *)
Lemma azip_with_same_shape {A B C} (g : A → B → C)
    (a : ndarray A) (b : ndarray B) :
  wf a → wf b → shape a = shape b →
  azip_with g a b
  = Ok (NdArray (shape a) (zip_with (zip_with g) (rows a) (rows b))).
Proof.
  intros Ha Hb Hshape. unfold azip_with. rewrite <-Hshape.
  rewrite !broadcast_dim_same.
  replace ((shape a).1, (shape a).2) with (shape a) by by destruct (shape a).
  rewrite (broadcast_to_same a Ha).
  rewrite Hshape at 2. by rewrite (broadcast_to_same b Hb).
Qed.

Lemma cell_zip_with {A B C} (g : A → B → C) shp
    (ra : list (list A)) (rb : list (list B)) (t c : nat) x y :
  cell (NdArray shp ra) t c = Some x → cell (NdArray shp rb) t c = Some y →
  cell (NdArray shp (zip_with (zip_with g) ra rb)) t c = Some (g x y).
Proof.
  unfold cell. cbn [rows]. intros Hx Hy. rewrite lookup_zip_with.
  destruct (ra !! t) as [r1|]; [|done]. destruct (rb !! t) as [r2|]; [|done].
  cbn in *. rewrite lookup_zip_with, Hx. cbn. by rewrite Hy.
Qed.

Lemma wf_zip_with {A B C} (g : A → B → C) (a : ndarray A) (b : ndarray B) :
  wf a → wf b → shape a = shape b →
  wf (NdArray (shape a) (zip_with (zip_with g) (rows a) (rows b))).
Proof.
  intros [Ha1 Ha2] [Hb1 Hb2] Hshape. rewrite <-Hshape in Hb1, Hb2.
  split; cbn [rows shape].
  - rewrite length_zip_with. lia.
  - apply Forall_forall. intros r Hr.
    apply list_elem_of_lookup in Hr as [t Hr].
    rewrite lookup_zip_with in Hr.
    destruct (rows a !! t) as [r1|] eqn:H1; [|done].
    destruct (rows b !! t) as [r2|] eqn:H2; [|done].
    cbn in Hr. injection Hr as <-. rewrite length_zip_with.
    rewrite (Forall_lookup_1 _ _ _ _ Ha2 H1), (Forall_lookup_1 _ _ _ _ Hb2 H2).
    lia.
Qed.

Lemma shared_good_cells (flag_mode : string) (fx fy : ndarray Z) :
  wf fx → wf fy → shape fx = shape fy →
  ∃ good : ndarray bool,
    shared_good flag_mode (amap of_Z fx) (amap of_Z fy) = Ok good ∧
    wf good ∧ shape good = shape fx ∧
    ∀ t c x y, cell fx t c = Some x → cell fy t c = Some y →
               cell good t c = Some (shared_cell flag_mode x y).
Proof.
  intros Hx Hy Hshape. unfold shared_good.
  set (fxx := amap (λ x, neb x zero) (amap of_Z fx)).
  set (fyy := amap (λ x, neb x zero) (amap of_Z fy)).
  assert (wf fxx) as Hwx by by do 2 apply wf_amap.
  assert (wf fyy) as Hwy by by do 2 apply wf_amap.
  assert (shape fxx = shape fyy) as Hs by done.
  assert (∀ t c x, cell fx t c = Some x →
            cell fxx t c = Some (bool_decide (x ≠ 0%Z))) as Hcx.
  { intros t c x H. unfold fxx. rewrite !cell_amap, H. cbn.
    change zero with (of_Z 0). by rewrite neb_of_Z. }
  assert (∀ t c y, cell fy t c = Some y →
            cell fyy t c = Some (bool_decide (y ≠ 0%Z))) as Hcy.
  { intros t c y H. unfold fyy. rewrite !cell_amap, H. cbn.
    change zero with (of_Z 0). by rewrite neb_of_Z. }
  assert (∀ g : bool → bool → bool, ∃ good,
    (azip_with g fxx fyy ≫= λ flagged_comb, Ok (amap negb flagged_comb))
      = Ok good ∧
    wf good ∧ shape good = shape fx ∧
    ∀ t c x y, cell fx t c = Some x → cell fy t c = Some y →
      cell good t c
      = Some (negb (g (bool_decide (x ≠ 0%Z)) (bool_decide (y ≠ 0%Z)))))
    as Hgen.
  { intros g. rewrite azip_with_same_shape by done. cbn [mbind result_bind].
    eexists. split; [reflexivity|].
    split; [by apply wf_amap, wf_zip_with|]. split; [done|].
    intros t c x y H1 H2. rewrite cell_amap.
    erewrite cell_zip_with; [done|by apply Hcx|].
    replace (shape fxx) with (shape fyy) by done. by apply Hcy. }
  unfold shared_cell. case_decide; apply Hgen.
Qed.

Lemma combine_masks_shared (flag_mode : string) (s1x s1y : ndarray float)
    (fx fy : ndarray Z) (good_comb : option (ndarray bool)) :
  flag_mode = "or" ∨ flag_mode = "and" →
  combine_masks flag_mode (Some (s1x, amap of_Z fx)) (Some (s1y, amap of_Z fy))
    = Ok good_comb →
  ∃ good, good_comb = Some good ∧
          shared_good flag_mode (amap of_Z fx) (amap of_Z fy) = Ok good.
Proof.
  intros Hmode. unfold combine_masks.
  case_decide as Hin.
  - destruct (shared_good _ _ _) as [good|]; [|done].
    intros [= <-]. by exists good.
  - destruct Hin. destruct Hmode as [-> | ->]; repeat constructor.
Qed.

Lemma clean_pol_some (good_comb : option (ndarray bool)) (F_block : Z)
    (s1 flags : ndarray float) res :
  clean_pol good_comb F_block (Some (s1, flags)) = Ok res →
  ∃ r, res = Some r ∧
       _clean_with_good_mask s1 (default (own_good flags) good_comb) F_block
       = Ok r.
Proof.
  unfold clean_pol.
  destruct (_clean_with_good_mask _ _ _) as [r|]; [|done].
  intros [= <-]. by exists r.
Qed.

(* ================================================================== *)
(** ** Stage 2: claims on the mask combiner *)
(* ================================================================== *)

(** C3.  When both polarizations are present (flag arrays of one shape)
    and the policy is [or] or [and], stage 2 builds one combined good mask
    whose cell (t,f) is NOT(flag_xx(t,f) ≠ 0 OR flag_yy(t,f) ≠ 0) under
    [or] and NOT(flag_xx(t,f) ≠ 0 AND flag_yy(t,f) ≠ 0) under [and], and
    the cleaned XX and YY products are the integrator's results with that
    one mask. *)
Theorem C3_shared_mask (f : skfile) (F_block : Z) (flag_mode : string)
    (out : cleaned) (s1x s1y : ndarray float) (fx fy : ndarray Z) :
  file_s1_xx f = Some s1x → file_sk_flags_xx f = Some fx →
  file_s1_yy f = Some s1y → file_sk_flags_yy f = Some fy →
  wf fx → wf fy → shape fx = shape fy →
  str_lower flag_mode = "or" ∨ str_lower flag_mode = "and" →
  rfi_clean f F_block flag_mode = Ok out →
  ∃ good_comb : ndarray bool,
    (∀ t c x y,
       cell fx t c = Some x → cell fy t c = Some y →
       cell good_comb t c
       = Some (if decide (str_lower flag_mode = "or")
               then negb (bool_decide (x ≠ 0%Z) || bool_decide (y ≠ 0%Z))
               else negb (bool_decide (x ≠ 0%Z) && bool_decide (y ≠ 0%Z)))) ∧
    ∃ rx ry,
      _clean_with_good_mask s1x good_comb F_block = Ok rx ∧
      _clean_with_good_mask s1y good_comb F_block = Ok ry ∧
      s1_xx_clean out = Some rx.1.1.1 ∧ mask_xx out = Some rx.1.1.2 ∧
      s1_yy_clean out = Some ry.1.1.1 ∧ mask_yy out = Some ry.1.1.2.
Proof.
  intros Hs1x Hfx Hs1y Hfy Hwx Hwy Hshape Hmode Hrun.
  destruct (rfi_clean_inv _ _ _ _ Hrun)
    as (data&good_comb&freq_2d&Hload&_&Hcomb&Hpol&_).
  destruct (load_skstream_inv _ _ Hload) as (_&_&Hdata).
  pose proof (Hdata PolXX) as Hdx. pose proof (Hdata PolYY) as Hdy.
  cbn [data_pol file_s1 file_flags] in Hdx, Hdy.
  rewrite Hs1x, Hfx in Hdx. rewrite Hs1y, Hfy in Hdy. cbn [load_pol] in Hdx, Hdy.
  rewrite Hdx, Hdy in Hcomb.
  destruct (combine_masks_shared _ _ _ _ _ _ Hmode Hcomb) as (good&->&Hshared).
  destruct (shared_good_cells (str_lower flag_mode) fx fy Hwx Hwy Hshape)
    as (good'&Hshared'&_&_&Hcells).
  rewrite Hshared in Hshared'. injection Hshared' as <-.
  exists good. split; [exact Hcells|].
  destruct (Hpol PolXX) as (resx&Hcx&Hox&Hmx&_).
  destruct (Hpol PolYY) as (resy&Hcy&Hoy&Hmy&_).
  cbn [data_pol s1_clean_of mask_of] in *.
  rewrite Hdx in Hcx. rewrite Hdy in Hcy.
  apply clean_pol_some in Hcx as (rx&->&Hrx).
  apply clean_pol_some in Hcy as (ry&->&Hry).
  exists rx, ry. done.
Qed.

Lemma C3_shared_mask_witness :
  let out := or_else (rfi_clean sample_file 2 "or") no_product in
  ∃ good_comb : ndarray bool,
    (∀ t c x y,
       cell flags_x_sample t c = Some x → cell flags_y_sample t c = Some y →
       cell good_comb t c
       = Some (if decide (str_lower "or" = "or")
               then negb (bool_decide (x ≠ 0%Z) || bool_decide (y ≠ 0%Z))
               else negb (bool_decide (x ≠ 0%Z) && bool_decide (y ≠ 0%Z)))) ∧
    ∃ rx ry,
      _clean_with_good_mask s1_sample good_comb 2 = Ok rx ∧
      _clean_with_good_mask s1_y_sample good_comb 2 = Ok ry ∧
      s1_xx_clean out = Some rx.1.1.1 ∧ mask_xx out = Some rx.1.1.2 ∧
      s1_yy_clean out = Some ry.1.1.1 ∧ mask_yy out = Some ry.1.1.2.
Proof.
  intros out.
  apply (C3_shared_mask sample_file 2 "or" out
           s1_sample s1_y_sample flags_x_sample flags_y_sample).
  - reflexivity.
  - reflexivity.
  - reflexivity.
  - reflexivity.
  - split; [reflexivity|]. repeat constructor.
  - split; [reflexivity|]. repeat constructor.
  - reflexivity.
  - left. reflexivity.
  - vm_compute. reflexivity.
Defined.


Lemma combine_masks_separate
    (xx yy : option (ndarray float * ndarray float)) :
  combine_masks "separate" xx yy = Ok None.
Proof. unfold combine_masks. by destruct xx as [[? ?]|], yy as [[? ?]|]. Qed.




(** On the sample file the own mask drops the flagged channel 1: the first
    frequency block keeps one good channel of two and is rescaled, which an
    all-good mask would not do. *)
Example single_pol_own_mask :
  rows (amap (λ x : Z, bool_decide (x = 0%Z)) flags_x_sample)
    = [[true; false; true; true]]
  ∧ ∃ out, rfi_clean sample_file_xx 2 "OR" = Ok out
           ∧ (rows <$> s1_xx_clean out) = Some [[of_Z 2; of_Z 7]]
           ∧ (rows <$> mask_xx out) = Some [[of_Z 1; of_Z 2]].
Proof.
  split; [reflexivity|].
  exists (or_else (rfi_clean sample_file_xx 2 "OR") no_product).
  split; [vm_compute; reflexivity|].
  split; refine (bool_decide_unpack _ _); by vm_compute.
Qed.

(** The degraded run does produce a product. *)
Example single_pol_runs :
  ∃ out, rfi_clean sample_file_xx 2 "OR" = Ok out ∧ out_flag_mode out = "or".
Proof. eexists. split; [vm_compute; reflexivity|reflexivity]. Qed.

(* ================================================================== *)
(** ** Stage 2: only the first [F_eff] channels are read *)
(* ================================================================== *)

Lemma take_rows_fmap {A B} (g : A → B) (n : nat) (l : list (list A)) :
  take n <$> (fmap g <$> l) = fmap g <$> (take n <$> l).
Proof.
  rewrite <-!list_fmap_compose. apply list_fmap_ext.
  intros i r _. cbn. by rewrite fmap_take.
Qed.

Lemma take_zip_with {A B C} (g : A → B → C) (n : nat)
    (l : list A) (k : list B) :
  take n (zip_with g l k) = zip_with g (take n l) (take n k).
Proof.
  apply list_eq. intros j.
  rewrite lookup_zip_with, !lookup_take, lookup_zip_with. by case_decide.
Qed.

Lemma take_rows_zip_with {A B C} (g : A → B → C) (n : nat)
    (l : list (list A)) (k : list (list B)) :
  take n <$> zip_with (zip_with g) l k
  = zip_with (zip_with g) (take n <$> l) (take n <$> k).
Proof.
  revert k. induction l as [|r l IH]; intros [|r' k]; try done.
  cbn. by rewrite take_zip_with, IH.
Qed.

Lemma crop_amap {A B} (g : A → B) (n : nat) (a a' : ndarray A) :
  crop n a' = crop n a → crop n (amap g a') = crop n (amap g a).
Proof.
  unfold crop, amap. cbn [shape rows]. intros [= Hs Hr].
  by rewrite Hs, !take_rows_fmap, Hr.
Qed.

Lemma crop_shape {A} (n : nat) (a a' : ndarray A) :
  crop n a' = crop n a → shape a' = shape a.
Proof. by intros [= Hs _]. Qed.

(** The integrator reads its inputs through their first [F_eff] channels. *)
Lemma clean_crop (s1 s1' : ndarray float) (good good' : ndarray bool)
    (F_block : Z) :
  let n := Z.to_nat (Z.of_nat (shape s1).2 `div` F_block * F_block) in
  crop n s1' = crop n s1 → crop n good' = crop n good →
  _clean_with_good_mask s1' good' F_block
  = _clean_with_good_mask s1 good F_block.
Proof.
  intros n [= Hs Hrs] [= Hg Hrg]. unfold _clean_with_good_mask.
  rewrite Hs, Hg. case_decide; [done|].
  destruct (shape s1) as [T F]. case_decide; [done|].
  unfold floordiv. case_decide; [done|]. cbn [mbind result_bind].
  case_decide; [done|]. cbn [snd] in n. fold n. by rewrite Hrs, Hrg.
Qed.

Lemma shared_good_crop (flag_mode : string) (n : nat)
    (fx fy fx' fy' : ndarray float) :
  wf fx → wf fy → wf fx' → wf fy' → shape fx = shape fy →
  crop n fx' = crop n fx → crop n fy' = crop n fy →
  ∃ good good',
    shared_good flag_mode fx fy = Ok good ∧
    shared_good flag_mode fx' fy' = Ok good' ∧
    crop n good' = crop n good.
Proof.
  intros Hx Hy Hx' Hy' Hshape Hcx Hcy.
  pose proof (crop_shape _ _ _ Hcx) as Hsx.
  pose proof (crop_shape _ _ _ Hcy) as Hsy.
  assert (∀ g : bool → bool → bool, ∃ good good',
    (azip_with g (amap (λ x, neb x zero) fx) (amap (λ x, neb x zero) fy)
       ≫= λ flagged_comb, Ok (amap negb flagged_comb)) = Ok good ∧
    (azip_with g (amap (λ x, neb x zero) fx') (amap (λ x, neb x zero) fy')
       ≫= λ flagged_comb, Ok (amap negb flagged_comb)) = Ok good' ∧
    crop n good' = crop n good) as Hgen.
  { intros g.
    rewrite !azip_with_same_shape;
      try (by apply wf_amap); try done; [|cbn; congruence].
    cbn [mbind result_bind]. do 2 eexists.
    split; [reflexivity|]. split; [reflexivity|].
    apply crop_amap. unfold crop. cbn [shape rows amap].
    rewrite Hsx. f_equal.
    rewrite !take_rows_zip_with, !take_rows_fmap.
    injection Hcx as _ ->. injection Hcy as _ ->. done. }
  unfold shared_good. case_decide; apply Hgen.
Qed.

Lemma load_pol_crop (n : nat) (s s' : option (ndarray float))
    (fl fl' : option (ndarray Z)) :
  crop n <$> s' = crop n <$> s → crop n <$> fl' = crop n <$> fl →
  pol_crop_eq n (load_pol s fl) (load_pol s' fl').
Proof.
  destruct s, s', fl, fl'; cbn; try done.
  intros [= Hs1 Hs2] [= Hf1 Hf2]. split.
  - unfold crop. by rewrite Hs1, Hs2.
  - apply crop_amap. unfold crop. by rewrite Hf1, Hf2.
Qed.

Lemma load_crop (n : nat) (f f' : skfile) (data : skdata) :
  crop_file n f' = crop_file n f →
  _load_skstream f = Ok data →
  ∃ data', _load_skstream f' = Ok data' ∧
    take n (data_freq_hz data') = take n (data_freq_hz data) ∧
    data_time_blk data' = data_time_blk data ∧
    data_attrs data' = data_attrs data ∧
    pol_crop_eq n (data_xx data) (data_xx data') ∧
    pol_crop_eq n (data_yy data) (data_yy data').
Proof.
  unfold crop_file. intros [= Hfreq Htime Hsx Hfx Hsy Hfy Hattrs].
  pose proof (load_pol_crop n _ _ _ _ Hsx Hfx) as Hx.
  pose proof (load_pol_crop n _ _ _ _ Hsy Hfy) as Hy.
  unfold _load_skstream. rewrite Htime, Hattrs.
  destruct (file_freq_hz f) as [fr|], (file_freq_hz f') as [fr'|]; try done.
  destruct (file_time_blk f) as [tb|]; [|done].
  injection Hfreq as Hfreq.
  destruct (load_pol (file_s1_xx f) (file_sk_flags_xx f)) as [[sx flx]|],
    (load_pol (file_s1_xx f') (file_sk_flags_xx f')) as [[sx' flx']|];
    try done;
    destruct (load_pol (file_s1_yy f) (file_sk_flags_yy f)) as [[sy fly]|],
      (load_pol (file_s1_yy f') (file_sk_flags_yy f')) as [[sy' fly']|];
    try done; intros [= <-]; eexists; (split; [reflexivity|]); done.
Qed.

Lemma data_wf (T F : nat) (f : skfile) (data : skdata) (p : pol)
    (s fl : ndarray float) :
  file_wf T F f → _load_skstream f = Ok data →
  data_pol p data = Some (s, fl) →
  wf s ∧ shape s = (T, F) ∧ wf fl ∧ shape fl = (T, F).
Proof.
  intros Hwf Hload Hp.
  destruct (load_skstream_inv _ _ Hload) as (_&_&Hd).
  rewrite Hd in Hp. destruct (Hwf p) as [Hs Hfl].
  destruct (file_s1 p f) as [a|]; [|done].
  destruct (file_flags p f) as [b|]; [|done].
  injection Hp as <- <-.
  destruct (Hs a eq_refl) as [? ?]. destruct (Hfl b eq_refl) as [? ?].
  split; [done|]. split; [done|]. split; [by apply wf_amap|done].
Qed.

Lemma combine_masks_crop (flag_mode : string) (n T F : nat)
    (xx yy xx' yy' : option (ndarray float * ndarray float))
    (good_comb : option (ndarray bool)) :
  (∀ s fl, xx = Some (s, fl) → wf fl ∧ shape fl = (T, F)) →
  (∀ s fl, yy = Some (s, fl) → wf fl ∧ shape fl = (T, F)) →
  (∀ s fl, xx' = Some (s, fl) → wf fl ∧ shape fl = (T, F)) →
  (∀ s fl, yy' = Some (s, fl) → wf fl ∧ shape fl = (T, F)) →
  pol_crop_eq n xx xx' → pol_crop_eq n yy yy' →
  combine_masks flag_mode xx yy = Ok good_comb →
  ∃ good_comb',
    combine_masks flag_mode xx' yy' = Ok good_comb' ∧
    crop n <$> good_comb' = crop n <$> good_comb.
Proof.
  intros Hx Hy Hx' Hy' Hcx Hcy. unfold combine_masks.
  destruct xx as [[sx fx]|], xx' as [[sx' fx']|]; try done;
    destruct yy as [[sy fy]|], yy' as [[sy' fy']|]; try done;
    try (intros [= <-]; by exists None).
  case_decide; [|intros [= <-]; by exists None].
  destruct Hcx as [_ Hcx]. destruct Hcy as [_ Hcy].
  destruct (Hx _ _ eq_refl) as [? ?]. destruct (Hy _ _ eq_refl) as [? ?].
  destruct (Hx' _ _ eq_refl) as [? ?]. destruct (Hy' _ _ eq_refl) as [? ?].
  destruct (shared_good_crop flag_mode n fx fy fx' fy')
    as (good&good'&->&->&Hgood); try done; [congruence|].
  intros [= <-]. exists (Some good'). cbn. by rewrite Hgood.
Qed.

Lemma clean_pol_crop (n T F : nat) (F_block : Z)
    (x x' : option (ndarray float * ndarray float))
    (good_comb good_comb' : option (ndarray bool)) :
  n = Z.to_nat (Z.of_nat F `div` F_block * F_block) →
  (∀ s fl, x = Some (s, fl) → shape s = (T, F)) →
  pol_crop_eq n x x' →
  crop n <$> good_comb' = crop n <$> good_comb →
  clean_pol good_comb' F_block x' = clean_pol good_comb F_block x.
Proof.
  intros Hn Hshape Hx Hgood. unfold clean_pol.
  destruct x as [[s fl]|], x' as [[s' fl']|]; try done.
  destruct Hx as [Hs Hfl]. f_equal.
  pose proof (Hshape s fl eq_refl) as Hss.
  apply clean_crop; rewrite Hss; cbn [snd]; rewrite <-Hn; [done|].
  destruct good_comb as [g|], good_comb' as [g'|]; try done; cbn in *.
  - congruence.
  - by apply crop_amap.
Qed.

(** Lengths of rows built from zips, maps and chunks. *)
Ltac row_lengths :=
  repeat first [rewrite length_zip_with | rewrite length_fmap
               | rewrite chunks_length].

Lemma clean_wf (s1 : ndarray float) (good : ndarray bool) (F_block : Z)
    (s1_clean mask : ndarray float) (F_eff n_blocks : Z) :
  _clean_with_good_mask s1 good F_block = Ok (s1_clean, mask, F_eff, n_blocks) →
  wf s1 → wf good → wf s1_clean ∧ wf mask.
Proof.
  intros Hclean [Hr1 _] [Hr2 _].
  destruct (clean_ok_inv _ _ _ _ _ _ _ Hclean) as (Hshape&_&_&_&_&Hsc&Hsm).
  rewrite <-Hshape in Hr2.
  unfold wf. rewrite Hsc, Hsm. cbn [fst snd].
  revert Hclean. unfold _clean_with_good_mask.
  case_decide; [done|]. destruct (shape s1) as [T F].
  case_decide; [done|]. unfold floordiv. case_decide; [done|].
  cbn [mbind result_bind]. case_decide; [done|].
  intros [= <- <- _ <-]. cbn [rows fst] in *.
  split; split.
  - row_lengths. lia.
  - apply Forall_forall. intros r Hr.
    apply list_elem_of_lookup in Hr as [t Hr]. revert Hr.
    repeat first [rewrite lookup_zip_with | rewrite list_lookup_fmap].
    destruct (rows s1 !! t), (rows good !! t); cbn; try done.
    intros [= <-]. row_lengths. lia.
  - row_lengths. lia.
  - apply Forall_forall. intros r Hr.
    apply list_elem_of_lookup in Hr as [t Hr]. revert Hr.
    repeat first [rewrite lookup_zip_with | rewrite list_lookup_fmap].
    destruct (rows good !! t); cbn; try done.
    intros [= <-]. row_lengths. lia.
Qed.

(** The rest of a run is determined by the first [F_eff] channels. *)
Lemma rfi_clean_crop (T F : nat) (f f' : skfile) (F_block : Z)
    (flag_mode : string) (out : cleaned) :
  file_wf T F f → file_wf T F f' →
  crop_file (Z.to_nat (Z.of_nat F `div` F_block * F_block)) f'
  = crop_file (Z.to_nat (Z.of_nat F `div` F_block * F_block)) f →
  rfi_clean f F_block flag_mode = Ok out →
  rfi_clean f' F_block flag_mode = Ok out.
Proof.
  set (n := Z.to_nat (Z.of_nat F `div` F_block * F_block)).
  intros Hwf Hwf' Hcrop Hrun.
  destruct (rfi_clean_inv _ _ _ _ Hrun)
    as (data&good_comb&freq_2d&Hload&Hmode&Hcomb&Hpol&(p0&r0&Hsome)&Hresh
        &Hfreq&Htime&Hattrs&HFb&Hfm).
  destruct (load_crop n f f' data Hcrop Hload)
    as (data'&Hload'&Hfr'&Htb'&Hat'&Hxx&Hyy).
  destruct (combine_masks_crop (str_lower flag_mode) n T F
              (data_xx data) (data_yy data) (data_xx data') (data_yy data')
              good_comb) as (good_comb'&Hcomb'&Hgood); try done.
  { intros s fl H. by destruct (data_wf T F f data PolXX s fl) as (_&_&?&?). }
  { intros s fl H. by destruct (data_wf T F f data PolYY s fl) as (_&_&?&?). }
  { intros s fl H. by destruct (data_wf T F f' data' PolXX s fl) as (_&_&?&?). }
  { intros s fl H. by destruct (data_wf T F f' data' PolYY s fl) as (_&_&?&?). }
  assert (∀ p x', x' = data_pol p data' →
            clean_pol good_comb' F_block x'
            = clean_pol good_comb F_block (data_pol p data)) as Hclean.
  { intros p x' ->. apply (clean_pol_crop n T F); try done.
    - intros s fl H. by destruct (data_wf T F f data p s fl) as (_&?&_).
    - by destruct p. }
  assert (Z.to_nat (out_F_eff out) = n) as HFeff.
  { destruct (Hpol p0) as (res&Hres&_&_&Hr). rewrite Hsome in Hres.
    injection Hres as <-. destruct (Hr r0 eq_refl) as [HF Hn].
    destruct (data_pol p0 data) as [[s fl]|] eqn:Hp0; [|done].
    apply clean_pol_some in Hsome as (r&[= <-]&Hr0).
    destruct r0 as [[[c m] Fe] nb]. cbn in HF, Hn.
    destruct (clean_ok_inv _ _ _ _ _ _ _ Hr0) as (_&_&Hnb&_&HFe&_).
    destruct (data_wf T F f data p0 s fl Hwf Hload Hp0) as (_&Hs&_).
    rewrite Hs in Hnb. cbn [snd] in Hnb. by rewrite <-HF, HFe, Hnb. }
  destruct (Hpol PolXX) as (res_xx&Hrx&Hsx&Hmx&Hfx).
  destruct (Hpol PolYY) as (res_yy&Hry&Hsy&Hmy&Hfy).
  cbn [data_pol s1_clean_of mask_of] in *.
  destruct (rfi_clean_M_stage1 _ _ _ _ Hrun) as (data0&Hload0&HM1).
  rewrite Hload in Hload0. injection Hload0 as <-.
  unfold rfi_clean. rewrite Hload'. cbn [mbind result_bind].
  rewrite Hat', HM1. cbn [mbind result_bind].
  case_decide; [done|]. rewrite Hcomb'. cbn [mbind result_bind].
  rewrite (Hclean PolXX (data_xx data') eq_refl),
    (Hclean PolYY (data_yy data') eq_refl).
  cbn [data_pol]. rewrite Hrx, Hry. cbn [mbind result_bind].
  assert (∀ F_eff n_blocks,
    F_eff = out_F_eff out → n_blocks = out_n_blocks out →
    (freq_2d ← reshape (Z.to_nat n_blocks) (Z.to_nat F_block)
                 (take (Z.to_nat F_eff) (data_freq_hz data'));
     Ok {| out_time_blk := data_time_blk data';
           freq_block_hz := mean <$> freq_2d;
           s1_xx_clean := (λ r, r.1.1.1) <$> res_xx;
           mask_xx := (λ r, r.1.1.2) <$> res_xx;
           s1_yy_clean := (λ r, r.1.1.1) <$> res_yy;
           mask_yy := (λ r, r.1.1.2) <$> res_yy;
           out_attrs := data_attrs data;
           out_F_block := F_block;
           out_flag_mode := str_lower flag_mode;
           out_F_eff := F_eff;
           out_n_blocks := n_blocks;
           out_M_stage1 := out_M_stage1 out |}) = Ok out) as Hfin.
  { intros ? ? -> ->. rewrite HFeff, Hfr'. rewrite HFeff in Hresh.
    rewrite Hresh. cbn [mbind result_bind]. f_equal.
    destruct out. cbn in *.
    by rewrite Htb', Hfreq, Htime, Hattrs, HFb, Hfm, Hsx, Hmx, Hsy, Hmy. }
  destruct res_xx as [[[[cx mx] Fx] nx]|], res_yy as [[[[cy my] Fy] ny]|];
    cbn [mbind result_bind].
  - destruct (Hfx _ eq_refl) as [HF1 HN1]. destruct (Hfy _ eq_refl) as [HF2 HN2].
    cbn in HF1, HN1, HF2, HN2. case_decide; [lia|].
    cbn [mbind result_bind]. by apply Hfin.
  - destruct (Hfx _ eq_refl) as [HF1 HN1]. by apply Hfin.
  - destruct (Hfy _ eq_refl) as [HF2 HN2]. by apply Hfin.
  - destruct p0; cbn in Hsome; congruence.
Qed.

Lemma combine_masks_wf (T F : nat) (f : skfile) (data : skdata)
    (flag_mode : string) (g : ndarray bool) :
  file_wf T F f → _load_skstream f = Ok data →
  combine_masks flag_mode (data_xx data) (data_yy data) = Ok (Some g) →
  wf g.
Proof.
  intros Hwf Hload. destruct (load_skstream_inv _ _ Hload) as (_&_&Hd).
  pose proof (Hd PolXX) as Hx. pose proof (Hd PolYY) as Hy.
  cbn [data_pol file_s1 file_flags] in Hx, Hy. rewrite Hx, Hy.
  destruct (Hwf PolXX) as [_ Hfx]. destruct (Hwf PolYY) as [_ Hfy].
  cbn [file_flags] in Hfx, Hfy.
  unfold combine_masks, load_pol.
  destruct (file_s1_xx f), (file_sk_flags_xx f) as [fx|]; try done;
    destruct (file_s1_yy f), (file_sk_flags_yy f) as [fy|]; try done.
  case_decide; [|done].
  destruct (Hfx fx eq_refl) as [? ?]. destruct (Hfy fy eq_refl) as [? ?].
  destruct (shared_good_cells flag_mode fx fy) as (good&->&Hg&_);
    [done|done|congruence|].
  by intros [= <-].
Qed.

Lemma reshape_ok_inv {A} (n size : nat) (l : list A) (r : list (list A)) :
  reshape n size l = Ok r → length l = n * size ∧ r = chunks n size l.
Proof. unfold reshape. case_decide; [|done]. by intros [= <-]. Qed.

Lemma mean_block (Fb : Z) (blk : list float) :
  length blk = Z.to_nat Fb → (0 < Fb)%Z → mean blk = div (sum blk) (of_Z Fb).
Proof.
  intros Hlen HFb. unfold mean, of_nat. rewrite Hlen. do 2 f_equal. lia.
Qed.

(* ================================================================== *)
(** ** Stage 2: the frequency blocks of a run *)
(* ================================================================== *)

(** The geometry of the product of a successful stage-2 run on arrays
    with [F] channels, and its independence of the channels from [F_eff]
    on. *)
Lemma frequency_blocks_of_run (T F : nat) (f : skfile) (F_block : Z)
    (flag_mode : string) (out : cleaned) :
  file_wf T F f →
  rfi_clean f F_block flag_mode = Ok out →
  let n_blocks := (Z.of_nat F `div` F_block)%Z in
  let F_eff := (n_blocks * F_block)%Z in
  let Fb := Z.to_nat F_block in
  (0 < F_block)%Z ∧ (0 < n_blocks)%Z ∧
  out_n_blocks out = n_blocks ∧ out_F_eff out = F_eff ∧
  (∀ p a, s1_clean_of p out = Some a →
          wf a ∧ shape a = (T, Z.to_nat n_blocks)) ∧
  (∀ p a, mask_of p out = Some a →
          wf a ∧ shape a = (T, Z.to_nat n_blocks)) ∧
  length (freq_block_hz out) = Z.to_nat n_blocks ∧
  (∃ freq, file_freq_hz f = Some freq ∧
     ∀ b, b < Z.to_nat n_blocks →
          length (block_of Fb b freq) = Fb ∧
          freq_block_hz out !! b
          = Some (div (sum (block_of Fb b freq)) (of_Z F_block))) ∧
  (∀ f', file_wf T F f' →
         crop_file (Z.to_nat F_eff) f' = crop_file (Z.to_nat F_eff) f →
         rfi_clean f' F_block flag_mode = Ok out).
Proof.
  intros Hwf Hrun n_blocks F_eff Fb.
  destruct (rfi_clean_inv _ _ _ _ Hrun)
    as (data&good_comb&freq_2d&Hload&Hmode&Hcomb&Hpol&(p0&r0&Hsome)&Hresh
        &Hfreq&_).
  destruct (load_skstream_inv _ _ Hload) as (Hfile_freq&_&_).
  (* every cleaned polarization has the stated geometry *)
  assert (∀ p r, clean_pol good_comb F_block (data_pol p data) = Ok (Some r) →
            (0 < F_block)%Z ∧ (0 < n_blocks)%Z ∧
            r.2 = n_blocks ∧ r.1.2 = F_eff ∧
            wf r.1.1.1 ∧ shape r.1.1.1 = (T, Z.to_nat n_blocks) ∧
            wf r.1.1.2 ∧ shape r.1.1.2 = (T, Z.to_nat n_blocks)) as Hgeom.
  { intros p r Hr.
    destruct (data_pol p data) as [[s fl]|] eqn:Hp; [|done].
    apply clean_pol_some in Hr as (r'&[= <-]&Hr).
    destruct r as [[[c m] Fe] nb]. cbn [fst snd].
    destruct (data_wf T F f data p s fl Hwf Hload Hp) as (Hs&Hss&Hfl&Hsfl).
    destruct (clean_ok_inv _ _ _ _ _ _ _ Hr) as (_&HFb&Hnb&Hpos&HFe&Hsc&Hsm).
    rewrite Hss in Hnb, Hsc, Hsm. cbn [fst snd] in Hnb, Hsc, Hsm.
    fold n_blocks in Hnb. subst nb.
    destruct (clean_wf _ _ _ _ _ _ _ Hr Hs) as [Hwc Hwm].
    { destruct good_comb as [g|]; cbn [default].
      - by apply (combine_masks_wf T F f data (str_lower flag_mode)).
      - by apply wf_amap. }
    split; [done|]. split; [done|]. split; [done|]. split; [done|].
    split; [done|]. split; [done|]. split; done. }
  destruct (Hgeom p0 r0 Hsome) as (HFb&Hnb&Hr0n&Hr0F&_).
  destruct (Hpol p0) as (res0&Hres0&_&_&Hout0).
  rewrite Hsome in Hres0. injection Hres0 as <-.
  destruct (Hout0 r0 eq_refl) as [HoutF Houtn].
  rewrite Hr0F in HoutF. rewrite Hr0n in Houtn.
  split; [done|]. split; [done|]. split; [done|]. split; [done|].
  split.
  { intros p a Ha. destruct (Hpol p) as (res&Hres&Hs&_&_).
    rewrite Hs in Ha. destruct res as [r|]; [|done]. injection Ha as <-.
    by destruct (Hgeom p r Hres) as (_&_&_&_&?&?&_). }
  split.
  { intros p a Ha. destruct (Hpol p) as (res&Hres&_&Hm&_).
    rewrite Hm in Ha. destruct res as [r|]; [|done]. injection Ha as <-.
    by destruct (Hgeom p r Hres) as (_&_&_&_&_&_&?&?). }
  rewrite <-HoutF, <-Houtn in Hresh.
  apply reshape_ok_inv in Hresh as [Hlen ->].
  rewrite Hfreq. split; [by rewrite length_fmap, chunks_length|].
  split.
  { exists (data_freq_hz data). split; [done|]. intros b Hb.
    assert (Z.to_nat F_eff = Z.to_nat n_blocks * Z.to_nat F_block) as HFe
      by (unfold F_eff; lia).
    rewrite HFe in Hlen. rewrite length_take in Hlen.
    assert (length (block_of Fb b (data_freq_hz data)) = Fb) as Hblk.
    { apply (block_of_length (Z.to_nat n_blocks)); [done|]. subst Fb. lia. }
    split; [done|].
    rewrite list_lookup_fmap, chunks_lookup by done. cbn.
    rewrite HFe, block_of_take by done.
    by rewrite (mean_block F_block). }
  intros f' Hwf' Hcrop. by apply (rfi_clean_crop T F f f').
Qed.

Lemma wide_file_wf : file_wf 1 10 wide_file ∧ file_wf 1 10 wide_file_b.
Proof.
  split; intros []; split; intros a [= <-];
    (split; [split; [reflexivity|repeat constructor]|reflexivity]).
Qed.

(** The worked example of the specification: F = 10 and F_block = 4 give
    n_blocks = 2 and F_eff = 8; the last two channels are dropped from the
    cleaned array, the mask and the block-frequency axis. *)
Example wide_file_blocks :
  ∃ out,
    rfi_clean wide_file 4 "separate" = Ok out ∧
    rfi_clean wide_file_b 4 "separate" = Ok out ∧
    out_n_blocks out = 2%Z ∧ out_F_eff out = 8%Z ∧
    freq_block_hz out = [of_Z 103; of_Z 111] ∧
    (rows <$> s1_xx_clean out) = Some [[Fin (Q2Qc (28 # 3)); of_Z 26]] ∧
    (rows <$> mask_xx out) = Some [[of_Z 3; of_Z 4]].
Proof.
  exists (or_else (rfi_clean wide_file 4 "separate") no_product).
  split; [vm_compute; reflexivity|].
  split; [vm_compute; reflexivity|].
  split; [reflexivity|]. split; [reflexivity|].
  repeat split; refine (bool_decide_unpack _ _); by vm_compute.
Qed.

(* ================================================================== *)
(** ** From the stage-1 product to the stage-2 masks *)
(* ================================================================== *)

Lemma sk_flags_length (lower upper : float) (sk_block : list float) :
  length (sk_flags lower upper sk_block) = length sk_block.
Proof.
  unfold sk_flags, mask_assign.
  rewrite !length_zip_with, !length_fmap, length_replicate. lia.
Qed.


Section stored_flags.
Context `{E : SKEvaluator}.
Variables (fin : h5file) (M N : Z) (d pfa : float).
Variables (start_idx : Z) (ns_max : option Z) (out : skstream).
Hypothesis Hrun : stream_sk_dualpol fin M N d pfa start_idx ns_max = Ok out.
Hypothesis Hwf : ∀ p, wf (raw_of p fin).

Let T : nat :=
  Z.to_nat (selected (Z.of_nat (shape (XX fin)).1) start_idx ns_max `div` M).
Let nf : nat := (shape (XX fin)).2.

(** The flag arrays of the persisted product are well formed. *)
Lemma stored_flags_wf (p : pol) : wf (NdArray (T, nf) (flags_of p out)).
Proof using Hrun Hwf.
  destruct (stream_ok_inv _ _ _ _ _ _ _ _ Hrun) as (Hshape&_).
  pose proof (stream_lengths _ _ _ _ _ _ _ _ Hrun) as (_&_&L3&L4&_).
  split; cbn [rows shape fst snd].
  - by destruct p.
  - apply Forall_forall. intros r Hr.
    apply list_elem_of_lookup in Hr as [k Hr].
    assert (k < T) as Hk.
    { apply lookup_lt_Some in Hr. destruct p; cbn in Hr; subst T; lia. }
    rewrite (stream_flags_row _ _ _ _ _ _ _ _ Hrun p k Hk) in Hr.
    injection Hr as <-. rewrite sk_flags_length, block_sk_length by done.
    unfold nf. destruct p; cbn; [done|by rewrite Hshape].
Qed.

Lemma to_skfile_flags (p : pol) :
  file_flags p (to_skfile out) = Some (NdArray (T, nf) (flags_of p out)).
Proof using Hrun.
  pose proof (stream_lengths _ _ _ _ _ _ _ _ Hrun) as (_&_&_&_&L5).
  destruct (stream_ok_inv _ _ _ _ _ _ _ _ Hrun) as (_&_&_&_&_&_&_&_&Hout).
  assert (Z.to_nat (attr_nfreq out) = nf) as Hnf.
  { rewrite Hout. cbn. unfold nf. lia. }
  unfold to_skfile. rewrite L5, Hnf. fold T. by destruct p.
Qed.

End stored_flags.



Lemma own_good_cell (flags : ndarray Z) (t c : nat) (x : Z) :
  cell flags t c = Some x →
  cell (own_good (amap of_Z flags)) t c = Some (bool_decide (x = 0%Z)).
Proof.
  intros H. unfold own_good. rewrite !cell_amap, H.
  cbn [fmap option_fmap option_map].
  change zero with (of_Z 0). by rewrite eqb_of_Z.
Qed.

(* ================================================================== *)
(** ** Stage 2 runs to completion on well-formed input *)
(* ================================================================== *)

Lemma clean_total (s1 : ndarray float) (good : ndarray bool) (F_block : Z) :
  shape s1 = shape good → (0 < F_block ≤ Z.of_nat (shape s1).2)%Z →
  ∃ r, _clean_with_good_mask s1 good F_block = Ok r ∧
       r.1.2 = (Z.of_nat (shape s1).2 `div` F_block * F_block)%Z ∧
       r.2 = (Z.of_nat (shape s1).2 `div` F_block)%Z.
Proof.
  intros Hshape HFb. unfold _clean_with_good_mask.
  case_decide; [done|]. destruct (shape s1) as [T F]. cbn [snd] in *.
  case_decide; [lia|]. unfold floordiv. case_decide; [lia|].
  cbn [mbind result_bind].
  assert (0 < Z.of_nat F `div` F_block)%Z by (apply Z.div_str_pos; lia).
  case_decide; [lia|]. by eexists.
Qed.

Lemma combine_masks_total (T F : nat) (f : skfile) (data : skdata)
    (flag_mode : string) :
  file_wf T F f → _load_skstream f = Ok data →
  ∃ good_comb,
    combine_masks flag_mode (data_xx data) (data_yy data) = Ok good_comb ∧
    ∀ g, good_comb = Some g → shape g = (T, F).
Proof.
  intros Hwf Hload. destruct (load_skstream_inv _ _ Hload) as (_&_&Hd).
  pose proof (Hd PolXX) as Hx. pose proof (Hd PolYY) as Hy.
  cbn [data_pol file_s1 file_flags] in Hx, Hy. rewrite Hx, Hy.
  destruct (Hwf PolXX) as [_ Hfx]. destruct (Hwf PolYY) as [_ Hfy].
  cbn [file_flags] in Hfx, Hfy.
  unfold combine_masks, load_pol.
  destruct (file_s1_xx f), (file_sk_flags_xx f) as [fx|];
    try (by exists None);
    destruct (file_s1_yy f), (file_sk_flags_yy f) as [fy|];
    try (by exists None).
  case_decide; [|by exists None].
  destruct (Hfx fx eq_refl) as [? Hsx]. destruct (Hfy fy eq_refl) as [? ?].
  destruct (shared_good_cells flag_mode fx fy) as (good&->&_&Hs&_);
    [done|done|congruence|].
  exists (Some good). split; [done|]. intros g [= <-]. by rewrite Hs.
Qed.

Lemma clean_pol_total (T F : nat) (f : skfile) (data : skdata) (p : pol)
    (good_comb : option (ndarray bool)) (F_block : Z) :
  file_wf T F f → _load_skstream f = Ok data →
  (∀ g, good_comb = Some g → shape g = (T, F)) →
  (0 < F_block ≤ Z.of_nat F)%Z →
  ∃ res, clean_pol good_comb F_block (data_pol p data) = Ok res ∧
         (is_Some (data_pol p data) → is_Some res) ∧
         ∀ r, res = Some r →
              r.1.2 = (Z.of_nat F `div` F_block * F_block)%Z ∧
              r.2 = (Z.of_nat F `div` F_block)%Z.
Proof.
  intros Hwf Hload Hg HFb. unfold clean_pol.
  destruct (data_pol p data) as [[s fl]|] eqn:Hp.
  2:{ exists None. split; [done|]. split; [by intros [? ?]|done]. }
  destruct (data_wf T F f data p s fl Hwf Hload Hp) as (_&Hs&_&Hfl).
  destruct (clean_total s (default (own_good fl) good_comb) F_block)
    as (r&->&HF&Hn).
  - rewrite Hs. destruct good_comb as [g|]; cbn; [by rewrite (Hg g)|done].
  - by rewrite Hs.
  - rewrite Hs in HF, Hn. exists (Some r). split; [done|].
    split; [by eexists|]. by intros ? [= <-].
Qed.

Lemma load_attrs_eq (f : skfile) (data : skdata) :
  _load_skstream f = Ok data →
  data_attrs data
  = filter (λ kv, kv.1 ∈ ["M"; "N"; "d"; "pfa"]) (file_attrs f).
Proof.
  unfold _load_skstream.
  destruct (file_freq_hz f); [|done]. destruct (file_time_blk f); [|done].
  destruct (load_pol (file_s1_xx f) _), (load_pol (file_s1_yy f) _);
    try done; by intros [= <-].
Qed.

(** The loader copies the block-size attribute as it is. *)
Lemma load_attrs_M (f : skfile) (data : skdata) :
  _load_skstream f = Ok data →
  attrs_get "M" (data_attrs data) = attrs_get "M" (file_attrs f).
Proof.
  intros Hload. rewrite (load_attrs_eq f data Hload).
  unfold attrs_get. rewrite list_filter_filter. do 2 f_equal.
  apply list_filter_iff. intros [k v]. cbn. split; [tauto|].
  intros ->. split; [done|]. repeat constructor.
Qed.

Lemma int_of_float_finite (v : float) :
  is_finite v → ∃ z, int_of_float v = Ok z.
Proof. destruct v; [by eexists|done]. Qed.

Lemma int_of_float_of_Z (z : Z) : int_of_float (of_Z z) = Ok z.
Proof.
  unfold int_of_float, of_Z. f_equal.
  assert (Q2Qc (inject_Z z) == inject_Z z)%Q as Heq by apply Qred_correct.
  destruct (Qle_bool 0 (Q2Qc (inject_Z z))).
  - by rewrite Heq, Qfloor_Z.
  - by rewrite Heq, Qceiling_Z.
Qed.

Lemma M_stage1_of_total (attrs : list (string * float)) :
  (∀ v, attrs_get "M" attrs = Some v → is_finite v) →
  ∃ m, M_stage1_of attrs = Ok m.
Proof.
  intros H. unfold M_stage1_of.
  destruct (attrs_get "M" attrs) as [v|]; [|by eexists].
  destruct (int_of_float_finite v (H v eq_refl)) as [z ->]. by eexists.
Qed.

Lemma rfi_clean_total (T F : nat) (f : skfile) (F_block : Z)
    (flag_mode : string) (freq time_blk : list float) (p0 : pol) :
  file_wf T F f →
  (∀ v, attrs_get "M" (file_attrs f) = Some v → is_finite v) →
  (0 < F_block ≤ Z.of_nat F)%Z →
  str_lower flag_mode ∈ ["separate"; "or"; "and"] →
  is_Some (load_pol (file_s1 p0 f) (file_flags p0 f)) →
  file_freq_hz f = Some freq → length freq = F →
  file_time_blk f = Some time_blk →
  ∃ out, rfi_clean f F_block flag_mode = Ok out.
Proof.
  intros Hwf HattrM HFb Hmode Hp0 Hfreq Hlen Htime.
  assert (∃ data, _load_skstream f = Ok data) as [data Hload].
  { unfold _load_skstream. rewrite Hfreq, Htime.
    destruct p0; cbn [file_s1 file_flags] in Hp0; destruct Hp0 as [x ->];
      [|destruct (load_pol (file_s1_xx f) (file_sk_flags_xx f))];
      by eexists. }
  assert (data_freq_hz data = freq) as Hdf.
  { destruct (load_skstream_inv _ _ Hload) as (H&_). congruence. }
  assert (is_Some (data_pol p0 data)) as Hsome.
  { destruct (load_skstream_inv _ _ Hload) as (_&_&Hd). by rewrite Hd. }
  destruct (combine_masks_total T F f data (str_lower flag_mode) Hwf Hload)
    as (good_comb&Hcomb&Hg).
  destruct (clean_pol_total T F f data PolXX good_comb F_block Hwf Hload Hg HFb)
    as (res_xx&Hrx&Hsx&Hvx).
  destruct (clean_pol_total T F f data PolYY good_comb F_block Hwf Hload Hg HFb)
    as (res_yy&Hry&Hsy&Hvy).
  cbn [data_pol] in *.
  destruct (M_stage1_of_total (data_attrs data)) as [m1 HM1].
  { by rewrite (load_attrs_M f data Hload). }
  unfold rfi_clean. rewrite Hload. cbn [mbind result_bind].
  rewrite HM1. cbn [mbind result_bind].
  case_decide; [done|]. rewrite Hcomb. cbn [mbind result_bind].
  rewrite Hrx, Hry. cbn [mbind result_bind].
  set (nb := (Z.of_nat F `div` F_block)%Z) in *.
  assert (0 < nb)%Z by (apply Z.div_str_pos; lia).
  pose proof (Z.mul_div_le (Z.of_nat F) F_block ltac:(lia)).
  assert (∀ F_eff n_blocks,
    F_eff = (nb * F_block)%Z → n_blocks = nb →
    ∃ out,
      (freq_2d ← reshape (Z.to_nat n_blocks) (Z.to_nat F_block)
                   (take (Z.to_nat F_eff) (data_freq_hz data));
       Ok {| out_time_blk := data_time_blk data;
             freq_block_hz := mean <$> freq_2d;
             s1_xx_clean := (λ r, r.1.1.1) <$> res_xx;
             mask_xx := (λ r, r.1.1.2) <$> res_xx;
             s1_yy_clean := (λ r, r.1.1.1) <$> res_yy;
             mask_yy := (λ r, r.1.1.2) <$> res_yy;
             out_attrs := data_attrs data;
             out_F_block := F_block;
             out_flag_mode := str_lower flag_mode;
             out_F_eff := F_eff;
             out_n_blocks := n_blocks;
             out_M_stage1 := m1 |}) = Ok out) as Hfin.
  { intros ? ? -> ->. unfold reshape. rewrite Hdf. case_decide as Hl.
    - cbn [mbind result_bind]. by eexists.
    - destruct Hl. rewrite length_take. lia. }
  destruct res_xx as [[[[cx mx] Fx] nx]|], res_yy as [[[[cy my] Fy] ny]|];
    cbn [mbind result_bind].
  - destruct (Hvx _ eq_refl) as [HF1 HN1].
    destruct (Hvy _ eq_refl) as [HF2 HN2]. cbn in HF1, HN1, HF2, HN2.
    case_decide; [lia|]. cbn [mbind result_bind]. by apply Hfin.
  - destruct (Hvx _ eq_refl) as [HF1 HN1]. by apply Hfin.
  - destruct (Hvy _ eq_refl) as [HF2 HN2]. by apply Hfin.
  - destruct p0; [destruct (Hsx Hsome) as [? [=]]
                 |destruct (Hsy Hsome) as [? [=]]].
Qed.

(* ================================================================== *)
(** ** Claims on the block counts of both stages *)
(* ================================================================== *)

(** C7.  On a well-laid-out file, with the start offset in range, an absent
    or positive sample cap, at least [M > 0] selected samples and
    parameters for which the evaluator returns its thresholds, stage 1
    produces a product whose number of time blocks is [T = floor(S / M)]
    for the selected sample count [S].  The product is a function of the
    samples in [start_idx, start_idx + T*M) only: a file of the same layout
    that agrees there yields the same S1, flags and block times, whatever
    its trailing [S - T*M] remainder samples are. *)
Theorem C7_remainder_dropped `{E : SKEvaluator} (fin : h5file) (M N : Z)
    (d pfa : float) (start_idx : Z) (ns_max : option Z) :
  layout_ok fin →
  (0 ≤ start_idx < Z.of_nat (shape (XX fin)).1)%Z →
  (∀ m, ns_max = Some m → 0 < m)%Z →
  let S := selected (Z.of_nat (shape (XX fin)).1) start_idx ns_max in
  let T := (S `div` M)%Z in
  (0 < M ≤ S)%Z →
  is_Some (compute_sk_thresholds M N d pfa) →
  ∃ out,
    stream_sk_dualpol fin M N d pfa start_idx ns_max = Ok out ∧
    (T * M ≤ S < T * M + M)%Z ∧
    Z.of_nat (length (s1_xx out)) = T ∧ Z.of_nat (length (s1_yy out)) = T ∧
    Z.of_nat (length (sk_flags_xx out)) = T ∧
    Z.of_nat (length (sk_flags_yy out)) = T ∧
    Z.of_nat (length (time_blk out)) = T ∧
    attr_ns_eff out = (T * M)%Z ∧
    ∀ fin',
      shape (XX fin') = shape (XX fin) →
      shape (YY fin') = shape (YY fin) →
      freq fin' = freq fin →
      (∀ t, time fin' = Some t → length t = (shape (XX fin')).1) →
      used_samples start_idx T M (rows (XX fin'))
        = used_samples start_idx T M (rows (XX fin)) →
      used_samples start_idx T M (rows (YY fin'))
        = used_samples start_idx T M (rows (YY fin)) →
      used_samples start_idx T M (time_axis fin')
        = used_samples start_idx T M (time_axis fin) →
      stream_sk_dualpol fin' M N d pfa start_idx ns_max = Ok out.
Proof.
  intros (Hshape&Hfreq&Htime) Hstart Hcap S T HM Hthr.
  destruct (stream_total fin M N d pfa start_idx ns_max) as [out Hrun];
    try done.
  exists out. split; [done|].
  assert (shape (XX fin) = shape (XX fin)) as Hx by done.
  assert (shape (YY fin) = shape (YY fin)) as Hy by done.
  destruct (remainder_dropped_of_run fin fin M N d pfa start_idx ns_max out
              Hrun Hx Hy eq_refl Htime eq_refl eq_refl eq_refl)
    as (Hfloor&L1&L2&L3&L4&L5&Heff&_).
  repeat (split; [done|]).
  intros fin' Hsx Hsy Hfr Htime' Hux Huy Hut.
  by apply (remainder_dropped_of_run fin fin' M N d pfa start_idx ns_max out).
Qed.

Lemma C7_remainder_dropped_witness :
  ∃ out,
    stream_sk_dualpol (E := sample_evaluator zero one)
      tail_a 2 1 one pfa_default 0 None = Ok out ∧
    (2 * 2 ≤ 5 < 2 * 2 + 2)%Z ∧
    Z.of_nat (length (s1_xx out)) = 2%Z ∧ Z.of_nat (length (s1_yy out)) = 2%Z ∧
    Z.of_nat (length (sk_flags_xx out)) = 2%Z ∧
    Z.of_nat (length (sk_flags_yy out)) = 2%Z ∧
    Z.of_nat (length (time_blk out)) = 2%Z ∧
    attr_ns_eff out = (2 * 2)%Z ∧
    ∀ fin',
      shape (XX fin') = shape (XX tail_a) →
      shape (YY fin') = shape (YY tail_a) →
      freq fin' = freq tail_a →
      (∀ t, time fin' = Some t → length t = (shape (XX fin')).1) →
      used_samples 0 2 2 (rows (XX fin')) = used_samples 0 2 2 (rows (XX tail_a)) →
      used_samples 0 2 2 (rows (YY fin')) = used_samples 0 2 2 (rows (YY tail_a)) →
      used_samples 0 2 2 (time_axis fin') = used_samples 0 2 2 (time_axis tail_a) →
      stream_sk_dualpol (E := sample_evaluator zero one)
        fin' 2 1 one pfa_default 0 None = Ok out.
Proof.
  apply (C7_remainder_dropped (E := sample_evaluator zero one)
           tail_a 2 1 one pfa_default 0 None).
  - split; [reflexivity|]. split; [reflexivity|]. intros t Ht. discriminate Ht.
  - simpl. lia.
  - intros m Hm. discriminate Hm.
  - simpl. lia.
  - vm_compute. by eexists.
Defined.

(** Two files that differ only in the fifth sample, with M = 2: both give
    the same two-block product. *)
Example tail_dropped :
  stream_sk_dualpol (E := sample_evaluator zero one) tail_a 2 1 one pfa_default 0 None
    = Ok tail_product ∧
  stream_sk_dualpol (E := sample_evaluator zero one) tail_b 2 1 one pfa_default 0 None
    = Ok tail_product ∧
  length (s1_xx tail_product) = 2.
Proof. repeat split; vm_compute; reflexivity. Qed.

(** C9.  On well-formed arrays with [F] channels, stage 2 with
    [0 < F_block ≤ F] (a valid policy, a polarization present, frequency
    and time axes present, one frequency per channel, and a block-size
    attribute [M] that is absent or a finite number) produces a product.
    Every product it returns has [n_blocks = floor(F / F_block) > 0]
    frequency blocks and [F_eff = n_blocks * F_block]; every cleaned array
    and mask has [n_blocks] columns, the block-frequency axis has
    [n_blocks] entries, and entry [b] is the mean of the [F_block] channel
    frequencies of block [b].  The product does not depend on the channels
    from [F_eff] on: a file that agrees on the first [F_eff] channels of
    every dataset gives the same product. *)
Theorem C9_frequency_blocks (T F : nat) (f : skfile) (F_block : Z)
    (flag_mode : string) :
  file_wf T F f →
  let n_blocks := (Z.of_nat F `div` F_block)%Z in
  let F_eff := (n_blocks * F_block)%Z in
  let Fb := Z.to_nat F_block in
  ((0 < F_block ≤ Z.of_nat F)%Z →
   str_lower flag_mode ∈ ["separate"; "or"; "and"] →
   (∃ p, is_Some (load_pol (file_s1 p f) (file_flags p f))) →
   (∃ freq, file_freq_hz f = Some freq ∧ length freq = F) →
   is_Some (file_time_blk f) →
   (∀ v, attrs_get "M" (file_attrs f) = Some v → is_finite v) →
   ∃ out, rfi_clean f F_block flag_mode = Ok out) ∧
  ∀ out, rfi_clean f F_block flag_mode = Ok out →
    (0 < F_block)%Z ∧ (0 < n_blocks)%Z ∧
    out_n_blocks out = n_blocks ∧ out_F_eff out = F_eff ∧
    (∀ p a, s1_clean_of p out = Some a →
            wf a ∧ shape a = (T, Z.to_nat n_blocks)) ∧
    (∀ p a, mask_of p out = Some a →
            wf a ∧ shape a = (T, Z.to_nat n_blocks)) ∧
    length (freq_block_hz out) = Z.to_nat n_blocks ∧
    (∃ freq, file_freq_hz f = Some freq ∧
       ∀ b, b < Z.to_nat n_blocks →
            length (block_of Fb b freq) = Fb ∧
            freq_block_hz out !! b
            = Some (div (sum (block_of Fb b freq)) (of_Z F_block))) ∧
    (∀ f', file_wf T F f' →
           crop_file (Z.to_nat F_eff) f' = crop_file (Z.to_nat F_eff) f →
           rfi_clean f' F_block flag_mode = Ok out).
Proof.
  intros Hwf n_blocks F_eff Fb. split.
  - intros HFb Hmode [p0 Hp0] (freq&Hfreq&Hlen) [time_blk Htime] HattrM.
    by apply (rfi_clean_total T F f F_block flag_mode freq time_blk p0).
  - intros out Hrun. by apply (frequency_blocks_of_run T F f).
Qed.

Lemma C9_frequency_blocks_witness :
  let n_blocks := (Z.of_nat 10 `div` 4)%Z in
  let F_eff := (n_blocks * 4)%Z in
  let Fb := Z.to_nat 4 in
  ((0 < 4 ≤ Z.of_nat 10)%Z →
   str_lower "separate" ∈ ["separate"; "or"; "and"] →
   (∃ p, is_Some (load_pol (file_s1 p wide_file) (file_flags p wide_file))) →
   (∃ freq, file_freq_hz wide_file = Some freq ∧ length freq = 10) →
   is_Some (file_time_blk wide_file) →
   (∀ v, attrs_get "M" (file_attrs wide_file) = Some v → is_finite v) →
   ∃ out, rfi_clean wide_file 4 "separate" = Ok out) ∧
  ∀ out, rfi_clean wide_file 4 "separate" = Ok out →
    (0 < 4)%Z ∧ (0 < n_blocks)%Z ∧
    out_n_blocks out = n_blocks ∧ out_F_eff out = F_eff ∧
    (∀ p a, s1_clean_of p out = Some a →
            wf a ∧ shape a = (1, Z.to_nat n_blocks)) ∧
    (∀ p a, mask_of p out = Some a →
            wf a ∧ shape a = (1, Z.to_nat n_blocks)) ∧
    length (freq_block_hz out) = Z.to_nat n_blocks ∧
    (∃ freq, file_freq_hz wide_file = Some freq ∧
       ∀ b, b < Z.to_nat n_blocks →
            length (block_of Fb b freq) = Fb ∧
            freq_block_hz out !! b
            = Some (div (sum (block_of Fb b freq)) (of_Z 4))) ∧
    (∀ f', file_wf 1 10 f' →
           crop_file (Z.to_nat F_eff) f' = crop_file (Z.to_nat F_eff) wide_file →
           rfi_clean f' 4 "separate" = Ok out).
Proof.
  apply (C9_frequency_blocks 1 10 wide_file 4 "separate").
  exact (proj1 wide_file_wf).
Defined.

(* ================================================================== *)
(** ** Further properties of stage 1 *)
(* ================================================================== *)

(** Stage 1 returns a product exactly when the file layout is consistent,
    the start offset is in range, the sample cap is absent or positive,
    the block size is positive and not larger than the selection, and the
    evaluator returns thresholds for the parameters (M, N, d, pfa) instead
    of raising. *)
Theorem stream_succeeds_iff `{E : SKEvaluator} (fin : h5file) (M N : Z)
    (d pfa : float) (start_idx : Z) (ns_max : option Z) :
  (∃ out, stream_sk_dualpol fin M N d pfa start_idx ns_max = Ok out) ↔
  layout_ok fin ∧
  (0 ≤ start_idx < Z.of_nat (shape (XX fin)).1)%Z ∧
  (∀ m, ns_max = Some m → 0 < m)%Z ∧
  (0 < M ≤ selected (Z.of_nat (shape (XX fin)).1) start_idx ns_max)%Z ∧
  is_Some (compute_sk_thresholds M N d pfa).
Proof.
  split.
  - intros [out Hrun].
    destruct (stream_ok_inv _ _ _ _ _ _ _ _ Hrun)
      as (Hshape&Hfreq&Hstart&HS&HM&HT&Htime&Hcap&_).
    destruct (stream_ok_thresholds _ _ _ _ _ _ _ _ Hrun) as (lo&up&x&Hthr&_).
    split; [by repeat split|]. split; [done|]. split; [done|].
    split; [|rewrite Hthr; by eexists].
    split; [done|].
    destruct (decide (M ≤ selected (Z.of_nat (shape (XX fin)).1)
                            start_idx ns_max)%Z) as [|Hlt]; [done|].
    rewrite Z.div_small in HT by lia. lia.
  - intros ((Hshape&Hfreq&Htime)&Hstart&Hcap&HM&Hthr).
    by apply stream_total.
Qed.

(** With every check passed, an evaluator that refuses the parameters ends
    the run before any output is created. *)
Lemma stream_evaluator_refuses `{E : SKEvaluator} (fin : h5file) (M N : Z)
    (d pfa : float) (start_idx : Z) (ns_max : option Z) :
  layout_ok fin →
  (0 ≤ start_idx < Z.of_nat (shape (XX fin)).1)%Z →
  (∀ m, ns_max = Some m → 0 < m)%Z →
  (0 < M ≤ selected (Z.of_nat (shape (XX fin)).1) start_idx ns_max)%Z →
  compute_sk_thresholds M N d pfa = None →
  stream_sk_dualpol fin M N d pfa start_idx ns_max = Raise EvaluatorError.
Proof.
  intros (Hshape&Hfreq&Htime) Hstart Hcap HM Hthr.
  unfold stream_sk_dualpol, _open_datasets.
  rewrite <-Hshape. destruct (shape (XX fin)) as [nsx nfx] eqn:Hx.
  cbn [fst snd] in *.
  case_decide as H1; [lia|]. case_decide as H2; [done|].
  assert (∃ time0, (match time fin with
       | Some ds_time => _load_time_array ds_time nsx
       | None => Ok (arange nsx)
       end) = Ok time0) as [time0 ->].
  { destruct (time fin) as [t|]; [|by eexists].
    unfold _load_time_array. rewrite (Htime t eq_refl).
    case_decide; [done|by eexists]. }
  cbn [mbind result_bind]. rewrite Hx.
  case_decide as H3; [lia|].
  assert (0 < selected (Z.of_nat nsx) start_idx ns_max `div` M)%Z as HT.
  { apply Z.div_str_pos. lia. }
  unfold selected in *.
  destruct ns_max as [m|]; cbn [mbind result_bind].
  - specialize (Hcap m eq_refl). case_decide; [lia|]. cbn.
    case_decide; [lia|]. unfold floordiv. case_decide; [lia|]. cbn.
    case_decide; [lia|]. by rewrite Hthr.
  - case_decide; [lia|]. unfold floordiv. case_decide; [lia|]. cbn.
    case_decide; [lia|]. by rewrite Hthr.
Qed.

(** No block size [M ≤ 0] is rejected by a check of its own: with every
    earlier check passed, [M = 0] ends in a division by zero and [M < 0]
    in the not-enough-samples error. *)
Theorem nonpositive_block_size `{E : SKEvaluator} (fin : h5file) (M N : Z)
    (d pfa : float) (start_idx : Z) (ns_max : option Z) :
  layout_ok fin →
  (0 ≤ start_idx < Z.of_nat (shape (XX fin)).1)%Z →
  (∀ m, ns_max = Some m → 0 < m)%Z →
  (M ≤ 0)%Z →
  stream_sk_dualpol fin M N d pfa start_idx ns_max
  = if decide (M = 0%Z) then Raise ZeroDivisionError
    else Raise (ValueError Not_enough_samples).
Proof.
  intros (Hshape&Hfreq&Htime) Hstart Hcap HM.
  unfold stream_sk_dualpol, _open_datasets.
  rewrite <-Hshape. destruct (shape (XX fin)) as [nsx nfx] eqn:Hx.
  cbn [fst snd] in *.
  case_decide; [lia|]. case_decide; [done|].
  assert (∃ time0, (match time fin with
     | Some ds_time => _load_time_array ds_time nsx
     | None => Ok (arange nsx)
     end) = Ok time0) as [time0 ->].
  { destruct (time fin) as [t|]; [|by eexists].
    unfold _load_time_array. rewrite (Htime t eq_refl).
    case_decide; [done|by eexists]. }
  cbn [mbind result_bind]. rewrite Hx. case_decide; [lia|].
  assert (∀ S, 0 < S → M < 0 → S `div` M ≤ 0)%Z as Hneg.
  { intros S HS Hm. pose proof (Z.div_mod S M ltac:(lia)).
    pose proof (Z.mod_neg_bound S M Hm). nia. }
  destruct ns_max as [m|]; cbn [mbind result_bind].
  - specialize (Hcap m eq_refl). case_decide; [lia|]. cbn.
    case_decide; [lia|]. unfold floordiv.
    case_decide; [done|]. cbn.
    case_decide; [done|]. exfalso.
    pose proof (Hneg (m `min` (Z.of_nat nsx - start_idx))%Z). lia.
  - case_decide; [lia|]. unfold floordiv.
    case_decide; [done|]. cbn.
    case_decide; [done|]. exfalso.
    pose proof (Hneg (Z.of_nat nsx - start_idx)%Z). lia.
Qed.

Lemma nonpositive_block_size_witness :
  stream_sk_dualpol (E := sample_evaluator zero one) ramp 0 1 one pfa_default 0 None
  = if decide (0 = 0)%Z then Raise ZeroDivisionError
    else Raise (ValueError Not_enough_samples).
Proof.
  apply (nonpositive_block_size (E := sample_evaluator zero one)
           ramp 0 1 one pfa_default 0 None).
  - split; [reflexivity|]. split; [reflexivity|]. intros t Ht. discriminate Ht.
  - simpl. lia.
  - intros m Hm. discriminate Hm.
  - lia.
Defined.

(** A sample cap that is given must be positive, whatever the block size:
    on a consistent file with the start offset in range, [ns_max ≤ 0] is
    rejected. *)
Theorem nonpositive_cap_rejected `{E : SKEvaluator} (fin : h5file) (M N : Z)
    (d pfa : float) (start_idx ns_max : Z) :
  layout_ok fin →
  (0 ≤ start_idx < Z.of_nat (shape (XX fin)).1)%Z →
  (ns_max ≤ 0)%Z →
  stream_sk_dualpol fin M N d pfa start_idx (Some ns_max)
  = Raise (ValueError Ns_max_not_positive).
Proof.
  intros (Hshape&Hfreq&Htime) Hstart Hcap.
  unfold stream_sk_dualpol, _open_datasets.
  rewrite <-Hshape. destruct (shape (XX fin)) as [nsx nfx] eqn:Hx.
  cbn [fst snd] in *.
  destruct (decide (nsx ≠ nsx ∨ nfx ≠ nfx)) as [[?|?]|_]; [done|done|].
  destruct (decide (length (freq fin) ≠ nfx)); [done|].
  assert (∃ time0, (match time fin with
     | Some ds_time => _load_time_array ds_time nsx
     | None => Ok (arange nsx)
     end) = Ok time0) as [time0 ->].
  { destruct (time fin) as [t|]; [|by eexists].
    unfold _load_time_array. rewrite (Htime t eq_refl).
    case_decide; [done|by eexists]. }
  cbn [mbind result_bind]. rewrite Hx.
  destruct (decide (start_idx < 0 ∨ Z.of_nat nsx ≤ start_idx)%Z); [lia|].
  cbn [mbind result_bind]. by case_decide.
Qed.

Lemma nonpositive_cap_rejected_witness :
  stream_sk_dualpol (E := sample_evaluator zero one)
    ramp 4 1 one pfa_default 0 (Some 0%Z)
  = Raise (ValueError Ns_max_not_positive).
Proof.
  apply (nonpositive_cap_rejected (E := sample_evaluator zero one)
           ramp 4 1 one pfa_default 0 0).
  - split; [reflexivity|]. split; [reflexivity|]. intros t Ht. discriminate Ht.
  - simpl. lia.
  - lia.
Defined.

(** A time dataset whose length is not the number of samples is rejected
    before any parameter is looked at. *)
Theorem time_length_mismatch_rejected `{E : SKEvaluator} (fin : h5file)
    (M N : Z) (d pfa : float) (start_idx : Z) (ns_max : option Z)
    (t : list float) :
  shape (XX fin) = shape (YY fin) →
  length (freq fin) = (shape (XX fin)).2 →
  time fin = Some t → length t ≠ (shape (XX fin)).1 →
  stream_sk_dualpol fin M N d pfa start_idx ns_max
  = Raise (ValueError Time_dataset_shape).
Proof.
  intros Hshape Hfreq Ht Hlen.
  unfold stream_sk_dualpol, _open_datasets.
  rewrite <-Hshape. destruct (shape (XX fin)) as [nsx nfx] eqn:Hx.
  cbn [fst snd] in *.
  case_decide; [lia|]. case_decide; [done|].
  rewrite Ht. unfold _load_time_array. by case_decide.
Qed.

Lemma time_length_mismatch_rejected_witness :
  stream_sk_dualpol (E := sample_evaluator zero one)
    {| XX := XX ramp; YY := YY ramp; freq := freq ramp;
       time := Some [of_Z 0; of_Z 1];
       obs_time := None |} 4 1 one pfa_default 0 None
  = Raise (ValueError Time_dataset_shape).
Proof.
  apply (time_length_mismatch_rejected (E := sample_evaluator zero one)
           _ 4 1 one pfa_default 0 None [of_Z 0; of_Z 1]).
  - reflexivity.
  - reflexivity.
  - reflexivity.
  - simpl. lia.
Defined.

(** A sample cap at or beyond the number of remaining samples changes
    nothing: the run is the uncapped run. *)
Theorem cap_beyond_end `{E : SKEvaluator} (fin : h5file) (M N : Z)
    (d pfa : float) (start_idx ns_max : Z) :
  (Z.of_nat (shape (XX fin)).1 - start_idx ≤ ns_max)%Z →
  stream_sk_dualpol fin M N d pfa start_idx (Some ns_max)
  = stream_sk_dualpol fin M N d pfa start_idx None.
Proof.
  intros Hcap. unfold stream_sk_dualpol.
  destruct (_open_datasets fin) as [[[[ds_xx ds_yy] fr] tm]|] eqn:Hopen;
    [|done].
  assert (ds_xx = XX fin) as ->.
  { revert Hopen. unfold _open_datasets.
    destruct (shape (XX fin)), (shape (YY fin)).
    case_decide; [done|]. case_decide; [done|].
    destruct (match time fin with Some _ => _ | None => _ end); [|done].
    by intros [= <- _ _ _]. }
  cbn [mbind result_bind].
  destruct (shape (XX fin)) as [nsx nfx]. cbn [fst] in Hcap.
  case_decide; [done|]. cbn [mbind result_bind].
  case_decide; [lia|]. cbn [mbind result_bind].
  by rewrite Z.min_r by lia.
Qed.

Lemma cap_beyond_end_witness :
  stream_sk_dualpol (E := sample_evaluator zero one)
    tail_a 2 1 one pfa_default 0 (Some 9%Z)
  = stream_sk_dualpol (E := sample_evaluator zero one)
      tail_a 2 1 one pfa_default 0 None.
Proof.
  apply (cap_beyond_end (E := sample_evaluator zero one) tail_a 2 1 one pfa_default 0 9).
  simpl. lia.
Defined.

Section stored_s1.
Context `{E : SKEvaluator}.
Variables (fin : h5file) (M N : Z) (d pfa : float).
Variables (start_idx : Z) (ns_max : option Z) (out : skstream).
Hypothesis Hrun : stream_sk_dualpol fin M N d pfa start_idx ns_max = Ok out.
Hypothesis Hwf : ∀ p, wf (raw_of p fin).

Let T : nat :=
  Z.to_nat (selected (Z.of_nat (shape (XX fin)).1) start_idx ns_max `div` M).
Let nf : nat := (shape (XX fin)).2.

Lemma stored_s1_wf (p : pol) : wf (NdArray (T, nf) (s1_of p out)).
Proof using Hrun Hwf.
  destruct (stream_ok_inv _ _ _ _ _ _ _ _ Hrun) as (Hshape&_).
  pose proof (stream_lengths _ _ _ _ _ _ _ _ Hrun) as (L1&L2&_).
  split; cbn [rows shape fst snd].
  - by destruct p.
  - apply Forall_forall. intros r Hr.
    apply list_elem_of_lookup in Hr as [k Hr].
    assert (k < T) as Hk.
    { apply lookup_lt_Some in Hr. destruct p; cbn in Hr; subst T; lia. }
    rewrite (stream_s1_row _ _ _ _ _ _ _ _ Hrun p k Hk) in Hr.
    injection Hr as <-. unfold block_moments. cbn [fst].
    rewrite length_fmap, sum_axis0_length.
    + unfold nf. destruct p; cbn; [done|by rewrite Hshape].
    + unfold slice. apply Forall_take, Forall_drop, (Hwf p).
Qed.

End stored_s1.

(** Geometry of the stage-1 product.  In a successful run on well-formed
    raw data every S1 and flag dataset is a [T × nf] array, the frequency
    axis is the input's, unchanged, and the recorded number of used samples
    is [T·M], which falls short of the selection by less than one block. *)
Theorem stream_product_shape `{E : SKEvaluator} (fin : h5file) (M N : Z)
    (d pfa : float) (start_idx : Z) (ns_max : option Z) (out : skstream) :
  stream_sk_dualpol fin M N d pfa start_idx ns_max = Ok out →
  (∀ p, wf (raw_of p fin)) →
  let S := selected (Z.of_nat (shape (XX fin)).1) start_idx ns_max in
  let T := Z.to_nat (S `div` M) in
  let nf := (shape (XX fin)).2 in
  (∀ p, wf (NdArray (T, nf) (s1_of p out)) ∧
        wf (NdArray (T, nf) (flags_of p out))) ∧
  length (time_blk out) = T ∧
  freq_hz out = freq fin ∧ length (freq_hz out) = nf ∧
  attr_nfreq out = Z.of_nat nf ∧
  attr_ns_eff out = (Z.of_nat T * M)%Z ∧
  (0 ≤ S - attr_ns_eff out < M)%Z.
Proof.
  intros Hrun Hwf S T nf.
  pose proof (stream_lengths _ _ _ _ _ _ _ _ Hrun) as (_&_&_&_&L5).
  destruct (stream_ok_inv _ _ _ _ _ _ _ _ Hrun)
    as (_&Hfreq&_&HS&HM&HT&_&_&Hout).
  split.
  { intros p. split.
    - by apply (stored_s1_wf _ _ _ _ _ _ _ _ Hrun).
    - by apply (stored_flags_wf _ _ _ _ _ _ _ _ Hrun). }
  split; [done|]. rewrite Hout.
  cbn [freq_hz attr_nfreq attr_ns_eff].
  split; [done|]. split; [done|]. split; [done|].
  fold S in HS, HT |- *. subst T. rewrite Z2Nat.id by lia. split; [done|].
  pose proof (floor_bounds S M HM). lia.
Qed.

(** Rows are computed block by block and polarization by polarization:
    row [k] of the S1 and flag datasets of a polarization is determined by
    the [M] samples of block [k] of that polarization alone.  Two runs with
    the same parameters on files that agree there give the same row,
    whatever the other polarization, the other blocks, the time axis or
    the sample cap are. *)
Theorem block_rows_local `{E : SKEvaluator} (fin fin' : h5file) (M N : Z)
    (d pfa : float) (start_idx : Z) (ns_max ns_max' : option Z)
    (out out' : skstream) (p : pol) (k : nat) :
  stream_sk_dualpol fin M N d pfa start_idx ns_max = Ok out →
  stream_sk_dualpol fin' M N d pfa start_idx ns_max' = Ok out' →
  (Z.of_nat k <
     selected (Z.of_nat (shape (XX fin)).1) start_idx ns_max `div` M)%Z →
  (Z.of_nat k <
     selected (Z.of_nat (shape (XX fin')).1) start_idx ns_max' `div` M)%Z →
  (shape (raw_of p fin')).2 = (shape (raw_of p fin)).2 →
  let i0 := block_start start_idx M k in
  slice i0 (i0 + M) (rows (raw_of p fin'))
  = slice i0 (i0 + M) (rows (raw_of p fin)) →
  s1_of p out' !! k = s1_of p out !! k ∧
  flags_of p out' !! k = flags_of p out !! k.
Proof.
  intros Hrun Hrun' Hk Hk' Hnf i0 Hblock.
  rewrite (stream_s1_row _ _ _ _ _ _ _ _ Hrun p k) by lia.
  rewrite (stream_s1_row _ _ _ _ _ _ _ _ Hrun' p k) by lia.
  rewrite (stream_flags_row _ _ _ _ _ _ _ _ Hrun p k) by lia.
  rewrite (stream_flags_row _ _ _ _ _ _ _ _ Hrun' p k) by lia.
  cbv zeta. fold i0. unfold block_sk, block_moments.
  by rewrite Hblock, Hnf.
Qed.

Lemma stream_product_shape_witness :
  (∀ p, wf (NdArray (1, 1) (s1_of p ramp_product)) ∧
        wf (NdArray (1, 1) (flags_of p ramp_product))) ∧
  length (time_blk ramp_product) = 1 ∧
  freq_hz ramp_product = freq ramp ∧ length (freq_hz ramp_product) = 1 ∧
  attr_nfreq ramp_product = 1%Z ∧
  attr_ns_eff ramp_product = (1 * 4)%Z ∧
  (0 ≤ 4 - attr_ns_eff ramp_product < 4)%Z.
Proof.
  apply (stream_product_shape (E := sample_evaluator zero one)
           ramp 4 1 one pfa_default 0 None ramp_product).
  - vm_compute. reflexivity.
  - intros []; (split; [reflexivity|]); repeat constructor.
Defined.

Lemma block_rows_local_witness :
  s1_of PolXX tail_c_product !! 1 = s1_of PolXX tail_product !! 1 ∧
  flags_of PolXX tail_c_product !! 1 = flags_of PolXX tail_product !! 1.
Proof.
  apply (block_rows_local (E := sample_evaluator zero one)
           tail_a tail_c 2 1 one pfa_default 0 None (Some 4%Z)
           tail_product tail_c_product PolXX 1).
  - vm_compute. reflexivity.
  - vm_compute. reflexivity.
  - vm_compute. reflexivity.
  - vm_compute. reflexivity.
  - reflexivity.
  - reflexivity.
Defined.

Lemma slice_arange (a m : Z) (n : nat) :
  (0 ≤ a)%Z → (0 ≤ m)%Z → (a + m ≤ Z.of_nat n)%Z →
  slice a (a + m) (arange n) = of_nat <$> seq (Z.to_nat a) (Z.to_nat m).
Proof.
  intros Ha Hm Hn. unfold slice, arange.
  rewrite <-fmap_drop, <-fmap_take, drop_seq, take_seq.
  f_equal. f_equal; lia.
Qed.

Lemma sum_index_run (a m : nat) :
  ∃ s : Z, sum (of_nat <$> seq a m) = of_Z s ∧
           (2 * s = Z.of_nat m * (2 * Z.of_nat a + Z.of_nat m - 1))%Z.
Proof.
  revert a. induction m as [|m IH]; intros a.
  - exists 0%Z. split; [done|lia].
  - destruct (IH (S a)) as (s&Hs&H2). exists (Z.of_nat a + s)%Z.
    split; [|lia].
    cbn [seq]. rewrite fmap_cons, sum_cons, Hs. unfold of_nat.
    by rewrite add_of_Z.
Qed.

Lemma div_half (s m c : Z) :
  m ≠ 0%Z → (2 * s = m * c)%Z →
  div (of_Z s) (of_Z m) = Fin (Q2Qc (c # 2)).
Proof.
  intros Hm H. unfold div, of_Z. case_decide as H0.
  { destruct Hm. apply Q2Qc_inject_Z_inj. exact H0. }
  f_equal.
  assert (Q2Qc (inject_Z s) = Q2Qc (c # 2) * Q2Qc (inject_Z m))%Qc as ->.
  { unfold Qcmult. apply Q2Qc_eq_iff. unfold Q2Qc. cbn [this].
    rewrite !Qred_correct. unfold Qeq, Qmult, inject_Z. cbn [Qnum Qden]. lia. }
  field. exact H0.
Qed.

Lemma synthetic_time_row `{E : SKEvaluator} (fin : h5file) (M N : Z)
    (d pfa : float) (start_idx : Z) (ns_max : option Z) (out : skstream)
    (k : nat) :
  stream_sk_dualpol fin M N d pfa start_idx ns_max = Ok out →
  time fin = None →
  (Z.of_nat k <
     selected (Z.of_nat (shape (XX fin)).1) start_idx ns_max `div` M)%Z →
  time_blk out !! k
  = Some (Fin (Q2Qc ((2 * block_start start_idx M k + M - 1) # 2))).
Proof.
  intros Hrun Htime Hk.
  rewrite (stream_time_row _ _ _ _ _ _ _ _ Hrun k) by lia.
  pose proof (block_in_range _ _ _ _ _ _ _ _ Hrun k ltac:(lia)) as HB.
  cbv zeta in *. destruct HB as (HM&H1&H2&H3&H4&H5).
  assert (block_start start_idx M k + M ≤ Z.of_nat (shape (XX fin)).1)%Z
    as Hend by (etrans; [exact H2|]; etrans; [exact H3|exact H4]).
  clear Hk H2 H3 H4.
  f_equal. unfold time_axis. rewrite Htime.
  rewrite slice_arange by lia.
  unfold mean. rewrite length_fmap, length_seq.
  destruct (sum_index_run (Z.to_nat (block_start start_idx M k)) (Z.to_nat M))
    as (s&->&H2).
  rewrite !Z2Nat.id in H2 by lia.
  unfold of_nat. rewrite Z2Nat.id by lia. apply div_half; [lia|exact H2].
Qed.

(** Without a time dataset the time axis is the sample index, and the time
    stored for block [k] is the centre of the block's indices,
    [start_idx + k·M + (M − 1)/2]. *)
Theorem synthetic_block_time `{E : SKEvaluator} (fin : h5file) (M N : Z)
    (d pfa : float) (start_idx : Z) (ns_max : option Z) (out : skstream)
    (k : nat) :
  stream_sk_dualpol fin M N d pfa start_idx ns_max = Ok out →
  time fin = None →
  (Z.of_nat k <
     selected (Z.of_nat (shape (XX fin)).1) start_idx ns_max `div` M)%Z →
  time_blk out !! k
  = Some (Fin (Q2Qc ((2 * block_start start_idx M k + M - 1) # 2))).
Proof. apply synthetic_time_row. Qed.

Lemma synthetic_block_time_witness :
  time_blk tail_product !! 1 = Some (Fin (Q2Qc ((2 * 2 + 2 - 1) # 2))).
Proof.
  apply (synthetic_block_time (E := sample_evaluator zero one)
           tail_a 2 1 one pfa_default 0 None tail_product 1).
  - vm_compute. reflexivity.
  - reflexivity.
  - vm_compute. reflexivity.
Defined.

(* ================================================================== *)
(** ** Further properties of stage 2: failures *)
(* ================================================================== *)

Lemma load_raise_inv (f : skfile) (e : exn) :
  _load_skstream f = Raise e →
  (e = KeyError Missing_axes ∧
   (file_freq_hz f = None ∨ file_time_blk f = None)) ∨
  (e = KeyError Missing_polarizations ∧
   is_Some (file_freq_hz f) ∧ is_Some (file_time_blk f) ∧
   ∀ p, load_pol (file_s1 p f) (file_flags p f) = None).
Proof.
  unfold _load_skstream.
  destruct (file_freq_hz f) as [fr|]; [|intros [= <-]; left; auto].
  destruct (file_time_blk f) as [tb|]; [|intros [= <-]; left; auto].
  destruct (load_pol (file_s1_xx f) (file_sk_flags_xx f)) as [xx|] eqn:Hxx;
    destruct (load_pol (file_s1_yy f) (file_sk_flags_yy f)) as [yy|] eqn:Hyy;
    try done.
  intros [= <-]. right. split; [done|]. split; [by eexists|].
  split; [by eexists|]. by intros [].
Qed.

Lemma load_ok_some (f : skfile) (data : skdata) :
  _load_skstream f = Ok data → ∃ p, is_Some (data_pol p data).
Proof.
  unfold _load_skstream.
  destruct (file_freq_hz f) as [fr|]; [|done].
  destruct (file_time_blk f) as [tb|]; [|done].
  destruct (load_pol (file_s1_xx f) (file_sk_flags_xx f)) as [xx|] eqn:Hxx;
    destruct (load_pol (file_s1_yy f) (file_sk_flags_yy f)) as [yy|] eqn:Hyy;
    try done; intros [= <-].
  - exists PolXX. by eexists.
  - exists PolXX. by eexists.
  - exists PolYY. by eexists.
Qed.

Lemma clean_raise_inv (s1 : ndarray float) (good : ndarray bool) (F_block : Z)
    (e : exn) :
  _clean_with_good_mask s1 good F_block = Raise e →
  ∃ m, e = ValueError m ∧
       m ∈ [S1_good_shape_mismatch; F_block_not_positive;
            F_smaller_than_F_block].
Proof.
  unfold _clean_with_good_mask.
  case_decide; [intros [= <-]; eexists; split; [done|repeat constructor]|].
  destruct (shape s1) as [T F].
  case_decide; [intros [= <-]; eexists; split; [done|repeat constructor]|].
  unfold floordiv. case_decide; [lia|]. cbn [mbind result_bind].
  case_decide; [intros [= <-]; eexists; split; [done|repeat constructor]|].
  done.
Qed.

Lemma clean_pol_raise_inv (good_comb : option (ndarray bool)) (F_block : Z)
    (pol_data : option (ndarray float * ndarray float)) (e : exn) :
  clean_pol good_comb F_block pol_data = Raise e →
  ∃ m, e = ValueError m ∧
       m ∈ [S1_good_shape_mismatch; F_block_not_positive;
            F_smaller_than_F_block].
Proof.
  unfold clean_pol. destruct pol_data as [[s1 flags]|]; [|done].
  destruct (_clean_with_good_mask _ _ _) eqn:Hc; [done|].
  intros [= <-]. by apply clean_raise_inv in Hc.
Qed.

Lemma clean_pol_present (good_comb : option (ndarray bool)) (F_block : Z)
    (pol_data : option (ndarray float * ndarray float)) :
  is_Some pol_data → clean_pol good_comb F_block pol_data ≠ Ok None.
Proof.
  intros [[s1 flags] ->]. unfold clean_pol.
  by destruct (_clean_with_good_mask _ _ _).
Qed.

Lemma combine_masks_raise_inv (flag_mode : string)
    (xx yy : option (ndarray float * ndarray float)) (e : exn) :
  combine_masks flag_mode xx yy = Raise e → e = ValueError Cannot_broadcast.
Proof.
  unfold combine_masks.
  destruct xx as [[? fx]|]; [|done]. destruct yy as [[? fy]|]; [|done].
  case_decide; [|done]. unfold shared_good, azip_with.
  cbn [amap shape fst snd].
  destruct (decide (flag_mode = "or"));
    destruct (broadcast_dim (shape fx).1 (shape fy).1),
             (broadcast_dim (shape fx).2 (shape fy).2); cbn; congruence.
Qed.

Lemma M_stage1_of_raise_inv (attrs : list (string * float)) (e : exn) :
  M_stage1_of attrs = Raise e →
  e = ValueError Cannot_convert_NaN ∧ attrs_get "M" attrs = Some NaN.
Proof.
  unfold M_stage1_of. destruct (attrs_get "M" attrs) as [[q|]|]; try done.
  by intros [= <-].
Qed.



(** Every way in which stage 2 can fail. *)
Lemma rfi_clean_raise_inv (f : skfile) (F_block : Z) (flag_mode : string)
    (e : exn) :
  rfi_clean f F_block flag_mode = Raise e →
  _load_skstream f = Raise e ∨
  ∃ data, _load_skstream f = Ok data ∧
    ((e = ValueError Cannot_convert_NaN ∧
      attrs_get "M" (data_attrs data) = Some NaN) ∨
     (e = ValueError Bad_flag_mode ∧
      str_lower flag_mode ∉ ["separate"; "or"; "and"]) ∨
     (str_lower flag_mode ∈ ["separate"; "or"; "and"] ∧
      ((∃ m, e = ValueError m ∧
             m ∈ [Cannot_broadcast; S1_good_shape_mismatch;
                  F_block_not_positive; F_smaller_than_F_block;
                  Cannot_reshape]) ∨
       e = RuntimeError Inconsistent_F_eff))).
Proof.
  unfold rfi_clean.
  destruct (_load_skstream f) as [data|] eqn:Hload;
    [|cbn [mbind result_bind]; intros [= <-]; by left].
  cbn [mbind result_bind]. intros Hrun. right. exists data. split; [done|].
  revert Hrun.
  destruct (M_stage1_of (data_attrs data)) as [m1|e1] eqn:HM1.
  2:{ intros [= <-]. left. by apply M_stage1_of_raise_inv. }
  cbn [mbind result_bind]. intros Hrun. right.
  revert Hrun. case_decide as Hmode; [intros [= <-]; by left|].
  intros Hrun. right.
  split; [by destruct (decide (str_lower flag_mode
                               ∈ ["separate"; "or"; "and"]))|].
  revert Hrun.
  destruct (combine_masks _ _ _) as [good_comb|] eqn:Hcomb.
  2:{ intros [= <-]. apply combine_masks_raise_inv in Hcomb as ->.
      left. eexists. split; [done|]. repeat constructor. }
  cbn [mbind result_bind].
  destruct (clean_pol good_comb F_block (data_xx data)) as [res_xx|] eqn:Hxx.
  2:{ intros [= <-]. apply clean_pol_raise_inv in Hxx as (m&->&Hm).
      left. exists m. split; [done|].
      rewrite !elem_of_cons in Hm. rewrite !elem_of_cons. tauto. }
  cbn [mbind result_bind].
  destruct (clean_pol good_comb F_block (data_yy data)) as [res_yy|] eqn:Hyy.
  2:{ intros [= <-]. apply clean_pol_raise_inv in Hyy as (m&->&Hm).
      left. exists m. split; [done|].
      rewrite !elem_of_cons in Hm. rewrite !elem_of_cons. tauto. }
  cbn [mbind result_bind].
  assert (∀ F_eff n_blocks (g : list (list float) → cleaned),
    (freq_2d ← reshape (Z.to_nat n_blocks) (Z.to_nat F_block)
                 (take (Z.to_nat F_eff) (data_freq_hz data));
     Ok (g freq_2d)) = Raise e →
    (∃ m, e = ValueError m ∧
          m ∈ [Cannot_broadcast; S1_good_shape_mismatch;
               F_block_not_positive; F_smaller_than_F_block;
               Cannot_reshape]) ∨
    e = RuntimeError Inconsistent_F_eff) as Hfin.
  { intros F_eff n_blocks g. unfold reshape. case_decide; [done|].
    intros [= <-]. left. eexists. split; [done|]. repeat constructor. }
  destruct res_xx as [[[[cx mx] Fx] nx]|], res_yy as [[[[cy my] Fy] ny]|];
    cbn [mbind result_bind].
  - case_decide; [intros [= <-]; by right|]. cbn [mbind result_bind].
    apply (Hfin _ _ (λ freq_2d, Cleaned _ _ _ _ _ _ _ _ _ _ _ _)).
  - apply (Hfin _ _ (λ freq_2d, Cleaned _ _ _ _ _ _ _ _ _ _ _ _)).
  - apply (Hfin _ _ (λ freq_2d, Cleaned _ _ _ _ _ _ _ _ _ _ _ _)).
  - destruct (load_ok_some _ _ Hload) as [[] Hp]; cbn [data_pol] in Hp.
    + by destruct (clean_pol_present good_comb F_block _ Hp).
    + by destruct (clean_pol_present good_comb F_block _ Hp).
Qed.

(** Missing datasets are the only source of a [KeyError]: without a
    frequency or time axis the axes error, and with both axes but no
    polarization that has both its S1 and its flag dataset the
    polarization error; no [KeyError] arises in any other way. *)
Theorem stage2_key_errors (f : skfile) (F_block : Z) (flag_mode : string)
    (m : message) :
  rfi_clean f F_block flag_mode = Raise (KeyError m) ↔
  (m = Missing_axes ∧ (file_freq_hz f = None ∨ file_time_blk f = None)) ∨
  (m = Missing_polarizations ∧
   is_Some (file_freq_hz f) ∧ is_Some (file_time_blk f) ∧
   ∀ p, load_pol (file_s1 p f) (file_flags p f) = None).
Proof.
  split.
  - intros Hrun. apply rfi_clean_raise_inv in Hrun as [Hload|Hrest].
    + apply load_raise_inv in Hload as [[[= ->] ?]|[[= ->] ?]]; auto.
    + destruct Hrest as (data&_&[[[=] _]|[[[=] _]|[_ [(?&[=]&_)|[=]]]]]).
  - unfold rfi_clean, _load_skstream.
    intros [[-> [Hnone|Hnone]]|(->&[fr Hfr]&[tb Htb]&Hp)].
    + by rewrite Hnone.
    + rewrite Hnone. by destruct (file_freq_hz f).
    + rewrite Hfr, Htb. pose proof (Hp PolXX) as Hx. pose proof (Hp PolYY) as Hy.
      cbn [file_s1 file_flags] in Hx, Hy. by rewrite Hx, Hy.
Qed.

(** Stage 2 never divides by zero, and its last guard, "no polarization
    was cleaned", can never fire: a file that loads has a polarization,
    and a present polarization is either cleaned or fails earlier. *)
Theorem stage2_never_raises (f : skfile) (F_block : Z) (flag_mode : string) :
  rfi_clean f F_block flag_mode ≠ Raise ZeroDivisionError ∧
  rfi_clean f F_block flag_mode ≠ Raise (RuntimeError Nothing_cleaned).
Proof.
  split; intros Hrun; apply rfi_clean_raise_inv in Hrun as [Hload|Hrest].
  - by apply load_raise_inv in Hload as [[[=] _]|[[=] _]].
  - by destruct Hrest as (data&_&[[[=] _]|[[[=] _]|[_ [(?&[=]&_)|[=]]]]]).
  - by apply load_raise_inv in Hload as [[[=] _]|[[=] _]].
  - by destruct Hrest as (data&_&[[[=] _]|[[[=] _]|[_ [(?&[=]&_)|[=]]]]]).
Qed.






(** A polarization of which only one of the two datasets is in the file is
    treated as absent: the run is the run on the file without it. *)
Theorem incomplete_pol_ignored (f : skfile) (F_block : Z) (flag_mode : string)
    (p : pol) :
  load_pol (file_s1 p f) (file_flags p f) = None →
  rfi_clean f F_block flag_mode = rfi_clean (drop_pol p f) F_block flag_mode.
Proof.
  intros Hp.
  assert (_load_skstream (drop_pol p f) = _load_skstream f) as Hload.
  { unfold _load_skstream.
    destruct p; cbn [file_s1 file_flags] in Hp; cbn; by rewrite Hp. }
  unfold rfi_clean. by rewrite Hload.
Qed.

Lemma lower_ascii_idemp (c : ascii) : lower_ascii (lower_ascii c) = lower_ascii c.
Proof. destruct c as [[] [] [] [] [] [] [] []]; by vm_compute. Qed.

Lemma str_lower_idemp (s : string) : str_lower (str_lower s) = str_lower s.
Proof.
  induction s as [|c s IH]; [done|]. cbn [str_lower].
  by rewrite lower_ascii_idemp, IH.
Qed.

(** The flag mode is read without regard to letter case, and the mode
    recorded in the product is one of the three lowercase names. *)
Theorem flag_mode_case_insensitive (f : skfile) (F_block : Z)
    (flag_mode : string) :
  rfi_clean f F_block (str_lower flag_mode) = rfi_clean f F_block flag_mode ∧
  ∀ out, rfi_clean f F_block flag_mode = Ok out →
         out_flag_mode out = str_lower flag_mode ∧
         out_flag_mode out ∈ ["separate"; "or"; "and"].
Proof.
  split.
  - unfold rfi_clean. by rewrite str_lower_idemp.
  - intros out Hrun.
    destruct (rfi_clean_inv _ _ _ _ Hrun)
      as (data&good_comb&freq_2d&_&Hmode&_&_&_&_&_&_&_&_&Hfm).
    by rewrite Hfm.
Qed.

Lemma incomplete_pol_ignored_witness :
  rfi_clean sample_file_half 2 "or"
  = rfi_clean (drop_pol PolYY sample_file_half) 2 "or".
Proof.
  apply (incomplete_pol_ignored sample_file_half 2 "or" PolYY).
  reflexivity.
Defined.

(* ================================================================== *)
(** ** Further properties of the integrator *)
(* ================================================================== *)

Lemma cell_in_shape {A} (a : ndarray A) (t c : nat) (v : A) :
  wf a → cell a t c = Some v → t < (shape a).1 ∧ c < (shape a).2.
Proof.
  intros [Hr Hc] Hcell. unfold cell in Hcell.
  destruct (rows a !! t) as [r|] eqn:Hrow; [|done]. cbn in Hcell.
  split.
  - rewrite <-Hr. by apply lookup_lt_Some in Hrow.
  - rewrite Forall_forall in Hc.
    rewrite <-(Hc r) by (by eapply list_elem_of_lookup_2).
    by apply lookup_lt_Some in Hcell.
Qed.

(** Every cell of the block mask is a whole number of channels between 0
    and [F_block], and the cleaned array has a value at the same place. *)
Theorem mask_count_range (s1 : ndarray float) (good : ndarray bool)
    (F_block : Z) (s1_clean mask : ndarray float) (F_eff n_blocks : Z)
    (t b : nat) (v : float) :
  _clean_with_good_mask s1 good F_block = Ok (s1_clean, mask, F_eff, n_blocks) →
  wf s1 → wf good →
  cell mask t b = Some v →
  ∃ n : nat, v = of_nat n ∧ (Z.of_nat n ≤ F_block)%Z ∧
             is_Some (cell s1_clean t b).
Proof.
  intros Hclean Hs1 Hgood Hcell.
  destruct (clean_ok_inv _ _ _ _ _ _ _ Hclean) as (Hshape&HFb&_&_&_&_&Hsm).
  destruct (clean_wf _ _ _ _ _ _ _ Hclean Hs1 Hgood) as [_ Hwm].
  destruct (cell_in_shape _ _ _ _ Hwm Hcell) as [Ht Hb].
  rewrite Hsm in Ht, Hb. cbn [fst snd] in Ht, Hb.
  destruct (lookup_lt_is_Some_2 (rows s1) t) as [rs Hrs];
    [by rewrite (proj1 Hs1)|].
  destruct (lookup_lt_is_Some_2 (rows good) t) as [rg Hrg];
    [by rewrite (proj1 Hgood), <-Hshape|].
  destruct (clean_block _ _ _ _ _ _ _ t b rs rg Hclean Hs1 Hgood Hrs Hrg
              ltac:(lia)) as (_&Hlg&Hm&Hc).
  exists (count_good (block_of (Z.to_nat F_block) b rg)).
  split; [congruence|]. split; [|by rewrite Hc].
  pose proof (count_good_le (block_of (Z.to_nat F_block) b rg)). lia.
Qed.

Lemma mask_count_range_witness :
  ∃ n : nat, of_Z 1 = of_nat n ∧ (Z.of_nat n ≤ 2)%Z ∧
             is_Some (cell clean_sample.1.1.1 0 0).
Proof.
  apply (mask_count_range s1_sample good_sample 2
           clean_sample.1.1.1 clean_sample.1.1.2
           clean_sample.1.2 clean_sample.2 0 0 (of_Z 1)).
  - vm_compute. reflexivity.
  - split; [reflexivity|]. repeat constructor.
  - split; [reflexivity|]. repeat constructor.
  - vm_compute. reflexivity.
Defined.

(* ================================================================== *)
(** ** Further properties of the mask policies *)
(* ================================================================== *)

(** Under [separate] the two polarizations do not interact: what the run
    returns for a present polarization (cleaned array, block mask, block
    frequencies and times) is what it returns on the file without the
    other polarization. *)
Theorem separate_independent (f : skfile) (F_block : Z) (flag_mode : string)
    (out : cleaned) (p : pol) :
  str_lower flag_mode = "separate" →
  rfi_clean f F_block flag_mode = Ok out →
  is_Some (load_pol (file_s1 p f) (file_flags p f)) →
  ∃ out', rfi_clean (drop_pol (other p) f) F_block flag_mode = Ok out' ∧
          s1_clean_of p out' = s1_clean_of p out ∧
          mask_of p out' = mask_of p out ∧
          s1_clean_of (other p) out' = None ∧
          mask_of (other p) out' = None ∧
          freq_block_hz out' = freq_block_hz out ∧
          out_time_blk out' = out_time_blk out.
Proof.
  intros Hmode Hrun [x Hp].
  destruct (rfi_clean_inv _ _ _ _ Hrun)
    as (data&gc&freq_2d&Hload&_&Hc&Hpol&_&Hresh&Hfreq&Htime&_).
  destruct (rfi_clean_M_stage1 _ _ _ _ Hrun) as (data0&Hload0&HM1).
  rewrite Hload in Hload0. injection Hload0 as <-.
  rewrite (load_attrs_eq f data Hload) in HM1.
  rewrite Hmode, combine_masks_separate in Hc. injection Hc as <-.
  destruct (load_skstream_inv _ _ Hload) as (Hfr&Htb&Hd).
  destruct (Hpol p) as (res&Hres&Hs&Hm&HF).
  rewrite Hd, Hp in Hres. destruct x as [s fl].
  destruct (clean_pol_some _ _ _ _ _ Hres) as (r&->&_).
  destruct (HF r eq_refl) as [HFe Hnb].
  destruct r as [[[c m] Fe] nb]. cbn [fst snd] in HFe, Hnb. subst Fe nb.
  cbn [fmap option_fmap option_map fst] in Hs, Hm.
  unfold rfi_clean, _load_skstream.
  destruct p; cbn [other drop_pol file_s1 file_flags file_freq_hz
                   file_time_blk file_s1_xx file_sk_flags_xx file_s1_yy
                   file_sk_flags_yy file_attrs load_pol] in *.
  all: rewrite Hfr, Htb, Hp.
  all: cbn [mbind result_bind data_xx data_yy data_freq_hz data_time_blk
            data_attrs].
  all: rewrite HM1; cbn [mbind result_bind].
  all: rewrite Hmode.
  all: destruct (decide ("separate" ∉ ["separate"; "or"; "and"])) as [Hin|_];
         [destruct Hin; repeat constructor|].
  all: rewrite combine_masks_separate; cbn [mbind result_bind].
  all: rewrite Hres; cbn [mbind result_bind clean_pol].
  all: rewrite Hresh; cbn [mbind result_bind].
  all: eexists; (split; [reflexivity|]).
  all: cbn [s1_clean_of mask_of s1_xx_clean s1_yy_clean mask_xx mask_yy
            freq_block_hz out_time_blk fmap option_fmap option_map] in *.
  all: by rewrite Hs, Hm, Hfreq, Htime.
Qed.

Lemma separate_independent_witness :
  ∃ out', rfi_clean (drop_pol (other PolXX) sample_file) 2 "Separate" = Ok out' ∧
          s1_clean_of PolXX out'
          = s1_clean_of PolXX
              (or_else (rfi_clean sample_file 2 "Separate") no_product) ∧
          mask_of PolXX out'
          = mask_of PolXX
              (or_else (rfi_clean sample_file 2 "Separate") no_product) ∧
          s1_clean_of (other PolXX) out' = None ∧
          mask_of (other PolXX) out' = None ∧
          freq_block_hz out'
          = freq_block_hz
              (or_else (rfi_clean sample_file 2 "Separate") no_product) ∧
          out_time_blk out'
          = out_time_blk
              (or_else (rfi_clean sample_file 2 "Separate") no_product).
Proof.
  apply (separate_independent sample_file 2 "Separate"
           (or_else (rfi_clean sample_file 2 "Separate") no_product) PolXX).
  - reflexivity.
  - vm_compute. reflexivity.
  - by eexists.
Defined.

Lemma cell_is_Some {A} (a : ndarray A) (t c : nat) :
  wf a → t < (shape a).1 → c < (shape a).2 → is_Some (cell a t c).
Proof.
  intros [Hr Hc] Ht Hcol. unfold cell.
  destruct (lookup_lt_is_Some_2 (rows a) t) as [r Hrow]; [by rewrite Hr|].
  rewrite Hrow. cbn. apply lookup_lt_is_Some_2.
  rewrite Forall_forall in Hc.
  by rewrite (Hc r) by (by eapply list_elem_of_lookup_2).
Qed.

Lemma row_cell {A} (a : ndarray A) (t c : nat) (r : list A) :
  rows a !! t = Some r → cell a t c = r !! c.
Proof. intros Hrow. unfold cell. by rewrite Hrow. Qed.

Lemma count_good_mono (g g' : list bool) :
  Forall2 (λ a b : bool, a = true → b = true) g g' →
  count_good g ≤ count_good g'.
Proof.
  induction 1 as [|x y g g' Hxy _ IH]; [done|].
  rewrite !count_good_cons. destruct x, y; lia.
Qed.

Lemma block_of_Forall2 {A B} (R : A → B → Prop) (Fb b : nat)
    (l : list A) (k : list B) :
  Forall2 R l k → Forall2 R (block_of Fb b l) (block_of Fb b k).
Proof. intros H. unfold block_of. by apply Forall2_take, Forall2_drop. Qed.

(** The good mask of a run and the block mask it leads to, for a
    polarization of a file in which both polarizations are present. *)
Lemma run_mask_inv (f : skfile) (F_block : Z) (flag_mode : string)
    (out : cleaned) (s1x s1y : ndarray float) (fx fy : ndarray Z) (p : pol) :
  file_s1_xx f = Some s1x → file_sk_flags_xx f = Some fx →
  file_s1_yy f = Some s1y → file_sk_flags_yy f = Some fy →
  rfi_clean f F_block flag_mode = Ok out →
  ∃ good r,
    (if decide (str_lower flag_mode = "separate")
     then good = own_good (amap of_Z (match p with PolXX => fx | PolYY => fy end))
     else shared_good (str_lower flag_mode) (amap of_Z fx) (amap of_Z fy)
          = Ok good) ∧
    _clean_with_good_mask (match p with PolXX => s1x | PolYY => s1y end)
      good F_block = Ok r ∧
    mask_of p out = Some r.1.1.2 ∧ s1_clean_of p out = Some r.1.1.1.
Proof.
  intros Hs1x Hfx Hs1y Hfy Hrun.
  destruct (rfi_clean_inv _ _ _ _ Hrun)
    as (data&good_comb&freq_2d&Hload&Hmode&Hcomb&Hpol&_).
  destruct (load_skstream_inv _ _ Hload) as (_&_&Hdata).
  pose proof (Hdata PolXX) as Hdx. pose proof (Hdata PolYY) as Hdy.
  cbn [data_pol file_s1 file_flags] in Hdx, Hdy.
  rewrite Hs1x, Hfx in Hdx. rewrite Hs1y, Hfy in Hdy. cbn [load_pol] in Hdx, Hdy.
  rewrite Hdx, Hdy in Hcomb.
  destruct (Hpol p) as (res&Hres&Hs&Hm&_).
  case_decide as Hsep.
  - rewrite Hsep, combine_masks_separate in Hcomb. injection Hcomb as <-.
    destruct p; cbn [data_pol] in Hres; rewrite ?Hdx, ?Hdy in Hres;
      apply clean_pol_some in Hres as (r&->&Hr);
      eexists _, r; (split; [reflexivity|]); done.
  - assert (str_lower flag_mode = "or" ∨ str_lower flag_mode = "and") as Hsh.
    { rewrite !elem_of_cons in Hmode.
      destruct Hmode as [?|[?|[?|Hn]]]; [done|by left|by right|inversion Hn]. }
    destruct (combine_masks_shared _ _ _ _ _ _ Hsh Hcomb) as (good&->&Hshared).
    destruct p; cbn [data_pol] in Hres; rewrite ?Hdx, ?Hdy in Hres;
      apply clean_pol_some in Hres as (r&->&Hr); by exists good, r.
Qed.

Lemma shared_cell_or_own (x y : Z) :
  shared_cell "or" x y = true → x = 0%Z ∧ y = 0%Z.
Proof.
  unfold shared_cell. rewrite decide_True by done.
  repeat case_bool_decide; cbn; first [done|lia].
Qed.

Lemma own_shared_cell_and (x y : Z) :
  x = 0%Z ∨ y = 0%Z → shared_cell "and" x y = true.
Proof.
  unfold shared_cell. rewrite decide_False by done.
  intros Hxy. repeat case_bool_decide; cbn; first [done|lia].
Qed.

(** The three policies are ordered.  For a file with both polarizations,
    every cell of the block mask (the number of good channels of the
    block) under [or] is at most the cell under [separate], which is at
    most the cell under [and]. *)
Theorem policy_mask_order (T F : nat) (f : skfile) (F_block : Z)
    (out_or out_sep out_and : cleaned) (s1x s1y : ndarray float)
    (fx fy : ndarray Z) (p : pol) (t b : nat) :
  file_s1_xx f = Some s1x → file_sk_flags_xx f = Some fx →
  file_s1_yy f = Some s1y → file_sk_flags_yy f = Some fy →
  file_wf T F f →
  rfi_clean f F_block "or" = Ok out_or →
  rfi_clean f F_block "separate" = Ok out_sep →
  rfi_clean f F_block "and" = Ok out_and →
  t < T → (Z.of_nat b < Z.of_nat F `div` F_block)%Z →
  ∃ n_or n_sep n_and : nat,
    (mask_of p out_or ≫= λ m, cell m t b) = Some (of_nat n_or) ∧
    (mask_of p out_sep ≫= λ m, cell m t b) = Some (of_nat n_sep) ∧
    (mask_of p out_and ≫= λ m, cell m t b) = Some (of_nat n_and) ∧
    n_or ≤ n_sep ∧ n_sep ≤ n_and.
Proof.
  intros Hs1x Hfx Hs1y Hfy Hwf Hor Hsep Hand Ht Hb.
  destruct (Hwf PolXX) as [Hwsx Hwfx]. destruct (Hwf PolYY) as [Hwsy Hwfy].
  cbn [file_s1 file_flags] in *.
  destruct (Hwsx _ Hs1x) as [Wsx Ssx]. destruct (Hwfx _ Hfx) as [Wfx Sfx].
  destruct (Hwsy _ Hs1y) as [Wsy Ssy]. destruct (Hwfy _ Hfy) as [Wfy Sfy].
  set (s1p := match p with PolXX => s1x | PolYY => s1y end).
  set (flp := match p with PolXX => fx | PolYY => fy end).
  assert (wf s1p ∧ shape s1p = (T, F)) as [Wsp Ssp] by (by destruct p).
  assert (wf flp ∧ shape flp = (T, F)) as [Wfp Sfp] by (by destruct p).
  destruct (run_mask_inv f F_block "or" out_or s1x s1y fx fy p
              Hs1x Hfx Hs1y Hfy Hor) as (g_or&r_or&Hg_or&Hc_or&Hm_or&_).
  destruct (run_mask_inv f F_block "separate" out_sep s1x s1y fx fy p
              Hs1x Hfx Hs1y Hfy Hsep) as (g_sep&r_sep&Hg_sep&Hc_sep&Hm_sep&_).
  destruct (run_mask_inv f F_block "and" out_and s1x s1y fx fy p
              Hs1x Hfx Hs1y Hfy Hand) as (g_and&r_and&Hg_and&Hc_and&Hm_and&_).
  change (str_lower "or") with "or" in Hg_or.
  change (str_lower "and") with "and" in Hg_and.
  change (str_lower "separate") with "separate" in Hg_sep.
  rewrite decide_False in Hg_or by done.
  rewrite decide_False in Hg_and by done.
  rewrite decide_True in Hg_sep by done.
  fold s1p in Hc_or, Hc_sep, Hc_and.
  fold flp in Hg_sep. subst g_sep.
  destruct (shared_good_cells "or" fx fy Wfx Wfy ltac:(congruence))
    as (g&Hg&Wg_or&Sg_or&Cells_or).
  rewrite Hg_or in Hg. injection Hg as <-.
  destruct (shared_good_cells "and" fx fy Wfx Wfy ltac:(congruence))
    as (g&Hg&Wg_and&Sg_and&Cells_and).
  rewrite Hg_and in Hg. injection Hg as <-.
  rewrite Sfx in Sg_or, Sg_and.
  set (g_sep := own_good (amap of_Z flp)) in *.
  assert (wf g_sep ∧ shape g_sep = (T, F)) as [Wg_sep Sg_sep].
  { split; [by apply wf_amap, wf_amap|done]. }
  assert (∀ g : ndarray bool, wf g → shape g = (T, F) →
            ∃ rg, rows g !! t = Some rg ∧ length rg = F) as Hrow.
  { intros g [Hr Hc] Hs. rewrite Hs in Hr, Hc. cbn [fst snd] in Hr, Hc.
    destruct (lookup_lt_is_Some_2 (rows g) t) as [rg Hrg]; [lia|].
    exists rg. split; [done|]. rewrite Forall_forall in Hc.
    apply Hc. by eapply list_elem_of_lookup_2. }
  destruct (Hrow g_or Wg_or Sg_or) as (rg_or&Hrg_or&Lor).
  destruct (Hrow g_sep Wg_sep Sg_sep) as (rg_sep&Hrg_sep&Lsep).
  destruct (Hrow g_and Wg_and Sg_and) as (rg_and&Hrg_and&Land).
  destruct (lookup_lt_is_Some_2 (rows s1p) t) as [rs Hrs].
  { rewrite (proj1 Wsp), Ssp. done. }
  destruct r_or as [[[c_or m_or] Fe_or] nb_or].
  destruct r_sep as [[[c_sep m_sep] Fe_sep] nb_sep].
  destruct r_and as [[[c_and m_and] Fe_and] nb_and].
  assert (nb_or = Z.of_nat F `div` F_block ∧ nb_sep = Z.of_nat F `div` F_block
          ∧ nb_and = Z.of_nat F `div` F_block)%Z as (->&->&->).
  { destruct (clean_ok_inv _ _ _ _ _ _ _ Hc_or) as (_&_&->&_).
    destruct (clean_ok_inv _ _ _ _ _ _ _ Hc_sep) as (_&_&->&_).
    destruct (clean_ok_inv _ _ _ _ _ _ _ Hc_and) as (_&_&->&_).
    by rewrite Ssp. }
  destruct (clean_block _ _ _ _ _ _ _ t b rs rg_or Hc_or Wsp Wg_or Hrs Hrg_or
              Hb) as (_&_&Mor&_).
  destruct (clean_block _ _ _ _ _ _ _ t b rs rg_sep Hc_sep Wsp Wg_sep Hrs
              Hrg_sep Hb) as (_&_&Msep&_).
  destruct (clean_block _ _ _ _ _ _ _ t b rs rg_and Hc_and Wsp Wg_and Hrs
              Hrg_and Hb) as (_&_&Mand&_).
  cbn [fst snd] in Hm_or, Hm_sep, Hm_and.
  eexists _, _, _.
  rewrite Hm_or, Hm_sep, Hm_and. cbn [mbind option_bind].
  split; [exact Mor|]. split; [exact Msep|]. split; [exact Mand|].
  assert (∀ c, c < F → ∃ x y,
            rg_or !! c = Some (shared_cell "or" x y) ∧
            rg_sep !! c = Some (bool_decide
              (match p with PolXX => x | PolYY => y end = 0%Z)) ∧
            rg_and !! c = Some (shared_cell "and" x y)) as Hcols.
  { intros c Hc.
    destruct (cell_is_Some fx t c Wfx) as [x Hx]; [by rewrite Sfx..|].
    destruct (cell_is_Some fy t c Wfy) as [y Hy]; [by rewrite Sfy..|].
    exists x, y.
    rewrite <-(row_cell g_or t c rg_or Hrg_or),
            <-(row_cell g_sep t c rg_sep Hrg_sep),
            <-(row_cell g_and t c rg_and Hrg_and).
    split; [by apply Cells_or|]. split; [|by apply Cells_and].
    apply own_good_cell. by destruct p. }
  split; apply count_good_mono, block_of_Forall2;
    (apply Forall2_same_length_lookup_2; [congruence|]);
    intros c a a' Ha Ha';
    (destruct (Hcols c) as (x&y&Cor&Csep&Cand);
       [apply lookup_lt_Some in Ha; lia|]).
  - rewrite Cor in Ha. rewrite Csep in Ha'.
    injection Ha as <-. injection Ha' as <-. intros Hxy.
    apply shared_cell_or_own in Hxy as [-> ->].
    apply bool_decide_eq_true. by destruct p.
  - rewrite Csep in Ha. rewrite Cand in Ha'.
    injection Ha as <-. injection Ha' as <-. intros Hxy.
    apply bool_decide_eq_true in Hxy.
    apply own_shared_cell_and. destruct p; auto.
Qed.

Lemma policy_mask_order_witness :
  ∃ n_or n_sep n_and : nat,
    (mask_of PolXX (or_else (rfi_clean sample_file 2 "or") no_product)
       ≫= λ m, cell m 0 1) = Some (of_nat n_or) ∧
    (mask_of PolXX (or_else (rfi_clean sample_file 2 "separate") no_product)
       ≫= λ m, cell m 0 1) = Some (of_nat n_sep) ∧
    (mask_of PolXX (or_else (rfi_clean sample_file 2 "and") no_product)
       ≫= λ m, cell m 0 1) = Some (of_nat n_and) ∧
    n_or ≤ n_sep ∧ n_sep ≤ n_and.
Proof.
  apply (policy_mask_order 1 4 sample_file 2
           (or_else (rfi_clean sample_file 2 "or") no_product)
           (or_else (rfi_clean sample_file 2 "separate") no_product)
           (or_else (rfi_clean sample_file 2 "and") no_product)
           s1_sample s1_y_sample flags_x_sample flags_y_sample PolXX 0 1).
  - reflexivity.
  - reflexivity.
  - reflexivity.
  - reflexivity.
  - intros []; split; intros a [= <-]; (split; [|reflexivity]);
      (split; [reflexivity|]); repeat constructor.
  - vm_compute. reflexivity.
  - vm_compute. reflexivity.
  - vm_compute. reflexivity.
  - lia.
  - vm_compute. reflexivity.
Defined.

(* ================================================================== *)
(** ** The two stages composed *)
(* ================================================================== *)

Section pipeline.
Context `{E : SKEvaluator}.
Variables (fin : h5file) (M N : Z) (d pfa : float).
Variables (start_idx : Z) (ns_max : option Z) (out : skstream).
Hypothesis Hrun : stream_sk_dualpol fin M N d pfa start_idx ns_max = Ok out.
Hypothesis Hwf : ∀ p, wf (raw_of p fin).

Let T : nat :=
  Z.to_nat (selected (Z.of_nat (shape (XX fin)).1) start_idx ns_max `div` M).
Let nf : nat := (shape (XX fin)).2.

Lemma to_skfile_s1 (p : pol) :
  file_s1 p (to_skfile out) = Some (NdArray (T, nf) (s1_of p out)).
Proof using Hrun.
  pose proof (stream_lengths _ _ _ _ _ _ _ _ Hrun) as (_&_&_&_&L5).
  destruct (stream_ok_inv _ _ _ _ _ _ _ _ Hrun) as (_&_&_&_&_&_&_&_&Hout).
  assert (Z.to_nat (attr_nfreq out) = nf) as Hnf.
  { rewrite Hout. cbn. unfold nf. lia. }
  unfold to_skfile. rewrite L5, Hnf. fold T. by destruct p.
Qed.

Lemma to_skfile_wf : file_wf T nf (to_skfile out).
Proof using Hrun Hwf.
  intros p. rewrite to_skfile_s1, (to_skfile_flags _ _ _ _ _ _ _ _ Hrun).
  split; intros a [= <-]; (split; [|done]).
  - by apply (stored_s1_wf _ _ _ _ _ _ _ _ Hrun).
  - by apply (stored_flags_wf _ _ _ _ _ _ _ _ Hrun).
Qed.

Lemma to_skfile_loads :
  _load_skstream (to_skfile out)
  = Ok {| data_freq_hz := freq fin;
          data_time_blk := time_blk out;
          data_xx := Some (NdArray (T, nf) (s1_xx out),
                           amap of_Z (NdArray (T, nf) (sk_flags_xx out)));
          data_yy := Some (NdArray (T, nf) (s1_yy out),
                           amap of_Z (NdArray (T, nf) (sk_flags_yy out)));
          data_attrs := [("M", of_Z M); ("N", of_Z N); ("d", d);
                         ("pfa", pfa)] |}.
Proof using Hrun.
  pose proof (to_skfile_s1 PolXX) as Hsx. pose proof (to_skfile_s1 PolYY) as Hsy.
  pose proof (to_skfile_flags _ _ _ _ _ _ _ _ Hrun PolXX) as Hfx.
  pose proof (to_skfile_flags _ _ _ _ _ _ _ _ Hrun PolYY) as Hfy.
  cbn [file_s1 file_flags s1_of flags_of] in Hsx, Hsy, Hfx, Hfy.
  fold T nf in Hfx, Hfy.
  destruct (stream_ok_inv _ _ _ _ _ _ _ _ Hrun) as (_&_&_&_&_&_&_&_&Hout).
  assert (freq_hz out = freq fin ∧ attr_M out = M ∧ attr_N out = N ∧
          attr_d out = d ∧ attr_pfa out = pfa) as (H1&H2&H3&H4&H5)
    by (by rewrite Hout).
  unfold _load_skstream. rewrite Hsx, Hsy, Hfx, Hfy.
  cbn [to_skfile file_freq_hz file_time_blk file_attrs load_pol].
  rewrite H1, H2, H3, H4, H5. reflexivity.
Qed.

End pipeline.

(** The stages compose.  The file written by a successful stage-1 run on
    well-formed raw data is always accepted by stage 2 for a valid flag
    mode and a block width [0 < F_block ≤ nf]: the run returns a product
    with the time axis of stage 1 unchanged, both polarizations cleaned
    into [T × (nf div F_block)] arrays, the four SK parameters copied
    from stage 1 (the bookkeeping attributes are not), and the block size
    of stage 1 recorded as [M_stage1]. *)
Theorem pipeline_composes `{E : SKEvaluator} (fin : h5file) (M N : Z)
    (d pfa : float) (start_idx : Z) (ns_max : option Z) (out : skstream)
    (F_block : Z) (flag_mode : string) :
  stream_sk_dualpol fin M N d pfa start_idx ns_max = Ok out →
  (∀ p, wf (raw_of p fin)) →
  str_lower flag_mode ∈ ["separate"; "or"; "and"] →
  (0 < F_block ≤ Z.of_nat (shape (XX fin)).2)%Z →
  let T :=
    Z.to_nat (selected (Z.of_nat (shape (XX fin)).1) start_idx ns_max `div` M) in
  let n_blocks := (Z.of_nat (shape (XX fin)).2 `div` F_block)%Z in
  ∃ c, rfi_clean (to_skfile out) F_block flag_mode = Ok c ∧
       out_time_blk c = time_blk out ∧
       out_n_blocks c = n_blocks ∧
       out_F_eff c = (n_blocks * F_block)%Z ∧
       length (freq_block_hz c) = Z.to_nat n_blocks ∧
       out_attrs c = [("M", of_Z M); ("N", of_Z N); ("d", d); ("pfa", pfa)] ∧
       out_M_stage1 c = Some M ∧
       ∀ p, ∃ a m, s1_clean_of p c = Some a ∧ mask_of p c = Some m ∧
                   wf a ∧ shape a = (T, Z.to_nat n_blocks) ∧
                   wf m ∧ shape m = (T, Z.to_nat n_blocks).
Proof.
  intros Hrun Hwf Hmode HFb T n_blocks.
  pose proof (to_skfile_wf _ _ _ _ _ _ _ _ Hrun Hwf) as Hfile.
  pose proof (to_skfile_loads _ _ _ _ _ _ _ _ Hrun) as Hload.
  destruct (stream_ok_inv _ _ _ _ _ _ _ _ Hrun) as (_&Hfreq&_).
  assert (∀ v, attrs_get "M" (file_attrs (to_skfile out)) = Some v →
               is_finite v) as HattrM.
  { intros v. change (attrs_get "M" (file_attrs (to_skfile out)))
      with (Some (of_Z (attr_M out))). by intros [= <-]. }
  destruct (rfi_clean_total _ _ (to_skfile out) F_block flag_mode
              (freq_hz out) (time_blk out) PolXX Hfile HattrM HFb Hmode)
    as [c Hc].
  { rewrite (to_skfile_s1 _ _ _ _ _ _ _ _ Hrun),
            (to_skfile_flags _ _ _ _ _ _ _ _ Hrun). by eexists. }
  { done. }
  { destruct (stream_ok_inv _ _ _ _ _ _ _ _ Hrun) as (_&_&_&_&_&_&_&_&Hout).
    rewrite Hout. exact Hfreq. }
  { done. }
  exists c. split; [done|].
  destruct (frequency_blocks_of_run _ _ _ _ _ _ Hfile Hc)
    as (_&_&Hnb&HFe&Hshape_c&Hshape_m&Hlen&_).
  destruct (rfi_clean_inv _ _ _ _ Hc)
    as (data&gc&freq_2d&Hload'&_&_&Hpol&_&_&_&Htime&Hattrs&_).
  rewrite Hload in Hload'. injection Hload' as <-.
  split; [done|]. split; [done|]. split; [done|]. split; [done|].
  split; [done|].
  split.
  { destruct (rfi_clean_M_stage1 _ _ _ _ Hc) as (data0&Hload0&HM1).
    rewrite Hload in Hload0. injection Hload0 as <-.
    cbn [data_attrs] in HM1.
    change (M_stage1_of _) with (Some <$> int_of_float (of_Z M)) in HM1.
    rewrite int_of_float_of_Z in HM1. by injection HM1 as <-. }
  intros p. destruct (Hpol p) as (res&Hres&Hs&Hm&_).
  assert (∃ r, res = Some r) as [r ->].
  { destruct p; cbn [data_pol data_xx data_yy] in Hres;
      apply clean_pol_some in Hres as (r&->&_); by eexists. }
  cbn [fmap option_fmap option_map] in Hs, Hm.
  exists r.1.1.1, r.1.1.2. split; [done|]. split; [done|].
  destruct (Hshape_c p _ Hs). destruct (Hshape_m p _ Hm). done.
Qed.

Lemma pipeline_composes_witness :
  ∃ c, rfi_clean (to_skfile tail_product) 1 "or" = Ok c ∧
       out_time_blk c = time_blk tail_product ∧
       out_n_blocks c = (1 `div` 1)%Z ∧
       out_F_eff c = (1 `div` 1 * 1)%Z ∧
       length (freq_block_hz c) = Z.to_nat (1 `div` 1) ∧
       out_attrs c = [("M", of_Z 2); ("N", of_Z 1); ("d", one);
                      ("pfa", pfa_default)] ∧
       out_M_stage1 c = Some 2%Z ∧
       ∀ p, ∃ a m, s1_clean_of p c = Some a ∧ mask_of p c = Some m ∧
                   wf a ∧ shape a = (2, Z.to_nat (1 `div` 1)) ∧
                   wf m ∧ shape m = (2, Z.to_nat (1 `div` 1)).
Proof.
  apply (pipeline_composes (E := sample_evaluator zero one)
           tail_a 2 1 one pfa_default 0 None tail_product 1 "or").
  - vm_compute. reflexivity.
  - intros []; (split; [reflexivity|]); repeat constructor.
  - repeat constructor.
  - simpl. lia.
Defined.

(* ================================================================== *)
(** ** The quicklook reader on the products of both stages *)
(* ================================================================== *)

Section quicklook_facts.
Import quicklook.

Lemma copy_attrs_lookup (keys : list string) (f : h5) (k : string) :
  copy_attrs keys f !! k = if decide (k ∈ keys) then attrs f !! k else None.
Proof.
  unfold copy_attrs.
  assert (∀ acc : gmap string attr,
    foldl (λ acc key, match attrs f !! key with
                      | Some v => <[key := v]> acc
                      | None => acc
                      end) acc keys !! k
    = if decide (k ∈ keys)
      then match attrs f !! k with Some v => Some v | None => acc !! k end
      else acc !! k) as Hgen.
  { induction keys as [|a keys IH]; intros acc; cbn [foldl].
    - rewrite decide_False by apply not_elem_of_nil. done.
    - rewrite IH. destruct (decide (k = a)) as [->|Hne].
      + rewrite (decide_True (P := a ∈ a :: keys)) by apply list_elem_of_here.
        destruct (attrs f !! a) as [v|]; [|by case_decide].
        rewrite lookup_insert_eq. by case_decide.
      + assert (acc_ne : ∀ v, <[a := v]> acc !! k = acc !! k)
          by (intros v; by rewrite lookup_insert_ne).
        destruct (decide (k ∈ keys)) as [Hin|Hnin].
        * rewrite (decide_True (P := k ∈ a :: keys))
            by (by apply list_elem_of_further).
          destruct (attrs f !! k); [done|].
          destruct (attrs f !! a); [apply acc_ne|done].
        * rewrite (decide_False (P := k ∈ a :: keys))
            by (rewrite elem_of_cons; tauto).
          destruct (attrs f !! a); [apply acc_ne|done]. }
  rewrite Hgen, lookup_empty. case_decide; [|done].
  by destruct (attrs f !! k).
Qed.

Lemma load_rfi_eq (f : h5) (fr tm : dataset)
    (xx yy : option (dataset * dataset)) :
  _detect_product_type f = Done Rfi →
  get f "freq_block_hz" = Done fr → get f "time_blk" = Done tm →
  load_pair f "s1_xx_clean" "mask_xx" = Done xx →
  load_pair f "s1_yy_clean" "mask_yy" = Done yy →
  quicklook._load_rfi f
  = Done {| rd_freq_block := fr; rd_time := tm; rd_xx := xx; rd_yy := yy;
            rd_attrs := copy_attrs ["M"; "N"; "d"; "pfa"; "F_block";
                                    "flag_mode"; "F_eff"; "n_blocks"] f |}.
Proof.
  intros Hd Hf Ht Hx Hy. unfold quicklook._load_rfi.
  rewrite Hd. cbn [mbind outcome_bind]. rewrite Hf. cbn [mbind outcome_bind].
  rewrite Ht. cbn [mbind outcome_bind]. rewrite Hx. cbn [mbind outcome_bind].
  by rewrite Hy.
Qed.

Lemma load_skstream_eq (f : h5) (fr tm : dataset)
    (xx yy : option (dataset * dataset)) :
  _detect_product_type f = Done Skstream →
  get f "freq_hz" = Done fr → get f "time_blk" = Done tm →
  load_pair f "s1_xx" "sk_flags_xx" = Done xx →
  load_pair f "s1_yy" "sk_flags_yy" = Done yy →
  quicklook._load_skstream f
  = Done {| sd_freq := fr; sd_time := tm; sd_xx := xx; sd_yy := yy;
            sd_attrs := copy_attrs ["M"; "N"; "d"; "pfa"] f |}.
Proof.
  intros Hd Hf Ht Hx Hy. unfold quicklook._load_skstream.
  rewrite Hd. cbn [mbind outcome_bind]. rewrite Hf. cbn [mbind outcome_bind].
  rewrite Ht. cbn [mbind outcome_bind]. rewrite Hx. cbn [mbind outcome_bind].
  by rewrite Hy.
Qed.

(** What stage 2 writes, the quicklook reader reads back.  The product of
    any successful stage-2 run is detected as RFI-cleaned and loaded
    without error; the loaded axes are those of the product, a
    polarization is loaded (cleaned array with its block mask) exactly when
    it was complete in the input of stage 2, and the loaded metadata are
    the block width, the lowercased flag mode, [F_eff] and [n_blocks]; the
    attribute [M_stage1] is not among the keys the reader copies. *)
Theorem quicklook_reads_cleaned (f : skfile) (F_block : Z) (flag_mode : string)
    (c : cleaned) :
  rfi_clean f F_block flag_mode = Ok c →
  ∃ data,
    quicklook._load_rfi (h5_of_cleaned c) = Done data ∧
    rd_freq_block data = Vec (freq_block_hz c) ∧
    rd_time data = Vec (out_time_blk c) ∧
    (∀ p, rd_pol p data
          = (a ← s1_clean_of p c; m ← mask_of p c; Some (Mat a, Mat m))) ∧
    (∀ p, is_Some (rd_pol p data)
          ↔ is_Some (load_pol (file_s1 p f) (file_flags p f))) ∧
    rd_attrs data !! "F_block" = Some (AInt F_block) ∧
    rd_attrs data !! "flag_mode" = Some (AStr (str_lower flag_mode)) ∧
    rd_attrs data !! "F_eff" = Some (AInt (out_F_eff c)) ∧
    rd_attrs data !! "n_blocks" = Some (AInt (out_n_blocks c)) ∧
    rd_attrs data !! "M_stage1" = None.
Proof.
  intros Hrun.
  destruct (rfi_clean_inv _ _ _ _ Hrun)
    as (data&gc&freq_2d&Hload&_&_&Hpol&Hsome&_&_&_&_&HFb&Hfm).
  destruct (load_skstream_inv _ _ Hload) as (_&_&Hd).
  assert (∀ p, ∃ res : option (ndarray float * ndarray float * Z * Z),
                      s1_clean_of p c = (λ r, r.1.1.1) <$> res ∧
                      mask_of p c = (λ r, r.1.1.2) <$> res ∧
                      (is_Some res
                       ↔ is_Some (load_pol (file_s1 p f) (file_flags p f))))
    as Hres.
  { intros p. destruct (Hpol p) as (res&Hc&Hs&Hm&_). exists res.
    split; [done|]. split; [done|]. rewrite <-Hd.
    destruct (data_pol p data) as [[s fl]|].
    - apply clean_pol_some in Hc as (r&->&_). split; by eexists.
    - injection Hc as <-. split; by intros [? [=]]. }
  assert (is_Some (s1_xx_clean c) ∨ is_Some (s1_yy_clean c)) as Hone.
  { destruct Hsome as (p&r&Hr). destruct (Hpol p) as (res&Hc&Hs&_).
    rewrite Hr in Hc. injection Hc as <-.
    destruct p; cbn in Hs; [left|right]; by rewrite Hs. }
  destruct (Hres PolXX) as (rx&Hsx&Hmx&Hpx).
  destruct (Hres PolYY) as (ry&Hsy&Hmy&Hpy).
  clear Hrun Hpol Hsome Hres.
  destruct c as [tb fb sx mx sy my ats Fb fm Fe nb ms].
  cbn [s1_clean_of mask_of s1_xx_clean mask_xx s1_yy_clean mask_yy
       out_F_block out_flag_mode out_F_eff out_n_blocks freq_block_hz
       out_time_blk] in *.
  subst sx mx sy my Fb fm.
  assert (∀ data' : rfi_data,
    rd_attrs data'
    = copy_attrs ["M"; "N"; "d"; "pfa"; "F_block"; "flag_mode"; "F_eff";
                  "n_blocks"]
        (h5_of_cleaned
           (Cleaned tb fb ((λ r, r.1.1.1) <$> rx) ((λ r, r.1.1.2) <$> rx)
              ((λ r, r.1.1.1) <$> ry) ((λ r, r.1.1.2) <$> ry) ats F_block
              (str_lower flag_mode) Fe nb ms)) →
    rd_attrs data' !! "F_block" = Some (AInt F_block) ∧
    rd_attrs data' !! "flag_mode" = Some (AStr (str_lower flag_mode)) ∧
    rd_attrs data' !! "F_eff" = Some (AInt Fe) ∧
    rd_attrs data' !! "n_blocks" = Some (AInt nb) ∧
    rd_attrs data' !! "M_stage1" = None) as Hattrs.
  { intros data' ->. rewrite !copy_attrs_lookup.
    rewrite !decide_True by repeat constructor.
    rewrite decide_False.
    2:{ rewrite !elem_of_cons, elem_of_nil. intros H.
        repeat (destruct H as [H|H]; [discriminate H|]). exact H. }
    unfold h5_of_cleaned. cbn [attrs out_n_blocks out_F_eff out_flag_mode
                               out_F_block out_attrs].
    split; [|split; [|split; [|split]]].
    - by rewrite !lookup_insert_ne, lookup_insert_eq by done.
    - by rewrite !lookup_insert_ne, lookup_insert_eq by done.
    - by rewrite !lookup_insert_ne, lookup_insert_eq by done.
    - by rewrite lookup_insert_eq.
    - done. }
  destruct rx as [[[[cx mx] Fx] nx]|], ry as [[[[cy my] Fy] ny]|];
    cbn [fmap option_fmap option_map fst snd] in *.
  4:{ by destruct Hone as [[? [=]]|[? [=]]]. }
  all: eexists; split;
    [apply load_rfi_eq; vm_compute; reflexivity|].
  all: split; [reflexivity|]; split; [reflexivity|].
  all: split; [by intros []|].
  all: split; [|by apply Hattrs].
  all: intros []; cbn [rd_pol rd_xx rd_yy file_s1 file_flags] in *.
  all: first [by rewrite <-Hpx | by rewrite <-Hpy
             | by rewrite <-Hpx; split; intros [? [=]]
             | by rewrite <-Hpy; split; intros [? [=]]
             | rewrite <-Hpx; split; by eexists
             | rewrite <-Hpy; split; by eexists].
Qed.

Lemma quicklook_reads_cleaned_witness :
  ∃ data,
    quicklook._load_rfi
      (h5_of_cleaned (or_else (rfi_clean sample_file_xx 2 "OR") no_product))
    = Done data ∧
    rd_freq_block data
    = Vec (freq_block_hz (or_else (rfi_clean sample_file_xx 2 "OR") no_product)) ∧
    rd_time data
    = Vec (out_time_blk (or_else (rfi_clean sample_file_xx 2 "OR") no_product)) ∧
    (∀ p, rd_pol p data
          = (a ← s1_clean_of p
                   (or_else (rfi_clean sample_file_xx 2 "OR") no_product);
             m ← mask_of p
                   (or_else (rfi_clean sample_file_xx 2 "OR") no_product);
             Some (Mat a, Mat m))) ∧
    (∀ p, is_Some (rd_pol p data)
          ↔ is_Some (load_pol (file_s1 p sample_file_xx)
                              (file_flags p sample_file_xx))) ∧
    rd_attrs data !! "F_block" = Some (AInt 2) ∧
    rd_attrs data !! "flag_mode" = Some (AStr (str_lower "OR")) ∧
    rd_attrs data !! "F_eff"
    = Some (AInt (out_F_eff
                    (or_else (rfi_clean sample_file_xx 2 "OR") no_product))) ∧
    rd_attrs data !! "n_blocks"
    = Some (AInt (out_n_blocks
                    (or_else (rfi_clean sample_file_xx 2 "OR") no_product))) ∧
    rd_attrs data !! "M_stage1" = None.
Proof.
  apply (quicklook_reads_cleaned sample_file_xx 2 "OR"
           (or_else (rfi_clean sample_file_xx 2 "OR") no_product)).
  vm_compute. reflexivity.
Defined.

(** What stage 1 writes, the quicklook reader reads back.  The file of any
    stage-1 product is detected as SK-stream and loaded with both
    polarizations, each S1 array with its flag array, and with the four SK
    parameters; the bookkeeping attributes are not loaded, and the reader
    of cleaned products refuses the file. *)
Theorem quicklook_reads_skstream (out : skstream) :
  let f := h5_of_skfile (to_skfile out) in
  let T := length (time_blk out) in
  let nf := Z.to_nat (attr_nfreq out) in
  quicklook._load_skstream f
  = Done {| sd_freq := Vec (freq_hz out);
            sd_time := Vec (time_blk out);
            sd_xx := Some (Mat (NdArray (T, nf) (s1_xx out)),
                           Mat (amap of_Z (NdArray (T, nf) (sk_flags_xx out))));
            sd_yy := Some (Mat (NdArray (T, nf) (s1_yy out)),
                           Mat (amap of_Z (NdArray (T, nf) (sk_flags_yy out))));
            sd_attrs := copy_attrs ["M"; "N"; "d"; "pfa"] f |} ∧
  copy_attrs ["M"; "N"; "d"; "pfa"] f !! "M" = Some (AFloat (of_Z (attr_M out))) ∧
  copy_attrs ["M"; "N"; "d"; "pfa"] f !! "N" = Some (AFloat (of_Z (attr_N out))) ∧
  copy_attrs ["M"; "N"; "d"; "pfa"] f !! "d" = Some (AFloat (attr_d out)) ∧
  copy_attrs ["M"; "N"; "d"; "pfa"] f !! "pfa" = Some (AFloat (attr_pfa out)) ∧
  (∀ k, k ∈ ["ns_total"; "ns_start"; "ns_eff"; "nfreq"] →
        copy_attrs ["M"; "N"; "d"; "pfa"] f !! k = None) ∧
  quicklook._load_rfi f = Fail Not_rfi.
Proof.
  intros f T nf.
  split; [apply load_skstream_eq; vm_compute; reflexivity|].
  assert (∀ k, attrs f !! k
               = put_attrs (file_attrs (to_skfile out)) ∅ !! k) as Hattrs
    by done.
  unfold to_skfile, put_attrs in Hattrs. cbn [file_attrs foldl fst snd] in Hattrs.
  split; [|split; [|split; [|split; [|split]]]].
  - rewrite copy_attrs_lookup, decide_True, Hattrs by repeat constructor.
    by rewrite !lookup_insert_ne, lookup_insert_eq by done.
  - rewrite copy_attrs_lookup, decide_True, Hattrs by repeat constructor.
    by rewrite !lookup_insert_ne, lookup_insert_eq by done.
  - rewrite copy_attrs_lookup, decide_True, Hattrs by repeat constructor.
    by rewrite !lookup_insert_ne, lookup_insert_eq by done.
  - rewrite copy_attrs_lookup, decide_True, Hattrs by repeat constructor.
    by rewrite !lookup_insert_ne, lookup_insert_eq by done.
  - intros k Hk. rewrite copy_attrs_lookup. case_decide as Hin; [|done].
    rewrite !elem_of_cons in Hk, Hin.
    destruct Hk as [->|[->|[->|[->|Hk]]]]; [..|by inversion Hk];
      destruct Hin as [?|[?|[?|[?|Hin]]]]; try done; by inversion Hin.
  - unfold quicklook._load_rfi.
    assert (_detect_product_type f = Done Skstream) as ->
      by (vm_compute; reflexivity).
    done.
Qed.

End quicklook_facts.

(** The two readers of an SK-stream file disagree on a polarization that
    has its S1 dataset but no flag dataset.  Stage 2 loads the file and
    treats the polarization as absent; the quicklook reader, which looks
    for the S1 dataset alone, fails on the missing flag dataset. *)
Theorem quicklook_needs_both_datasets (f : skfile) (p : pol)
    (s : ndarray float) :
  file_s1 p f = Some s → file_flags p f = None →
  is_Some (load_pol (file_s1 (other p) f) (file_flags (other p) f)) →
  is_Some (file_freq_hz f) → is_Some (file_time_blk f) →
  (∃ data, _load_skstream f = Ok data ∧ data_pol p data = None) ∧
  quicklook._load_skstream (quicklook.h5_of_skfile f)
  = quicklook.Fail
      (quicklook.No_such_object
         (match p with PolXX => "sk_flags_xx" | PolYY => "sk_flags_yy" end)).
Proof.
  intros Hs Hf [x Ho] [fr Hfr] [tb Htb].
  destruct f as [ofr otb sx fx sy fy ats].
  cbn [file_freq_hz file_time_blk] in Hfr, Htb. subst ofr otb.
  destruct p; cbn [file_s1 file_flags other file_s1_xx file_sk_flags_xx
                   file_s1_yy file_sk_flags_yy] in Hs, Hf, Ho; subst.
  - destruct sy as [sy|], fy as [fy|]; try done. split.
    + eexists. split; [reflexivity|done].
    + vm_compute. reflexivity.
  - destruct sx as [sx|], fx as [fx|]; try done. split.
    + eexists. split; [reflexivity|done].
    + vm_compute. reflexivity.
Qed.

Lemma quicklook_needs_both_datasets_witness :
  (∃ data, _load_skstream sample_file_half = Ok data ∧
           data_pol PolYY data = None) ∧
  quicklook._load_skstream (quicklook.h5_of_skfile sample_file_half)
  = quicklook.Fail (quicklook.No_such_object "sk_flags_yy").
Proof.
  apply (quicklook_needs_both_datasets sample_file_half PolYY s1_y_sample).
  - reflexivity.
  - reflexivity.
  - by eexists.
  - by eexists.
  - by eexists.
Defined.

(** The guard "No samples selected" of stage 1 can never fire: once the
    start offset is in range and a given cap is positive, the selection is
    not empty. *)
Theorem no_samples_guard_dead `{E : SKEvaluator} (fin : h5file) (M N : Z)
    (d pfa : float) (start_idx : Z) (ns_max : option Z) :
  stream_sk_dualpol fin M N d pfa start_idx ns_max
  ≠ Raise (ValueError No_samples_selected).
Proof.
  unfold stream_sk_dualpol.
  destruct (_open_datasets fin) as [[[[ds_xx ds_yy] fr] tm]|e] eqn:Hopen.
  2:{ cbn [mbind result_bind]. intros [= ->].
      revert Hopen. unfold _open_datasets, _load_time_array.
      destruct (shape (XX fin)), (shape (YY fin)).
      repeat case_decide; try done.
      destruct (time fin); [|done]. by case_decide. }
  cbn [mbind result_bind]. destruct (shape ds_xx) as [ns nf].
  destruct (decide (start_idx < 0 ∨ Z.of_nat ns ≤ start_idx)%Z); [done|].
  destruct ns_max as [m|]; cbn [mbind result_bind].
  - destruct (decide (m ≤ 0)%Z); [done|]. cbn [mbind result_bind].
    destruct (decide (m `min` (Z.of_nat ns - start_idx) ≤ 0)%Z); [lia|].
    unfold floordiv. case_decide; [done|]. cbn [mbind result_bind].
    case_decide; [done|].
    by destruct (compute_sk_thresholds _ _ _ _) as [[[? ?] ?]|].
  - destruct (decide (Z.of_nat ns - start_idx ≤ 0)%Z); [lia|].
    unfold floordiv. case_decide; [done|]. cbn [mbind result_bind].
    case_decide; [done|].
    by destruct (compute_sk_thresholds _ _ _ _) as [[[? ?] ?]|].
Qed.

(* ================================================================== *)
(** ** The demo-segment tool and stage 1 *)
(* ================================================================== *)

Lemma slice_all {A} (n : nat) (l : list A) :
  length l = n → slice 0 (0 + Z.of_nat n) l = l.
Proof.
  intros Hl. unfold slice. rewrite drop_0.
  apply take_ge. lia.
Qed.

Lemma slice_rows_all {A} (n : nat) (rs : list (list A)) :
  Forall (λ r, length r = n) rs → slice 0 (0 + Z.of_nat n) <$> rs = rs.
Proof.
  induction 1 as [|r rs Hr _ IH]; [done|].
  by rewrite fmap_cons, IH, slice_all.
Qed.

Lemma slice_Forall {A} (P : A → Prop) (i0 i1 : Z) (l : list A) :
  Forall P l → Forall P (slice i0 i1 l).
Proof. intros H. unfold slice. by apply Forall_take, Forall_drop. Qed.

Lemma slice_length_min {A} (i0 i1 : Z) (l : list A) :
  length (slice i0 i1 l) = Z.to_nat (i1 - i0) `min` (length l - Z.to_nat i0).
Proof. unfold slice. by rewrite length_take, length_drop. Qed.

Lemma aslice_wf (t0 t1 f0 f1 : Z) (ds : ndarray float) :
  wf ds → wf (segment.aslice t0 t1 f0 f1 ds).
Proof.
  intros [Hr Hc]. split; cbn [segment.aslice rows shape fst snd].
  - by rewrite length_fmap, slice_length_min, Hr.
  - apply Forall_fmap, slice_Forall. eapply Forall_impl; [exact Hc|].
    intros r Hlen. cbn. by rewrite slice_length_min, Hlen.
Qed.

Lemma segment_ok_inv (fin seg : h5file)
    (start_idx_time n_frames start_idx_freq n_channels : Z) :
  segment.make_demo_segment fin start_idx_time n_frames start_idx_freq
    n_channels = inr seg →
  let ntime := Z.of_nat (shape (XX fin)).1 in
  let nfreq := Z.of_nat (shape (XX fin)).2 in
  let T := (n_frames `min` (ntime - start_idx_time))%Z in
  let F := (n_channels `min` (nfreq - start_idx_freq))%Z in
  ∃ ds_time,
    obs_time fin = Some ds_time ∧
    (0 ≤ start_idx_time < ntime)%Z ∧ (0 < n_frames)%Z ∧
    (0 ≤ start_idx_freq < nfreq)%Z ∧ (0 < n_channels)%Z ∧
    seg = {| XX := segment.aslice start_idx_time (start_idx_time + T)
                     start_idx_freq (start_idx_freq + F) (XX fin);
             YY := segment.aslice start_idx_time (start_idx_time + T)
                     start_idx_freq (start_idx_freq + F) (YY fin);
             freq := slice start_idx_freq (start_idx_freq + F) (freq fin);
             time := None;
             obs_time :=
               Some (slice start_idx_time (start_idx_time + T) ds_time) |}.
Proof.
  unfold segment.make_demo_segment.
  destruct (shape (XX fin)) as [nt nf]. cbn [fst snd].
  destruct (obs_time fin) as [ds_time|]; [|done].
  repeat case_decide; try done.
  intros [= <-]. exists ds_time. repeat split; try done; lia.
Qed.

(** The two guards "No frames selected" and "No channels selected" of the
    demo-segment tool can never fire: the checks before them leave at
    least one frame and one channel. *)
Theorem segment_guards_dead (fin : h5file)
    (start_idx_time n_frames start_idx_freq n_channels : Z) :
  segment.make_demo_segment fin start_idx_time n_frames start_idx_freq
    n_channels ≠ inl segment.No_frames_selected ∧
  segment.make_demo_segment fin start_idx_time n_frames start_idx_freq
    n_channels ≠ inl segment.No_channels_selected.
Proof.
  unfold segment.make_demo_segment.
  destruct (shape (XX fin)) as [nt nf].
  destruct (obs_time fin) as [ds_time|]; [|done].
  split; repeat case_decide; try done; lia.
Qed.

Lemma segment_shape (fin seg : h5file)
    (start_idx_time n_frames start_idx_freq n_channels : Z) :
  layout_ok fin → (∀ p, wf (raw_of p fin)) →
  segment.make_demo_segment fin start_idx_time n_frames start_idx_freq
    n_channels = inr seg →
  let T := Z.to_nat (n_frames `min`
                       (Z.of_nat (shape (XX fin)).1 - start_idx_time)) in
  let F := Z.to_nat (n_channels `min`
                       (Z.of_nat (shape (XX fin)).2 - start_idx_freq)) in
  0 < T ∧ 0 < F ∧
  (∀ p, wf (raw_of p seg) ∧ shape (raw_of p seg) = (T, F)) ∧
  layout_ok seg ∧
  time seg = None ∧
  ∃ ds_time,
    obs_time fin = Some ds_time ∧
    obs_time seg
    = Some (slice start_idx_time (start_idx_time + Z.of_nat T) ds_time) ∧
    (length ds_time = (shape (XX fin)).1 →
     length (slice start_idx_time (start_idx_time + Z.of_nat T) ds_time) = T).
Proof.
  intros (Hshape&Hfreq&Htime) Hwf Hseg T F.
  destruct (segment_ok_inv _ _ _ _ _ _ Hseg)
    as (ds_time&Ht&Hst&Hn&Hsf&Hnc&->).
  assert (∀ p, shape (raw_of p fin) = shape (XX fin)) as Hsh
    by (by intros []).
  assert (∀ p, shape (segment.aslice start_idx_time
                 (start_idx_time + n_frames `min`
                    (Z.of_nat (shape (XX fin)).1 - start_idx_time))
                 start_idx_freq
                 (start_idx_freq + n_channels `min`
                    (Z.of_nat (shape (XX fin)).2 - start_idx_freq))
                 (raw_of p fin)) = (T, F)) as Hsz.
  { intros p. cbn [segment.aslice shape]. rewrite Hsh. subst T F.
    f_equal; lia. }
  pose proof (Hsz PolXX) as Hx. pose proof (Hsz PolYY) as Hy.
  cbn [raw_of] in Hx, Hy.
  split; [subst T; lia|]. split; [subst F; lia|]. split.
  { intros p. split; [|by destruct p].
    destruct p; cbn [raw_of XX YY]; apply aslice_wf.
    - apply (Hwf PolXX).
    - apply (Hwf PolYY). }
  split.
  { split; [|split]; cbn [XX YY freq time].
    - by rewrite Hx, Hy.
    - rewrite Hx, slice_length_min, Hfreq. subst F. cbn [snd]. lia.
    - by intros t [=]. }
  split; [done|].
  exists ds_time. split; [done|]. cbn [obs_time].
  assert (Z.of_nat T
          = n_frames `min` (Z.of_nat (shape (XX fin)).1 - start_idx_time))%Z
    as -> by (subst T; lia).
  split; [done|].
  intros Hlen. rewrite slice_length_min, Hlen. subst T. lia.
Qed.

(** A demo segment is a valid input of stage 1.  Cut from a consistent raw
    file with well-formed arrays, the segment has well-formed [T × F]
    arrays in both polarizations and a frequency axis of [F] entries, where
    [T] and [F] are the requested sizes cut at the end of the data.  Its
    time axis is the window of the dataset [/Observation1/time] of the
    source ([T] entries when the source has one entry per frame); the
    segment has no [time] dataset in the tuning group, where stage 1 looks
    for it. *)
Theorem segment_layout (fin seg : h5file)
    (start_idx_time n_frames start_idx_freq n_channels : Z) :
  layout_ok fin → (∀ p, wf (raw_of p fin)) →
  segment.make_demo_segment fin start_idx_time n_frames start_idx_freq
    n_channels = inr seg →
  let T := Z.to_nat (n_frames `min`
                       (Z.of_nat (shape (XX fin)).1 - start_idx_time)) in
  let F := Z.to_nat (n_channels `min`
                       (Z.of_nat (shape (XX fin)).2 - start_idx_freq)) in
  0 < T ∧ 0 < F ∧
  (∀ p, wf (raw_of p seg) ∧ shape (raw_of p seg) = (T, F)) ∧
  layout_ok seg ∧
  time seg = None ∧
  ∃ ds_time,
    obs_time fin = Some ds_time ∧
    obs_time seg
    = Some (slice start_idx_time (start_idx_time + Z.of_nat T) ds_time) ∧
    (length ds_time = (shape (XX fin)).1 →
     length (slice start_idx_time (start_idx_time + Z.of_nat T) ds_time) = T).
Proof.
  intros Hlay Hwf Hseg. by apply (segment_shape fin seg start_idx_time n_frames).
Qed.

Lemma segment_layout_witness :
  0 < Z.to_nat (4 `min` (5 - 1)) ∧ 0 < Z.to_nat (1 `min` (1 - 0)) ∧
  (∀ p, wf (raw_of p tail_c_segment) ∧
        shape (raw_of p tail_c_segment)
        = (Z.to_nat (4 `min` (5 - 1)), Z.to_nat (1 `min` (1 - 0)))) ∧
  layout_ok tail_c_segment ∧
  time tail_c_segment = None ∧
  ∃ ds_time,
    obs_time tail_c = Some ds_time ∧
    obs_time tail_c_segment
    = Some (slice 1 (1 + Z.of_nat (Z.to_nat (4 `min` (5 - 1)))) ds_time) ∧
    (length ds_time = 5 →
     length (slice 1 (1 + Z.of_nat (Z.to_nat (4 `min` (5 - 1)))) ds_time)
     = Z.to_nat (4 `min` (5 - 1))).
Proof.
  apply (segment_layout tail_c tail_c_segment 1 4 0 1).
  - split; [reflexivity|]. split; [reflexivity|]. by intros t [= <-].
  - intros []; (split; [reflexivity|]); repeat constructor.
  - reflexivity.
Defined.

Section segment_run.
Context `{E : SKEvaluator}.
Variables (fin seg : h5file) (M N : Z) (d pfa : float).
Variables (start_idx_time n_frames n_channels : Z) (out out' : skstream).
Hypothesis Hlay : layout_ok fin.
Hypothesis Hwf : ∀ p, wf (raw_of p fin).
Hypothesis Hseg :
  segment.make_demo_segment fin start_idx_time n_frames 0 n_channels = inr seg.
Hypothesis Hnc : (Z.of_nat (shape (XX fin)).2 ≤ n_channels)%Z.
Hypothesis Hrun :
  stream_sk_dualpol fin M N d pfa start_idx_time (Some n_frames) = Ok out.
Hypothesis Hrun' : stream_sk_dualpol seg M N d pfa 0 None = Ok out'.

Let S : Z := (n_frames `min` (Z.of_nat (shape (XX fin)).1 - start_idx_time))%Z.

Lemma segment_rows (p : pol) :
  rows (raw_of p seg)
  = slice start_idx_time (start_idx_time + S) (rows (raw_of p fin)) ∧
  (shape (raw_of p seg)).2 = (shape (raw_of p fin)).2 ∧
  (shape (raw_of p seg)).1 = Z.to_nat S.
Proof using Hlay Hwf Hseg Hnc.
  clear Hrun Hrun'. destruct Hlay as (Hshape&_).
  destruct (segment_ok_inv _ _ _ _ _ _ Hseg) as (ds_time&_&Hst&Hn&Hsf&_&->).
  assert (shape (raw_of p fin) = shape (XX fin)) as Hsh by (by destruct p).
  replace (n_channels `min` (Z.of_nat (shape (XX fin)).2 - 0))%Z
    with (Z.of_nat (shape (XX fin)).2) by lia.
  fold S.
  assert (raw_of p
            {| XX := segment.aslice start_idx_time (start_idx_time + S) 0
                       (0 + Z.of_nat (shape (XX fin)).2) (XX fin);
               YY := segment.aslice start_idx_time (start_idx_time + S) 0
                       (0 + Z.of_nat (shape (XX fin)).2) (YY fin);
               freq := slice 0 (0 + Z.of_nat (shape (XX fin)).2) (freq fin);
               time := None;
               obs_time :=
                 Some (slice start_idx_time (start_idx_time + S) ds_time) |}
          = segment.aslice start_idx_time (start_idx_time + S) 0
              (0 + Z.of_nat (shape (XX fin)).2) (raw_of p fin)) as ->
    by (by destruct p).
  cbn [segment.aslice rows shape fst snd]. rewrite Hsh.
  split; [|split; [lia|subst S; lia]].
  apply slice_rows_all, slice_Forall.
  rewrite <-Hsh. apply (Hwf p).
Qed.

Lemma segment_time : time seg = None.
Proof using Hseg.
  clear Hrun Hrun'.
  by destruct (segment_ok_inv _ _ _ _ _ _ Hseg) as (ds_time&Ht&_&_&_&_&->).
Qed.

Lemma segment_blocks (k : nat) :
  (Z.of_nat k < S `div` M)%Z →
  (0 ≤ start_idx_time)%Z ∧ (0 < M)%Z ∧
  (block_start start_idx_time M k + M ≤ start_idx_time + S)%Z ∧
  block_start 0 M k = (block_start start_idx_time M k - start_idx_time)%Z.
Proof using Hrun.
  clear Hrun'. intros Hk.
  pose proof (block_in_range _ _ _ _ _ _ _ _ Hrun k) as HB.
  cbn [selected] in HB. fold S in HB.
  destruct HB as (HM&H1&H2&H3&_&H5); [lia|].
  split; [done|]. split; [done|]. split; [|unfold block_start; lia].
  etrans; [exact H2|exact H3].
Qed.

Lemma segment_block_slice {A} (k : nat) (l : list A) :
  (Z.of_nat k < S `div` M)%Z →
  slice (block_start 0 M k) (block_start 0 M k + M)
        (slice start_idx_time (start_idx_time + S) l)
  = slice (block_start start_idx_time M k)
          (block_start start_idx_time M k + M) l.
Proof using Hrun.
  clear Hrun'. intros Hk. destruct (segment_blocks k Hk) as (H0&HM&Hend&->).
  apply slice_slice; [|lia|done].
  unfold block_start. split; [done|]. nia.
Qed.

Lemma segment_selected :
  selected (Z.of_nat (shape (XX seg)).1) 0 None = S ∧ (0 < S)%Z.
Proof using Hlay Hwf Hseg Hnc.
  clear Hrun Hrun'.
  destruct (segment_rows PolXX) as (_&_&H1). cbn [raw_of] in H1.
  destruct (segment_ok_inv _ _ _ _ _ _ Hseg) as (ds_time&_&Hst&Hn&_).
  cbn [selected]. rewrite H1. subst S. lia.
Qed.

Lemma segment_run_rows :
  (∀ p, s1_of p out' = s1_of p out ∧ flags_of p out' = flags_of p out) ∧
  length (time_blk out') = length (time_blk out) ∧
  ∀ k, k < length (time_blk out') →
       time_blk out' !! k
       = Some (Fin (Q2Qc ((2 * block_start 0 M k + M - 1) # 2))).
Proof using Hlay Hwf Hseg Hnc Hrun Hrun'.
  destruct segment_selected as [Hsel HS].
  pose proof (stream_lengths _ _ _ _ _ _ _ _ Hrun) as (L1&L2&L3&L4&L5).
  pose proof (stream_lengths _ _ _ _ _ _ _ _ Hrun') as (L1'&L2'&L3'&L4'&L5').
  rewrite Hsel in L1', L2', L3', L4', L5'.
  cbn [selected] in L1, L2, L3, L4, L5. fold S in L1, L2, L3, L4, L5.
  assert (∀ p k, k < Z.to_nat (S `div` M) →
            s1_of p out' !! k = s1_of p out !! k ∧
            flags_of p out' !! k = flags_of p out !! k) as Hrows.
  { intros p k Hk.
    destruct (segment_rows p) as (Hr&Hc&_).
    rewrite (stream_s1_row _ _ _ _ _ _ _ _ Hrun p k)
      by (cbn [selected]; fold S; lia).
    rewrite (stream_s1_row _ _ _ _ _ _ _ _ Hrun' p k) by (rewrite Hsel; lia).
    rewrite (stream_flags_row _ _ _ _ _ _ _ _ Hrun p k)
      by (cbn [selected]; fold S; lia).
    rewrite (stream_flags_row _ _ _ _ _ _ _ _ Hrun' p k) by (rewrite Hsel; lia).
    cbv zeta. unfold block_sk, block_moments.
    by rewrite Hr, Hc, segment_block_slice by lia. }
  split.
  - intros p. split; apply list_eq; intros k;
      destruct (decide (k < Z.to_nat (S `div` M))) as [Hk|Hk];
      try (by apply Hrows);
      rewrite !lookup_ge_None_2; try done; destruct p; cbn; lia.
  - split; [lia|]. intros k Hk.
    apply (synthetic_time_row seg M N d pfa 0 None out' k Hrun' segment_time).
    rewrite Hsel. destruct (segment_blocks 0) as (_&HM&_); lia.
Qed.

End segment_run.

(** Running stage 1 on a demo segment is running it on a window of the
    original, except for the block times.  For a segment of [n_frames]
    frames from frame [start_idx_time] that keeps every channel, a run on
    the original with [start_idx = start_idx_time] and [ns_max = n_frames]
    succeeds exactly when the run on the segment from its first sample
    does, and the two products have the same S1, flag and frequency
    datasets, the same number of time blocks and the same number of used
    samples.  The segment carries its time axis where stage 1 does not look
    for it, so the block times of the segment run are the centres of the
    segment's own sample indices, [k·M + (M − 1)/2], whatever the
    timestamps of the original; when the original has no tuning-group time
    dataset either, its block times are these shifted by
    [start_idx_time]. *)
Theorem segment_run_commutes `{E : SKEvaluator} (fin seg : h5file) (M N : Z)
    (d pfa : float) (start_idx_time n_frames n_channels : Z) :
  layout_ok fin → (∀ p, wf (raw_of p fin)) →
  segment.make_demo_segment fin start_idx_time n_frames 0 n_channels = inr seg →
  (Z.of_nat (shape (XX fin)).2 ≤ n_channels)%Z →
  ((∃ out, stream_sk_dualpol fin M N d pfa start_idx_time (Some n_frames)
           = Ok out)
   ↔ (∃ out', stream_sk_dualpol seg M N d pfa 0 None = Ok out')) ∧
  ∀ out out',
    stream_sk_dualpol fin M N d pfa start_idx_time (Some n_frames) = Ok out →
    stream_sk_dualpol seg M N d pfa 0 None = Ok out' →
    (∀ p, s1_of p out' = s1_of p out ∧ flags_of p out' = flags_of p out) ∧
    freq_hz out' = freq_hz out ∧
    attr_ns_eff out' = attr_ns_eff out ∧
    length (time_blk out') = length (time_blk out) ∧
    (∀ k, k < length (time_blk out') →
          time_blk out' !! k
          = Some (Fin (Q2Qc ((2 * block_start 0 M k + M - 1) # 2)))) ∧
    (time fin = None →
     ∀ k, k < length (time_blk out) →
          time_blk out !! k
          = Some (Fin (Q2Qc ((2 * block_start start_idx_time M k + M - 1)
                             # 2)))).
Proof.
  intros Hlay Hwf Hseg Hnc.
  destruct (segment_shape _ _ _ _ _ _ Hlay Hwf Hseg)
    as (_&_&_&(Hs1&Hs2&Hs3)&_).
  destruct (segment_selected fin seg start_idx_time n_frames n_channels
              Hlay Hwf Hseg Hnc) as [Hsel HS].
  destruct (segment_ok_inv _ _ _ _ _ _ Hseg) as (ds_time&_&Hst&Hn&_&_&Hsegeq).
  destruct Hlay as (Hl1&Hl2&Hl3).
  assert (∀ S, 0 < M → 0 < S `div` M → M ≤ S)%Z as Hdiv.
  { intros S HM HT. pose proof (Z.mul_div_le S M HM). nia. }
  split.
  - split; intros [o Ho].
    + destruct (stream_ok_inv _ _ _ _ _ _ _ _ Ho)
        as (_&_&_&_&HM&HT&_).
      destruct (stream_ok_thresholds _ _ _ _ _ _ _ _ Ho) as (lo&up&x&Hthr&_).
      cbn [selected] in HT.
      apply stream_total; [exact Hs1|exact Hs2|exact Hs3| |done| |].
      * cbn [selected] in Hsel. lia.
      * rewrite Hsel. split; [done|]. by apply Hdiv.
      * rewrite Hthr. by eexists.
    + destruct (stream_ok_inv _ _ _ _ _ _ _ _ Ho)
        as (_&_&_&_&HM&HT&_).
      destruct (stream_ok_thresholds _ _ _ _ _ _ _ _ Ho) as (lo&up&x&Hthr&_).
      rewrite Hsel in HT.
      apply stream_total; [exact Hl1|exact Hl2|exact Hl3|done| | |].
      * by intros m [= <-].
      * cbn [selected]. split; [done|]. by apply Hdiv.
      * rewrite Hthr. by eexists.
  - intros out out' Hrun Hrun'.
    destruct (segment_run_rows fin seg M N d pfa start_idx_time n_frames
                n_channels out out' (conj Hl1 (conj Hl2 Hl3)) Hwf Hseg Hnc
                Hrun Hrun')
      as (Hrows&Hlen&Htime).
    split; [done|].
    assert (freq_hz out' = freq_hz out ∧ attr_ns_eff out' = attr_ns_eff out)
      as [Hfr Heff].
    { destruct (stream_ok_inv _ _ _ _ _ _ _ _ Hrun)
        as (_&Hfl&_&_&_&_&_&_&->).
      destruct (stream_ok_inv _ _ _ _ _ _ _ _ Hrun')
        as (_&_&_&_&_&_&_&_&->).
      cbn [freq_hz attr_ns_eff]. rewrite Hsel. cbn [selected].
      split; [|done].
      rewrite Hsegeq. cbn [freq].
      replace (n_channels `min` (Z.of_nat (shape (XX fin)).2 - 0))%Z
        with (Z.of_nat (shape (XX fin)).2) by lia.
      by apply slice_all. }
    split; [done|]. split; [done|]. split; [done|]. split; [done|].
    intros Hnone k Hk.
    apply (synthetic_time_row fin M N d pfa start_idx_time (Some n_frames)
             out k Hrun Hnone).
    pose proof (stream_lengths _ _ _ _ _ _ _ _ Hrun) as (_&_&_&_&L5).
    rewrite L5 in Hk.
    destruct (stream_ok_inv _ _ _ _ _ _ _ _ Hrun) as (_&_&_&_&_&HT&_).
    lia.
Qed.

Lemma segment_run_commutes_witness :
  ((∃ out, stream_sk_dualpol (E := sample_evaluator zero one)
             tail_c 2 1 one pfa_default 1 (Some 4%Z) = Ok out)
   ↔ (∃ out', stream_sk_dualpol (E := sample_evaluator zero one)
                tail_c_segment 2 1 one pfa_default 0 None = Ok out')) ∧
  ∀ out out',
    stream_sk_dualpol (E := sample_evaluator zero one)
      tail_c 2 1 one pfa_default 1 (Some 4%Z) = Ok out →
    stream_sk_dualpol (E := sample_evaluator zero one)
      tail_c_segment 2 1 one pfa_default 0 None = Ok out' →
    (∀ p, s1_of p out' = s1_of p out ∧ flags_of p out' = flags_of p out) ∧
    freq_hz out' = freq_hz out ∧
    attr_ns_eff out' = attr_ns_eff out ∧
    length (time_blk out') = length (time_blk out) ∧
    (∀ k, k < length (time_blk out') →
          time_blk out' !! k
          = Some (Fin (Q2Qc ((2 * block_start 0 2 k + 2 - 1) # 2)))) ∧
    (time tail_c = None →
     ∀ k, k < length (time_blk out) →
          time_blk out !! k
          = Some (Fin (Q2Qc ((2 * block_start 1 2 k + 2 - 1) # 2)))).
Proof.
  apply (segment_run_commutes (E := sample_evaluator zero one)
           tail_c tail_c_segment 2 1 one pfa_default 1 4 1).
  - split; [reflexivity|]. split; [reflexivity|]. by intros t [= <-].
  - intros []; (split; [reflexivity|]); repeat constructor.
  - reflexivity.
  - simpl. lia.
Defined.

(** On the sample file, whose frames are stamped 10, 11, 12, 13, 14, the
    window from frame 1 has the block times 11.5 and 13.5, and the segment
    cut from frame 1 has the block times 0.5 and 2.5: the timestamps do not
    survive the cut. *)
Example segment_time_lost :
  time_blk tail_c_window = [Fin (Q2Qc (23 # 2)); Fin (Q2Qc (27 # 2))]
  ∧ stream_sk_dualpol (E := sample_evaluator zero one)
      tail_c_segment 2 1 one pfa_default 0 None
    = Ok (or_else (stream_sk_dualpol (E := sample_evaluator zero one)
                     tail_c_segment 2 1 one pfa_default 0 None) empty_product)
  ∧ time_blk (or_else (stream_sk_dualpol (E := sample_evaluator zero one)
                         tail_c_segment 2 1 one pfa_default 0 None)
                      empty_product)
    = [Fin (Q2Qc (1 # 2)); Fin (Q2Qc (5 # 2))].
Proof.
  split; [refine (bool_decide_unpack _ _); by vm_compute|].
  split; [vm_compute; reflexivity|].
  refine (bool_decide_unpack _ _); by vm_compute.
Qed.

(* ================================================================== *)
(** ** Claim on cells whose SK value is NaN *)
(* ================================================================== *)



